(** * srv-mon: group-scoped authorization and notification dispatch

    A shallow embedding of the API route handlers of srv-mon (Next.js route
    handlers over a Prisma/PostgreSQL store) and the properties of the
    authorization engine, the membership directory and the notification
    dispatch engine.

    Conventions of the embedding:
    - the store is a record of tables, each a list of rows in table order;
    - a handler is a computation in the monad [M]: it threads the store,
      and may throw a JavaScript exception (a message), which the outer
      [try { ... } catch] of each handler turns into a 500 response while the
      writes already made stay in the store (no handler opens a transaction);
    - [await] is sequencing; [Promise.all (xs.map f)] starts every [f x]
      and rejects when one of them rejects: it is modelled by running the
      [f x] in list order, all of them, and throwing afterwards when one
      threw;
    - identifiers are the uuid strings of the schema; [@default(uuid())] is
      modelled by picking an identifier that the table does not hold yet. *)

From stdpp Require Import base strings list sorting infinite pretty.
From Stdlib Require Import String ZArith Permutation.

Set Warnings "-register-all".
Open Scope string_scope.
Open Scope list_scope.

(** ** JavaScript values (JSON columns, request bodies, payloads) *)

Module Js.

Inductive JsVal :=
| JUndefined
| JNull
| JBool (b : bool)
| JNum (z : Z)
| JStr (s : string)
| JDate (time : nat)
| JArr (l : list JsVal)
| JObj (props : list (string * JsVal)).

Abbreviation Props := (list (string * JsVal)).

(** [!!v] *)
Definition truthy (v : JsVal) : bool :=
  match v with
  | JUndefined | JNull => false
  | JBool b => b
  | JNum z => negb (z =? 0)%Z
  | JStr s => negb (String.eqb s "")
  | JDate _ | JArr _ | JObj _ => true
  end.

(** [a || b] *)
Definition or (a b : JsVal) : JsVal := if truthy a then a else b.

(** [o[k]] on the own properties of an object. *)
Fixpoint get (k : string) (o : Props) : option JsVal :=
  match o with
  | [] => None
  | (k', v) :: r => if String.eqb k k' then Some v else get k r
  end.

(** [o[k] = v]: an existing key keeps its place, a new key goes last. *)
Fixpoint set (k : string) (v : JsVal) (o : Props) : Props :=
  match o with
  | [] => [(k, v)]
  | (k', v') :: r =>
      if String.eqb k k' then (k, v) :: r else (k', v') :: set k v r
  end.

Fixpoint chars (s : string) : list JsVal :=
  match s with
  | EmptyString => []
  | String c r => JStr (String c EmptyString) :: chars r
  end.

Definition indexed (l : list JsVal) : Props :=
  imap (fun i x => (pretty i, x)) l.

(** The own enumerable properties that [...v] copies: those of an object,
    the indices of an array or of a string, none for the other values. *)
Definition own_props (v : JsVal) : Props :=
  match v with
  | JObj p => p
  | JArr l => indexed l
  | JStr s => indexed (chars s)
  | _ => []
  end.

(** [{ ...target, ...src }] continued: copy the properties of [src] one by
    one onto [target]. *)
Definition spread (target : Props) (src : JsVal) : Props :=
  fold_left (fun acc kv => set (fst kv) (snd kv) acc) (own_props src) target.

Definition pad (width : nat) (n : N) : string :=
  let s := pretty n in
  String.concat "" (replicate (width - String.length s) "0") +:+ s.

(** [Date.prototype.toISOString] on the time value of a [Date], in
    milliseconds since the epoch: the UTC date of the proleptic Gregorian
    calendar, as [YYYY-MM-DDTHH:mm:ss.sssZ], and with the expanded year
    [+YYYYYY] after the year 9999. *)
Definition iso_of_N (t : N) : string :=
  let day_number := (t / 86400000)%N in
  let ms := (t mod 86400000)%N in
  let z := (day_number + 719468)%N in
  let era := (z / 146097)%N in
  let doe := (z mod 146097)%N in
  let yoe := ((doe - doe / 1460 + doe / 36524 - doe / 146096) / 365)%N in
  let doy := (doe - (365 * yoe + yoe / 4 - yoe / 100))%N in
  let mp := ((5 * doy + 2) / 153)%N in
  let day := (doy - (153 * mp + 2) / 5 + 1)%N in
  let month := (if mp <? 10 then mp + 3 else mp - 9)%N in
  let year := (yoe + era * 400 + (if month <=? 2 then 1 else 0))%N in
  (if (year <=? 9999)%N then pad 4 year else "+" +:+ pad 6 year)
  +:+ "-" +:+ pad 2 month +:+ "-" +:+ pad 2 day
  +:+ "T" +:+ pad 2 (ms / 3600000)%N
  +:+ ":" +:+ pad 2 ((ms / 60000) mod 60)%N
  +:+ ":" +:+ pad 2 ((ms / 1000) mod 60)%N
  +:+ "." +:+ pad 3 (ms mod 1000)%N +:+ "Z".

Definition toISOString (time : nat) : string := iso_of_N (N.of_nat time).

(** What [JSON.stringify] keeps of a value: a property whose value is
    [undefined] is left out, an [undefined] array element becomes [null], and
    a [Date] is written as its ISO string ([Date.prototype.toJSON]). *)
Fixpoint to_json (v : JsVal) : JsVal :=
  match v with
  | JDate time => JStr (toISOString time)
  | JArr l =>
      JArr (List.map (fun x => match x with
                               | JUndefined => JNull
                               | _ => to_json x
                               end) l)
  | JObj p =>
      JObj ((fix go (p : Props) : Props :=
               match p with
               | [] => []
               | (k, x) :: r =>
                   match x with
                   | JUndefined => go r
                   | _ => (k, to_json x) :: go r
                   end
               end) p)
  | _ => v
  end.

Definition of_option (o : option string) : JsVal :=
  match o with Some s => JStr s | None => JUndefined end.

End Js.
Import Js.

(** ** The data model (prisma/schema.prisma) *)

Abbreviation Id := string (only parsing).

Module UserRole.
Inductive t := SUPER_ADMIN | ADMIN | USER.
#[global] Instance eq_dec : EqDecision t.
Proof. solve_decision. Defined.
End UserRole.

Module GroupRole.
Inductive t := ADMIN | MEMBER.
#[global] Instance eq_dec : EqDecision t.
Proof. solve_decision. Defined.
End GroupRole.

Module NotificationChannelType.
Inductive t := EMAIL | WEBHOOK.
#[global] Instance eq_dec : EqDecision t.
Proof. solve_decision. Defined.
End NotificationChannelType.

Module NotificationLevel.
Inductive t := INFO | WARNING | ERROR.
#[global] Instance eq_dec : EqDecision t.
Proof. solve_decision. Defined.
Definition to_string (l : t) : string :=
  match l with INFO => "INFO" | WARNING => "WARNING" | ERROR => "ERROR" end.
End NotificationLevel.

Module ServerType.
Inductive t := DATABASE | APPLICATION | MAIL | OTHER.
#[global] Instance eq_dec : EqDecision t.
Proof. solve_decision. Defined.
End ServerType.

(** Modelled from the spec: the [Notification] model and its status enum are
    not in the schema file; the spec's data model gives the status values
    {PENDING, SENT, FAILED}, and a row is created without a status, so
    PENDING is the column default. *)
Module NotificationStatus.
Inductive t := PENDING | SENT | FAILED.
#[global] Instance eq_dec : EqDecision t.
Proof. solve_decision. Defined.
End NotificationStatus.

Record User := {
  user_id : Id;
  user_email : string;
  user_password : string;
  user_name : string;
  user_role : UserRole.t }.

Record Group := {
  group_id : Id;
  group_name : string;
  group_description : string }.

Record GroupUser := {
  gu_id : Id;
  gu_userId : Id;
  gu_groupId : Id;
  gu_role : GroupRole.t }.

(** [groups Group[]] is an implicit many-to-many relation: the row carries
    the identifiers of the groups it is connected to. *)
Record Server := {
  server_id : Id;
  server_name : string;
  server_createdById : Id;
  server_groups : list Id }.

(** [groups Group[] @relation("GroupProbes")], the implicit relation of a
    probe to groups of its own, is carried by the row as for [Server]. *)
Record Probe := {
  probe_id : Id;
  probe_name : string;
  probe_serverId : Id;
  probe_groups : list Id }.

Record NotificationConfig := {
  nc_id : Id;
  nc_name : string;
  nc_groupId : Id;
  nc_type : NotificationChannelType.t;
  nc_createdAt : nat }.

Record EmailNotification := {
  en_id : Id;
  en_notificationConfigId : Id;
  en_recipients : list string }.

Record WebhookNotification := {
  wn_id : Id;
  wn_notificationConfigId : Id;
  wn_url : string;
  wn_headers : JsVal;
  wn_payload : JsVal }.

Record Notification := {
  n_id : Id;
  n_serverId : Id;
  n_probeId : option Id;
  n_title : string;
  n_message : string;
  n_level : NotificationLevel.t;
  n_details : JsVal;
  n_notificationConfigId : Id;
  n_status : NotificationStatus.t;
  n_statusDetails : option string;
  n_sentAt : option nat }.

Record DB := {
  users : list User;
  groups : list Group;
  groupUsers : list GroupUser;
  servers : list Server;
  probes : list Probe;
  notificationConfigs : list NotificationConfig;
  emailNotifications : list EmailNotification;
  webhookNotifications : list WebhookNotification;
  notifications : list Notification }.

Definition empty_db : DB :=
  {| users := []; groups := []; groupUsers := []; servers := []; probes := [];
     notificationConfigs := []; emailNotifications := [];
     webhookNotifications := []; notifications := [] |}.

Definition with_users (v : list User) (d : DB) : DB :=
  {| users := v; groups := groups d; groupUsers := groupUsers d;
     servers := servers d; probes := probes d;
     notificationConfigs := notificationConfigs d;
     emailNotifications := emailNotifications d;
     webhookNotifications := webhookNotifications d;
     notifications := notifications d |}.

Definition with_groups (v : list Group) (d : DB) : DB :=
  {| users := users d; groups := v; groupUsers := groupUsers d;
     servers := servers d; probes := probes d;
     notificationConfigs := notificationConfigs d;
     emailNotifications := emailNotifications d;
     webhookNotifications := webhookNotifications d;
     notifications := notifications d |}.

Definition with_groupUsers (v : list GroupUser) (d : DB) : DB :=
  {| users := users d; groups := groups d; groupUsers := v;
     servers := servers d; probes := probes d;
     notificationConfigs := notificationConfigs d;
     emailNotifications := emailNotifications d;
     webhookNotifications := webhookNotifications d;
     notifications := notifications d |}.

Definition with_notificationConfigs (v : list NotificationConfig) (d : DB) : DB :=
  {| users := users d; groups := groups d; groupUsers := groupUsers d;
     servers := servers d; probes := probes d;
     notificationConfigs := v;
     emailNotifications := emailNotifications d;
     webhookNotifications := webhookNotifications d;
     notifications := notifications d |}.

Definition with_emailNotifications (v : list EmailNotification) (d : DB) : DB :=
  {| users := users d; groups := groups d; groupUsers := groupUsers d;
     servers := servers d; probes := probes d;
     notificationConfigs := notificationConfigs d;
     emailNotifications := v;
     webhookNotifications := webhookNotifications d;
     notifications := notifications d |}.

Definition with_webhookNotifications (v : list WebhookNotification) (d : DB) : DB :=
  {| users := users d; groups := groups d; groupUsers := groupUsers d;
     servers := servers d; probes := probes d;
     notificationConfigs := notificationConfigs d;
     emailNotifications := emailNotifications d;
     webhookNotifications := v;
     notifications := notifications d |}.

Definition with_notifications (v : list Notification) (d : DB) : DB :=
  {| users := users d; groups := groups d; groupUsers := groupUsers d;
     servers := servers d; probes := probes d;
     notificationConfigs := notificationConfigs d;
     emailNotifications := emailNotifications d;
     webhookNotifications := webhookNotifications d;
     notifications := v |}.

Definition with_probes (v : list Probe) (d : DB) : DB :=
  {| users := users d; groups := groups d; groupUsers := groupUsers d;
     servers := servers d; probes := v;
     notificationConfigs := notificationConfigs d;
     emailNotifications := emailNotifications d;
     webhookNotifications := webhookNotifications d;
     notifications := notifications d |}.

Definition with_servers (v : list Server) (d : DB) : DB :=
  {| users := users d; groups := groups d; groupUsers := groupUsers d;
     servers := v; probes := probes d;
     notificationConfigs := notificationConfigs d;
     emailNotifications := emailNotifications d;
     webhookNotifications := webhookNotifications d;
     notifications := notifications d |}.

(** ** The handler monad: store, exceptions, write faults *)

(** [budget] is the fault model of the store: [None] is a store that accepts
    every write; [Some n] is a store that accepts [n] more writes and then
    rejects each one (connection lost), which the client sees as a thrown
    exception. Reads are not counted. *)
Record World := { store : DB; budget : option nat }.

Definition healthy (d : DB) : World := {| store := d; budget := None |}.

Inductive outcome (A : Type) :=
| Ok (a : A)
| Throw (message : string).
Arguments Ok {A} a.
Arguments Throw {A} message.

Definition M (A : Type) : Type := World -> outcome A * World.

Definition ret {A} (a : A) : M A := fun w => (Ok a, w).

Definition bind {A B} (m : M A) (k : A -> M B) : M B :=
  fun w => match m w with
           | (Ok a, w') => k a w'
           | (Throw e, w') => (Throw e, w')
           end.

Definition throw {A} (e : string) : M A := fun w => (Throw e, w).

(** [try { m } catch (error) { h error.message }] *)
Definition try_catch {A} (m : M A) (h : string -> M A) : M A :=
  fun w => match m w with
           | (Ok a, w') => (Ok a, w')
           | (Throw e, w') => h e w'
           end.

Notation "'let*' x ':=' m 'in' k" := (bind m (fun x => k))
  (at level 10, x pattern, m at level 100, k at level 200).
Notation "'do*' m 'in' k" := (bind m (fun _ => k))
  (at level 10, m at level 100, k at level 200).

(** A read of the store. *)
Definition query {A} (f : DB -> A) : M A := fun w => (Ok (f (store w)), w).

(** A write of the store: refused when the store is out of budget, thrown
    when a constraint of the schema rejects it. *)
Definition write {A} (f : DB -> string + (A * DB)) : M A :=
  fun w =>
    match budget w with
    | Some 0 => (Throw "Can't reach database server", w)
    | b =>
        match f (store w) with
        | inl e => (Throw e, w)
        | inr (a, d) => (Ok a, {| store := d; budget := pred <$> b |})
        end
    end.

(** [await Promise.all (xs.map (async x => f x))] *)
Fixpoint promise_all {A B} (f : A -> M B) (xs : list A) : M (list B) :=
  match xs with
  | [] => ret []
  | x :: r =>
      fun w =>
        match f x w with
        | (Ok b, w1) =>
            match promise_all f r w1 with
            | (Ok bs, w2) => (Ok (b :: bs), w2)
            | (Throw e, w2) => (Throw e, w2)
            end
        | (Throw e, w1) =>
            (Throw e, snd (promise_all f r w1))
        end
  end.

(** HTTP responses: [NextResponse.json (body, { status })]. *)
Record Response (B : Type) := { status : nat; body : B }.
Arguments status {B} r.
Arguments body {B} r.

Definition json {B} (b : B) (st : nat) : Response B :=
  {| status := st; body := b |}.

(** The session of next-auth: [session?.user] with its id and role. *)
Record SessionUser := { su_id : Id; su_role : UserRole.t }.
Abbreviation Session := (option SessionUser).

(** ** The Prisma client: the queries the handlers issue *)

Module Prisma.

Definition ids_of {A} (key : A -> Id) (rows : list A) : list Id := key <$> rows.

(** [@default(uuid())]: an identifier the table does not hold. *)
Definition uuid {A} (key : A -> Id) (rows : list A) : Id :=
  fresh (ids_of key rows).

Definition has_id {A} (key : A -> Id) (id : Id) (rows : list A) : bool :=
  existsb (fun r => String.eqb (key r) id) rows.

Definition find_by {A} (key : A -> Id) (id : Id) (rows : list A) : option A :=
  List.find (fun r => String.eqb (key r) id) rows.

Definition remove_by {A} (key : A -> Id) (id : Id) (rows : list A) : list A :=
  List.filter (fun r => negb (String.eqb (key r) id)) rows.

Definition replace_by {A} (key : A -> Id) (id : Id) (f : A -> A)
    (rows : list A) : list A :=
  List.map (fun r => if String.eqb (key r) id then f r else r) rows.

Definition P2002 : string := "Unique constraint failed".
Definition P2003 : string := "Foreign key constraint failed".
Definition P2025 : string := "Record not found".

(** *** user *)

Definition user_findUnique (id : Id) (d : DB) : option User :=
  find_by user_id id (users d).

Definition user_findUnique_email (email : string) (d : DB) : option User :=
  find_by user_email email (users d).

Definition user_findFirst (where_ : User -> bool) (d : DB) : option User :=
  List.find where_ (users d).

Definition user_count (d : DB) : nat := List.length (users d).

Definition user_create (name email password : string) (role : UserRole.t)
    (d : DB) : string + (User * DB) :=
  if has_id user_email email (users d) then inl P2002
  else
    let u := {| user_id := uuid user_id (users d); user_email := email;
                user_password := password; user_name := name;
                user_role := role |} in
    inr (u, with_users (users d ++ [u]) d).

Definition user_update (id : Id) (f : User -> User) (d : DB)
    : string + (User * DB) :=
  match user_findUnique id d with
  | None => inl P2025
  | Some u =>
      let u' := f u in
      if existsb (fun o => negb (String.eqb (user_id o) id)
                           && String.eqb (user_email o) (user_email u'))
                 (users d)
      then inl P2002
      else inr (u', with_users (replace_by user_id id (fun _ => u') (users d)) d)
  end.

(** *** group *)

Definition group_findUnique (id : Id) (d : DB) : option Group :=
  find_by group_id id (groups d).

Definition group_create (name description : string) (d : DB)
    : string + (Group * DB) :=
  let g := {| group_id := uuid group_id (groups d); group_name := name;
              group_description := description |} in
  inr (g, with_groups (groups d ++ [g]) d).

(** *** groupUser *)

Definition groupUser_findFirst (where_ : GroupUser -> bool) (d : DB)
    : option GroupUser :=
  List.find where_ (groupUsers d).

Definition groupUser_findMany (where_ : GroupUser -> bool) (d : DB)
    : list GroupUser :=
  List.filter where_ (groupUsers d).

Definition groupUser_count (where_ : GroupUser -> bool) (d : DB) : nat :=
  List.length (groupUser_findMany where_ d).

(** [@@unique([userId, groupId])], and the two foreign keys. *)
Definition groupUser_create (userId groupId : Id) (role : GroupRole.t)
    (d : DB) : string + (GroupUser * DB) :=
  if negb (has_id user_id userId (users d)) then inl P2003
  else if negb (has_id group_id groupId (groups d)) then inl P2003
  else if existsb (fun m => String.eqb (gu_userId m) userId
                            && String.eqb (gu_groupId m) groupId)
                  (groupUsers d)
  then inl P2002
  else
    let m := {| gu_id := uuid gu_id (groupUsers d); gu_userId := userId;
                gu_groupId := groupId; gu_role := role |} in
    inr (m, with_groupUsers (groupUsers d ++ [m]) d).

Definition set_role (role : GroupRole.t) (m : GroupUser) : GroupUser :=
  {| gu_id := gu_id m; gu_userId := gu_userId m; gu_groupId := gu_groupId m;
     gu_role := role |}.

Definition groupUser_update (id : Id) (role : GroupRole.t) (d : DB)
    : string + (GroupUser * DB) :=
  match find_by gu_id id (groupUsers d) with
  | None => inl P2025
  | Some m =>
      inr (set_role role m,
           with_groupUsers (replace_by gu_id id (set_role role) (groupUsers d)) d)
  end.

Definition groupUser_delete (id : Id) (d : DB) : string + (GroupUser * DB) :=
  match find_by gu_id id (groupUsers d) with
  | None => inl P2025
  | Some m => inr (m, with_groupUsers (remove_by gu_id id (groupUsers d)) d)
  end.

Definition groupUser_deleteMany (where_ : GroupUser -> bool) (d : DB)
    : string + (nat * DB) :=
  inr (List.length (List.filter where_ (groupUsers d)),
       with_groupUsers (List.filter (fun m => negb (where_ m)) (groupUsers d)) d).

(** *** server, probe *)

Definition server_findUnique (id : Id) (d : DB) : option Server :=
  find_by server_id id (servers d).

Definition server_name_le (a b : Server) : Prop :=
  Is_true (String.leb (server_name a) (server_name b)).

#[global] Instance server_name_le_dec a b : Decision (server_name_le a b).
Proof. unfold server_name_le. apply _. Defined.

(** [findMany ({ where, orderBy: { name: "asc" } })] *)
Definition server_findMany (where_ : Server -> bool) (d : DB) : list Server :=
  merge_sort server_name_le (List.filter where_ (servers d)).

Definition probe_findUnique (id : Id) (d : DB) : option Probe :=
  find_by probe_id id (probes d).

Definition probe_findMany (where_ : Probe -> bool) (d : DB) : list Probe :=
  List.filter where_ (probes d).

(** *** notificationConfig and its two sub-configs *)

(** A row with [include: { emailConfig: true, webhookConfig: true }]. *)
Record NotificationConfigFull := {
  config : NotificationConfig;
  emailConfig : option EmailNotification;
  webhookConfig : option WebhookNotification }.

Definition emailNotification_findUnique (cfgId : Id) (d : DB)
    : option EmailNotification :=
  find_by en_notificationConfigId cfgId (emailNotifications d).

Definition webhookNotification_findUnique (cfgId : Id) (d : DB)
    : option WebhookNotification :=
  find_by wn_notificationConfigId cfgId (webhookNotifications d).

Definition notificationConfig_findUnique (id : Id) (d : DB)
    : option NotificationConfig :=
  find_by nc_id id (notificationConfigs d).

Definition include_configs (d : DB) (c : NotificationConfig)
    : NotificationConfigFull :=
  {| config := c;
     emailConfig := emailNotification_findUnique (nc_id c) d;
     webhookConfig := webhookNotification_findUnique (nc_id c) d |}.

Definition notificationConfig_findUnique_include (id : Id) (d : DB)
    : option NotificationConfigFull :=
  include_configs d <$> notificationConfig_findUnique id d.

Definition nc_newer (a b : NotificationConfigFull) : Prop :=
  nc_createdAt (config b) <= nc_createdAt (config a).

#[global] Instance nc_newer_dec a b : Decision (nc_newer a b).
Proof. unfold nc_newer. apply _. Defined.

(** [findMany ({ where, include, orderBy: { createdAt: "desc" } })] *)
Definition notificationConfig_findMany (where_ : NotificationConfig -> bool)
    (d : DB) : list NotificationConfigFull :=
  merge_sort nc_newer
    (include_configs d <$> List.filter where_ (notificationConfigs d)).

Definition notificationConfig_update (id : Id) (name : string) (groupId : Id)
    (type : NotificationChannelType.t) (d : DB)
    : string + (NotificationConfig * DB) :=
  match notificationConfig_findUnique id d with
  | None => inl P2025
  | Some c =>
      if negb (has_id group_id groupId (groups d)) then inl P2003
      else
        let c' := {| nc_id := nc_id c; nc_name := name; nc_groupId := groupId;
                     nc_type := type; nc_createdAt := nc_createdAt c |} in
        inr (c', with_notificationConfigs
                   (replace_by nc_id id (fun _ => c') (notificationConfigs d)) d)
  end.

Definition emailNotification_create (cfgId : Id) (recipients : list string)
    (d : DB) : string + (EmailNotification * DB) :=
  if negb (has_id nc_id cfgId (notificationConfigs d)) then inl P2003
  else if has_id en_notificationConfigId cfgId (emailNotifications d)
  then inl P2002
  else
    let e := {| en_id := uuid en_id (emailNotifications d);
                en_notificationConfigId := cfgId;
                en_recipients := recipients |} in
    inr (e, with_emailNotifications (emailNotifications d ++ [e]) d).

Definition emailNotification_update (cfgId : Id) (recipients : list string)
    (d : DB) : string + (EmailNotification * DB) :=
  match emailNotification_findUnique cfgId d with
  | None => inl P2025
  | Some e =>
      let e' := {| en_id := en_id e; en_notificationConfigId := cfgId;
                   en_recipients := recipients |} in
      inr (e', with_emailNotifications
                 (replace_by en_notificationConfigId cfgId (fun _ => e')
                    (emailNotifications d)) d)
  end.

Definition emailNotification_delete (cfgId : Id) (d : DB)
    : string + (EmailNotification * DB) :=
  match emailNotification_findUnique cfgId d with
  | None => inl P2025
  | Some e =>
      inr (e, with_emailNotifications
                (remove_by en_notificationConfigId cfgId (emailNotifications d)) d)
  end.

Definition webhookNotification_create (cfgId : Id) (url : string)
    (headers payload : JsVal) (d : DB) : string + (WebhookNotification * DB) :=
  if negb (has_id nc_id cfgId (notificationConfigs d)) then inl P2003
  else if has_id wn_notificationConfigId cfgId (webhookNotifications d)
  then inl P2002
  else
    let h := {| wn_id := uuid wn_id (webhookNotifications d);
                wn_notificationConfigId := cfgId; wn_url := url;
                wn_headers := headers; wn_payload := payload |} in
    inr (h, with_webhookNotifications (webhookNotifications d ++ [h]) d).

Definition webhookNotification_update (cfgId : Id) (url : string)
    (headers payload : JsVal) (d : DB) : string + (WebhookNotification * DB) :=
  match webhookNotification_findUnique cfgId d with
  | None => inl P2025
  | Some h =>
      let h' := {| wn_id := wn_id h; wn_notificationConfigId := cfgId;
                   wn_url := url; wn_headers := headers;
                   wn_payload := payload |} in
      inr (h', with_webhookNotifications
                 (replace_by wn_notificationConfigId cfgId (fun _ => h')
                    (webhookNotifications d)) d)
  end.

Definition webhookNotification_delete (cfgId : Id) (d : DB)
    : string + (WebhookNotification * DB) :=
  match webhookNotification_findUnique cfgId d with
  | None => inl P2025
  | Some h =>
      inr (h, with_webhookNotifications
                (remove_by wn_notificationConfigId cfgId (webhookNotifications d)) d)
  end.

(** *** notification *)

(** Modelled from the spec: the [Notification] model is not in the schema
    file. Its columns are those the send route writes; the history page reads
    its [server], [probe] and [notificationConfig] relations, so the three
    identifiers are foreign keys ([probeId] an optional one); a new row has
    the default status PENDING, no status details and no [sentAt]. *)
Definition notification_create (serverId : Id) (probeId : option Id)
    (title message : string) (level : NotificationLevel.t) (details : JsVal)
    (notificationConfigId : Id) (d : DB) : string + (Notification * DB) :=
  if negb (has_id server_id serverId (servers d)) then inl P2003
  else if negb (from_option (fun p => has_id probe_id p (probes d)) true probeId)
  then inl P2003
  else if negb (has_id nc_id notificationConfigId (notificationConfigs d))
  then inl P2003
  else
    let n := {| n_id := uuid n_id (notifications d); n_serverId := serverId;
                n_probeId := probeId; n_title := title; n_message := message;
                n_level := level; n_details := details;
                n_notificationConfigId := notificationConfigId;
                n_status := NotificationStatus.PENDING;
                n_statusDetails := None; n_sentAt := None |} in
    inr (n, with_notifications (notifications d ++ [n]) d).

Definition notification_update (id : Id) (f : Notification -> Notification)
    (d : DB) : string + (Notification * DB) :=
  match find_by n_id id (notifications d) with
  | None => inl P2025
  | Some n =>
      inr (f n, with_notifications (replace_by n_id id f (notifications d)) d)
  end.

(** *** deletions, and the referential actions of the schema *)

(** [{ in: ids }] *)
Definition is_in (ids : list Id) (id : Id) : bool :=
  existsb (String.eqb id) ids.

(** [user.delete]: the memberships of the user go with the row
    ([onDelete: Cascade] on [GroupUser.user]); the [createdBy] relation of
    [Server] declares no [onDelete], and a required relation then restricts:
    a user who created a server is not deleted. *)
Definition user_delete (id : Id) (d : DB) : string + (User * DB) :=
  match user_findUnique id d with
  | None => inl P2025
  | Some u =>
      if existsb (fun s => String.eqb (server_createdById s) id) (servers d)
      then inl P2003
      else
        inr (u, with_groupUsers
                  (List.filter (fun m => negb (String.eqb (gu_userId m) id))
                     (groupUsers d))
                  (with_users (remove_by user_id id (users d)) d))
  end.

(** [findMany ({ orderBy: { name: "asc" } })] *)
Definition group_name_le (a b : Group) : Prop :=
  Is_true (String.leb (group_name a) (group_name b)).

#[global] Instance group_name_le_dec a b : Decision (group_name_le a b).
Proof. unfold group_name_le. apply _. Defined.

Definition group_findMany (d : DB) : list Group :=
  merge_sort group_name_le (groups d).

(** [groupUser.findMany ({ where, select: { group: true } })] followed by
    [.map ((ug) => ug.group)]: the group of each membership, in the order of
    the memberships. *)
Definition groupUser_findMany_group (where_ : GroupUser -> bool) (d : DB)
    : list Group :=
  omap (fun m => group_findUnique (gu_groupId m) d)
       (groupUser_findMany where_ d).

Definition group_update (id : Id) (f : Group -> Group) (d : DB)
    : string + (Group * DB) :=
  match group_findUnique id d with
  | None => inl P2025
  | Some g => inr (f g, with_groups (replace_by group_id id f (groups d)) d)
  end.

(** [include: { servers: { select: { id: true } } }]: the servers the group
    is connected to. *)
Definition group_servers (id : Id) (d : DB) : list Server :=
  List.filter (fun s => is_in (server_groups s) id) (servers d).

Definition detach (id : Id) (s : Server) : Server :=
  {| server_id := server_id s; server_name := server_name s;
     server_createdById := server_createdById s;
     server_groups :=
       List.filter (fun g => negb (String.eqb g id)) (server_groups s) |}.

Definition detach_probe (id : Id) (p : Probe) : Probe :=
  {| probe_id := probe_id p; probe_name := probe_name p;
     probe_serverId := probe_serverId p;
     probe_groups :=
       List.filter (fun g => negb (String.eqb g id)) (probe_groups p) |}.

(** Modelled from the spec: the [Notification] model is not in the schema
    file, so neither is the referential action of its [notificationConfig]
    relation. A required relation declared without [onDelete] restricts, as
    [Server.createdBy] does, and that is what the two deletions below take: a
    configuration that a notification refers to is not deleted. *)
Definition referred_to (cfgIds : list Id) (d : DB) : bool :=
  existsb (fun n => is_in cfgIds (n_notificationConfigId n))
          (notifications d).

(** [notificationConfig.delete]: the two sub-configs go with the row
    ([onDelete: Cascade]). *)
Definition notificationConfig_delete (id : Id) (d : DB)
    : string + (NotificationConfig * DB) :=
  match notificationConfig_findUnique id d with
  | None => inl P2025
  | Some c =>
      if referred_to [id] d then inl P2003
      else
        inr (c, with_webhookNotifications
                  (remove_by wn_notificationConfigId id (webhookNotifications d))
                  (with_emailNotifications
                     (remove_by en_notificationConfigId id (emailNotifications d))
                     (with_notificationConfigs
                        (remove_by nc_id id (notificationConfigs d)) d)))
  end.

(** [group.delete]: the memberships and the notification configurations of
    the group go with the row ([onDelete: Cascade]), the sub-configs with
    their configuration, and the rows of the implicit relations to [Server]
    and to [Probe] with the group. *)
Definition group_delete (id : Id) (d : DB) : string + (Group * DB) :=
  match group_findUnique id d with
  | None => inl P2025
  | Some g =>
      let gone :=
        nc_id <$> List.filter (fun c => String.eqb (nc_groupId c) id)
                    (notificationConfigs d) in
      if referred_to gone d then inl P2003
      else
        inr (g,
             {| users := users d;
                groups := remove_by group_id id (groups d);
                groupUsers :=
                  List.filter (fun m => negb (String.eqb (gu_groupId m) id))
                    (groupUsers d);
                servers := detach id <$> servers d;
                probes := detach_probe id <$> probes d;
                notificationConfigs :=
                  List.filter (fun c => negb (String.eqb (nc_groupId c) id))
                    (notificationConfigs d);
                emailNotifications :=
                  List.filter
                    (fun e => negb (is_in gone (en_notificationConfigId e)))
                    (emailNotifications d);
                webhookNotifications :=
                  List.filter
                    (fun h => negb (is_in gone (wn_notificationConfigId h)))
                    (webhookNotifications d);
                notifications := notifications d |})
  end.

(** *** creations *)

(** [createdAt DateTime @default(now())] *)
Definition notificationConfig_create (name : string) (groupId : Id)
    (type : NotificationChannelType.t) (createdAt : nat) (d : DB)
    : string + (NotificationConfig * DB) :=
  if negb (has_id group_id groupId (groups d)) then inl P2003
  else
    let c := {| nc_id := uuid nc_id (notificationConfigs d); nc_name := name;
                nc_groupId := groupId; nc_type := type;
                nc_createdAt := createdAt |} in
    inr (c, with_notificationConfigs (notificationConfigs d ++ [c]) d).

(** [server.create] with [groups: { connect }]: every connected group must
    exist, and the implicit relation holds a pair once. The [type] and
    [description] columns are not among the columns [Server] keeps here. *)
Definition server_create (name : string) (type : ServerType.t)
    (description : string) (createdById : Id) (groupIds : list Id) (d : DB)
    : string + (Server * DB) :=
  if negb (has_id user_id createdById (users d)) then inl P2003
  else if negb (forallb (fun g => has_id group_id g (groups d)) groupIds)
  then inl P2025
  else
    let s := {| server_id := uuid server_id (servers d); server_name := name;
                server_createdById := createdById;
                server_groups := remove_dups groupIds |} in
    inr (s, with_servers (servers d ++ [s]) d).

End Prisma.

(** ** Response bodies *)

Inductive Body (A : Type) :=
| Msg (message : string)
| MsgError (message error : string)
| Invalid (message : string) (errors : list string)
| MsgData (message : string) (data : A)
| Data (data : A).
Arguments Msg {A} message.
Arguments MsgError {A} message error.
Arguments Invalid {A} message errors.
Arguments MsgData {A} message data.
Arguments Data {A} data.

Definition includes (ids : list Id) (id : Id) : bool :=
  existsb (String.eqb id) ids.

Definition is_super_admin (r : UserRole.t) : bool :=
  bool_decide (r = UserRole.SUPER_ADMIN).

Definition is_group_admin (r : GroupRole.t) : bool :=
  bool_decide (r = GroupRole.ADMIN).

(** [user?.role === "SUPER_ADMIN"] *)
Definition role_is_super_admin (u : option User) : bool :=
  from_option (fun u => is_super_admin (user_role u)) false u.

(** [member.user]: the row of a required relation; reading a property of a
    missing one throws a TypeError. *)
Definition required {A} (o : option A) : M A :=
  match o with
  | Some a => ret a
  | None => throw "TypeError: Cannot read properties of null"
  end.

(** ** Group members: groups/[id]/members and groups/[id]/members/[userId] *)

Module GroupMembers.

Record NewMember := { nm_id : Id; nm_role : GroupRole.t }.

(** [addMembersSchema], [updateMemberSchema] *)
Record AddMembersBody := { am_users : list NewMember }.
Record UpdateMemberBody := { um_role : GroupRole.t }.

Definition same_member (groupId userId : Id) (m : GroupUser) : bool :=
  String.eqb (gu_userId m) userId && String.eqb (gu_groupId m) groupId.

Definition admin_of (groupId : Id) (m : GroupUser) : bool :=
  String.eqb (gu_groupId m) groupId && is_group_admin (gu_role m).

Definition checkGroupAdmin (groupId userId : Id) : M bool :=
  let* user := query (Prisma.user_findUnique userId) in
  if role_is_super_admin user then ret true
  else
    let* groupUser :=
      query (Prisma.groupUser_findFirst
               (fun m => same_member groupId userId m
                         && is_group_admin (gu_role m))) in
    ret (bool_decide (is_Some groupUser)).

Section Routes.

(** zod's [z.string().uuid()] *)
Variable is_uuid : string -> bool.

Definition addMembersSchema (b : AddMembersBody) : list string :=
  omap (fun u => if is_uuid (nm_id u) then None
                 else Some "L'ID de l'utilisateur doit être un UUID valide")
       (am_users b).

Definition POST (session : Session) (groupId : Id) (body : AddMembersBody)
    : M (Response (Body (list GroupUser))) :=
  try_catch
    (match session with
     | None => ret (json (Msg "Non autorisé") 401)
     | Some su =>
         let* isAdmin := checkGroupAdmin groupId (su_id su) in
         if negb isAdmin then
           ret (json (Msg "Vous devez être administrateur du groupe pour ajouter des membres") 403)
         else
           match addMembersSchema body with
           | _ :: _ as errors =>
               ret (json (Invalid "Données d'entrée invalides" errors) 400)
           | [] =>
               let users := am_users body in
               let* group := query (Prisma.group_findUnique groupId) in
               match group with
               | None => ret (json (Msg "Groupe introuvable") 404)
               | Some _ =>
                   let* existingMembers :=
                     query (Prisma.groupUser_findMany
                              (fun m => String.eqb (gu_groupId m) groupId)) in
                   let existingUserIds := gu_userId <$> existingMembers in
                   let newUsers :=
                     List.filter
                       (fun user => negb (includes existingUserIds (nm_id user)))
                       users in
                   if Nat.eqb (List.length newUsers) 0 then
                     ret (json (Msg "Tous les utilisateurs sélectionnés sont déjà membres du groupe") 400)
                   else
                     let* createdMembers :=
                       promise_all
                         (fun user =>
                            write (Prisma.groupUser_create
                                     (nm_id user) groupId (nm_role user)))
                         newUsers in
                     ret (json (MsgData
                                  (pretty (List.length createdMembers)
                                   +:+ " membre(s) ajouté(s) au groupe")
                                  createdMembers) 201)
               end
           end
     end)
    (fun _ =>
       ret (json (Msg "Une erreur est survenue lors de l'ajout des membres au groupe") 500)).

End Routes.

(** The guard shared by PUT and DELETE: only a Super Admin may touch the
    membership of a Super Admin. *)
Definition caller_is_super_admin (su : SessionUser) : M bool :=
  let* currentUser := query (Prisma.user_findUnique (su_id su)) in
  ret (role_is_super_admin currentUser).

Definition PUT (session : Session) (groupId memberId : Id)
    (body : UpdateMemberBody) : M (Response (Body GroupUser)) :=
  try_catch
    (match session with
     | None => ret (json (Msg "Non autorisé") 401)
     | Some su =>
         let* isAdmin := checkGroupAdmin groupId (su_id su) in
         if negb isAdmin then
           ret (json (Msg "Vous devez être administrateur du groupe pour modifier les rôles") 403)
         else
           let role := um_role body in
           let* member :=
             query (Prisma.groupUser_findFirst (same_member groupId memberId)) in
           match member with
           | None => ret (json (Msg "Membre introuvable dans ce groupe") 404)
           | Some member =>
               let* member_user :=
                 (let* u := query (Prisma.user_findUnique (gu_userId member)) in
                  required u) in
               let* forbidden :=
                 (if is_super_admin (user_role member_user) then
                    let* super := caller_is_super_admin su in ret (negb super)
                  else ret false) in
               if forbidden then
                 ret (json (Msg "Vous ne pouvez pas modifier le rôle d'un Super Admin") 403)
               else
                 let* last_admin :=
                   (if is_group_admin (gu_role member)
                       && bool_decide (role = GroupRole.MEMBER) then
                      let* admins :=
                        query (Prisma.groupUser_findMany (admin_of groupId)) in
                      ret (Nat.eqb (List.length admins) 1)
                    else ret false) in
                 if last_admin then
                   ret (json (Msg "Impossible de rétrograder le dernier administrateur du groupe") 400)
                 else
                   let* updatedMember :=
                     write (Prisma.groupUser_update (gu_id member) role) in
                   ret (json (Data updatedMember) 200)
           end
     end)
    (fun _ =>
       ret (json (Msg "Une erreur est survenue lors de la mise à jour du membre") 500)).

Definition DELETE (session : Session) (groupId memberId : Id)
    : M (Response (Body GroupUser)) :=
  try_catch
    (match session with
     | None => ret (json (Msg "Non autorisé") 401)
     | Some su =>
         let* isAdmin := checkGroupAdmin groupId (su_id su) in
         if negb isAdmin then
           ret (json (Msg "Vous devez être administrateur du groupe pour retirer des membres") 403)
         else
           let* member :=
             query (Prisma.groupUser_findFirst (same_member groupId memberId)) in
           match member with
           | None => ret (json (Msg "Membre introuvable dans ce groupe") 404)
           | Some member =>
               let* member_user :=
                 (let* u := query (Prisma.user_findUnique (gu_userId member)) in
                  required u) in
               let* forbidden :=
                 (if is_super_admin (user_role member_user) then
                    let* super := caller_is_super_admin su in ret (negb super)
                  else ret false) in
               if forbidden then
                 ret (json (Msg "Vous ne pouvez pas retirer un Super Admin du groupe") 403)
               else
                 let* last_admin :=
                   (if is_group_admin (gu_role member) then
                      let* admins :=
                        query (Prisma.groupUser_findMany (admin_of groupId)) in
                      ret (Nat.eqb (List.length admins) 1)
                    else ret false) in
                 if last_admin then
                   ret (json (Msg "Impossible de retirer le dernier administrateur du groupe") 400)
                 else
                   do* write (Prisma.groupUser_delete (gu_id member)) in
                   ret (json (Msg "Membre retiré du groupe avec succès") 200)
           end
     end)
    (fun _ =>
       ret (json (Msg "Une erreur est survenue lors du retrait du membre") 500)).

End GroupMembers.

(** ** Groups: POST /api/groups *)

Module Groups.

(** [groupSchema] *)
Record GroupBody := { gb_name : string; gb_description : option string }.

Definition groupSchema (b : GroupBody) : list string :=
  if Nat.ltb (String.length (gb_name b)) 1 then ["Le nom est requis"] else [].

Definition POST (session : Session) (body : GroupBody)
    : M (Response (Body Group)) :=
  try_catch
    (match session with
     | None => ret (json (Msg "Non autorisé") 401)
     | Some su =>
         if negb (is_super_admin (su_role su))
            && negb (bool_decide (su_role su = UserRole.ADMIN)) then
           ret (json (Msg "Vous n'avez pas les droits nécessaires pour créer un groupe") 403)
         else
           match groupSchema body with
           | _ :: _ as errors =>
               ret (json (Invalid "Données d'entrée invalides" errors) 400)
           | [] =>
               let* group :=
                 write (Prisma.group_create (gb_name body)
                          (default "" (gb_description body))) in
               do* write (Prisma.groupUser_create (su_id su) (group_id group)
                            GroupRole.ADMIN) in
               ret (json (Data group) 201)
           end
     end)
    (fun _ =>
       ret (json (Msg "Une erreur est survenue lors de la création du groupe") 500)).

(** The answer is the object [{ groups }]: [Data] holds its one property. *)
Definition GET (session : Session) : M (Response (Body (list Group))) :=
  try_catch
    (match session with
     | None => ret (json (Msg "Non autorisé") 401)
     | Some su =>
         let* groups :=
           (if is_super_admin (su_role su) then query Prisma.group_findMany
            else
              query (Prisma.groupUser_findMany_group
                       (fun m => String.eqb (gu_userId m) (su_id su)))) in
         ret (json (Data groups) 200)
     end)
    (fun _ =>
       ret (json (Msg "Une erreur est survenue lors de la récupération des groupes") 500)).

End Groups.

(** ** Users: PUT /api/users/[id] *)

Module Users.

Record GroupAssignment := { ga_id : Id; ga_role : GroupRole.t }.

(** [updateUserSchema]: every field is optional. *)
Record UpdateUserBody := {
  uu_name : option string;
  uu_email : option string;
  uu_password : option string;
  uu_role : option UserRole.t;
  uu_groups : option (list GroupAssignment) }.

Section Routes.

Variable is_uuid : string -> bool.
Variable is_email : string -> bool.
(** [bcrypt.hash (password, 10)] *)
Variable bcrypt_hash : string -> string.

Definition check {A} (ok : A -> bool) (message : string) (o : option A)
    : list string :=
  match o with
  | Some a => if ok a then [] else [message]
  | None => []
  end.

Definition updateUserSchema (b : UpdateUserBody) : list string :=
  check (fun s => Nat.leb 1 (String.length s)) "Le nom est requis" (uu_name b)
  ++ check is_email "L'email doit être valide" (uu_email b)
  ++ check (fun s => Nat.leb 8 (String.length s))
       "Le mot de passe doit contenir au moins 8 caractères" (uu_password b)
  ++ check (forallb (fun g => is_uuid (ga_id g)))
       "L'ID du groupe doit être un UUID valide" (uu_groups b).

(** [if (x) updateData.x = x]: an empty string is not truthy. *)
Definition given (o : option string) : option string :=
  match o with
  | Some s => if String.eqb s "" then None else Some s
  | None => None
  end.

Definition apply_update (name email password : option string)
    (role : option UserRole.t) (u : User) : User :=
  {| user_id := user_id u;
     user_email := default (user_email u) (given email);
     user_password := default (user_password u) (bcrypt_hash <$> given password);
     user_name := default (user_name u) (given name);
     user_role := default (user_role u) role |}.

Definition PUT (session : Session) (userId : Id) (body : UpdateUserBody)
    : M (Response (Body User)) :=
  try_catch
    (match session with
     | None => ret (json (Msg "Non autorisé") 401)
     | Some su =>
         if negb (is_super_admin (su_role su))
            && negb (String.eqb (su_id su) userId) then
           ret (json (Msg "Vous n'avez pas les permissions nécessaires") 403)
         else
           let isSelfEdit := String.eqb (su_id su) userId in
           match updateUserSchema body with
           | _ :: _ as errors =>
               ret (json (Invalid "Données d'entrée invalides" errors) 400)
           | [] =>
               let finalRole := if isSelfEdit then None else uu_role body in
               let* taken :=
                 match given (uu_email body) with
                 | Some email =>
                     let* existingUser :=
                       query (Prisma.user_findFirst
                                (fun u => String.eqb (user_email u) email
                                          && negb (String.eqb (user_id u) userId))) in
                     ret (bool_decide (is_Some existingUser))
                 | None => ret false
                 end in
               if taken then
                 ret (json (Msg "Cet email est déjà associé à un compte") 400)
               else
                 let* updatedUser :=
                   write (Prisma.user_update userId
                            (apply_update (uu_name body) (uu_email body)
                               (uu_password body) finalRole)) in
                 do* match uu_groups body with
                     | Some groups =>
                         if is_super_admin (su_role su) then
                           do* write (Prisma.groupUser_deleteMany
                                        (fun m => String.eqb (gu_userId m) userId)) in
                           if Nat.ltb 0 (List.length groups) then
                             do* promise_all
                                   (fun group =>
                                      write (Prisma.groupUser_create userId
                                               (ga_id group) (ga_role group)))
                                   groups in
                             ret tt
                           else ret tt
                         else ret tt
                     | None => ret tt
                     end in
                 ret (json (Data updatedUser) 200)
           end
     end)
    (fun _ =>
       ret (json (Msg "Une erreur est survenue lors de la mise à jour de l'utilisateur") 500)).

End Routes.

Definition DELETE (session : Session) (userId : Id)
    : M (Response (Body unit)) :=
  try_catch
    (match session with
     | None => ret (json (Msg "Non autorisé") 401)
     | Some su =>
         if negb (is_super_admin (su_role su)) then
           ret (json (Msg "Vous n'avez pas les permissions nécessaires") 403)
         else if String.eqb (su_id su) userId then
           ret (json (Msg "Vous ne pouvez pas supprimer votre propre compte") 400)
         else
           let* user := query (Prisma.user_findUnique userId) in
           match user with
           | None => ret (json (Msg "Utilisateur introuvable") 404)
           | Some _ =>
               do* write (Prisma.user_delete userId) in
               ret (json (Msg "Utilisateur supprimé avec succès") 200)
           end
     end)
    (fun _ =>
       ret (json (Msg "Une erreur est survenue lors de la suppression de l'utilisateur") 500)).

End Users.

(** ** Users: POST /api/users *)

Module UserList.

(** [createUserSchema] *)
Record CreateUserBody := {
  cu_name : string;
  cu_email : string;
  cu_password : string;
  cu_role : UserRole.t;
  cu_groups : option (list Users.GroupAssignment) }.

(** [const { password: _, ...userWithoutPassword } = user] *)
Record UserWithoutPassword := {
  uwp_id : Id;
  uwp_email : string;
  uwp_name : string;
  uwp_role : UserRole.t }.

Definition without_password (u : User) : UserWithoutPassword :=
  {| uwp_id := user_id u; uwp_email := user_email u; uwp_name := user_name u;
     uwp_role := user_role u |}.

Section Routes.

Variable is_uuid : string -> bool.
Variable is_email : string -> bool.
Variable bcrypt_hash : string -> string.

Definition createUserSchema (b : CreateUserBody) : list string :=
  (if Nat.leb 1 (String.length (cu_name b)) then [] else ["Le nom est requis"])
  ++ (if is_email (cu_email b) then [] else ["L'email doit être valide"])
  ++ (if Nat.leb 8 (String.length (cu_password b)) then []
      else ["Le mot de passe doit contenir au moins 8 caractères"])
  ++ Users.check (forallb (fun g => is_uuid (Users.ga_id g)))
       "L'ID du groupe doit être un UUID valide" (cu_groups b).

Definition POST (session : Session) (body : CreateUserBody)
    : M (Response (Body UserWithoutPassword)) :=
  try_catch
    (match session with
     | None => ret (json (Msg "Non autorisé") 401)
     | Some su =>
         if negb (is_super_admin (su_role su)) then
           ret (json (Msg "Vous n'avez pas les permissions nécessaires") 403)
         else
           match createUserSchema body with
           | _ :: _ as errors =>
               ret (json (Invalid "Données d'entrée invalides" errors) 400)
           | [] =>
               let* existingUser :=
                 query (Prisma.user_findUnique_email (cu_email body)) in
               match existingUser with
               | Some _ =>
                   ret (json (Msg "Cet email est déjà associé à un compte") 400)
               | None =>
                   let hashedPassword := bcrypt_hash (cu_password body) in
                   let* user :=
                     write (Prisma.user_create (cu_name body) (cu_email body)
                              hashedPassword (cu_role body)) in
                   do* match cu_groups body with
                       | Some groups =>
                           if Nat.ltb 0 (List.length groups) then
                             do* promise_all
                                   (fun group =>
                                      write (Prisma.groupUser_create
                                               (user_id user)
                                               (Users.ga_id group)
                                               (Users.ga_role group)))
                                   groups in
                             ret tt
                           else ret tt
                       | None => ret tt
                       end in
                   ret (json (Data (without_password user)) 201)
               end
           end
     end)
    (fun _ =>
       ret (json (Msg "Une erreur est survenue lors de la création de l'utilisateur") 500)).

End Routes.

End UserList.

(** ** Registration: POST /api/auth/register *)

Module Register.

(** The parsed body: [registerSchema] keeps [name], [email] and [password]
    and strips every other key of the request ([rb_rest]). *)
Record RegisterBody := {
  rb_name : string;
  rb_email : string;
  rb_password : string;
  rb_rest : Js.Props }.

Record Registered := {
  reg_user : User;
  reg_isFirstUser : bool }.

Section Routes.

Variable is_email : string -> bool.
Variable bcrypt_hash : string -> string.

Definition registerSchema (b : RegisterBody) : list string :=
  (if Nat.leb 3 (String.length (rb_name b)) then []
   else ["Le nom doit contenir au moins 3 caractères"])
  ++ (if is_email (rb_email b) then [] else ["Adresse email invalide"])
  ++ (if Nat.leb 8 (String.length (rb_password b)) then []
      else ["Le mot de passe doit contenir au moins 8 caractères"]).

Definition POST (body : RegisterBody) : M (Response (Body Registered)) :=
  try_catch
    (match registerSchema body with
     | _ :: _ as errors =>
         ret (json (Invalid "Données d'entrée invalides" errors) 400)
     | [] =>
         let* existingUser :=
           query (Prisma.user_findUnique_email (rb_email body)) in
         match existingUser with
         | Some _ =>
             ret (json (Msg "Cet email est déjà utilisé par un autre compte") 409)
         | None =>
             let hashedPassword := bcrypt_hash (rb_password body) in
             let* userCount := query Prisma.user_count in
             let isFirstUser := Nat.eqb userCount 0 in
             let* user :=
               write (Prisma.user_create (rb_name body) (rb_email body)
                        hashedPassword
                        (if isFirstUser then UserRole.SUPER_ADMIN
                         else UserRole.USER)) in
             do* (if isFirstUser then
                    let* defaultGroup :=
                      write (Prisma.group_create "Groupe principal"
                               "Groupe par défaut créé à l'initialisation du système") in
                    do* write (Prisma.groupUser_create (user_id user)
                                 (group_id defaultGroup) GroupRole.ADMIN) in
                    ret tt
                  else ret tt) in
             ret (json (MsgData "Utilisateur créé avec succès"
                          {| reg_user := user; reg_isFirstUser := isFirstUser |})
                    201)
         end
     end)
    (fun _ =>
       ret (json (Msg "Une erreur est survenue lors de l'inscription") 500)).

End Routes.

End Register.

(** ** Probes of a server: /api/servers/[serverId]/probes *)

Module Probes.

Definition checkServerAccess (userId serverId : Id) (superAdmin : bool)
    : M bool :=
  if superAdmin then ret true
  else
    let* server := query (Prisma.server_findUnique serverId) in
    match server with
    | None => ret false
    | Some server =>
        let serverGroupIds := server_groups server in
        let* userGroupsCount :=
          query (Prisma.groupUser_count
                   (fun m => String.eqb (gu_userId m) userId
                             && includes serverGroupIds (gu_groupId m))) in
        ret (Nat.ltb 0 userGroupsCount)
    end.

Definition probe_name_le (a b : Probe) : Prop :=
  Is_true (String.leb (probe_name a) (probe_name b)).

#[global] Instance probe_name_le_dec a b : Decision (probe_name_le a b).
Proof. unfold probe_name_le. apply _. Defined.

Definition GET (session : Session) (serverId : Id)
    : M (Response (Body (list Probe))) :=
  try_catch
    (match session with
     | None => ret (json (Msg "Non autorisé") 401)
     | Some su =>
         let* hasAccess :=
           checkServerAccess (su_id su) serverId (is_super_admin (su_role su)) in
         if negb hasAccess then
           ret (json (Msg "Vous n'avez pas accès à ce serveur") 403)
         else
           let* probes :=
             query (fun d =>
                      merge_sort probe_name_le
                        (Prisma.probe_findMany
                           (fun p => String.eqb (probe_serverId p) serverId) d)) in
           ret (json (Data probes) 200)
     end)
    (fun _ =>
       ret (json (Msg "Une erreur est survenue lors de la récupération des sondes") 500)).

End Probes.

(** ** Servers: GET /api/servers *)

Module Servers.

Definition GET (session : Session) : M (Response (Body (list Server))) :=
  try_catch
    (match session with
     | None => ret (json (Msg "Non autorisé") 401)
     | Some su =>
         let* servers :=
           (if is_super_admin (su_role su) then
              query (Prisma.server_findMany (fun _ => true))
            else
              let* userGroups :=
                query (Prisma.groupUser_findMany
                         (fun m => String.eqb (gu_userId m) (su_id su))) in
              let groupIds := gu_groupId <$> userGroups in
              query (Prisma.server_findMany
                       (fun s => existsb (includes groupIds) (server_groups s)))) in
         ret (json (Data servers) 200)
     end)
    (fun _ =>
       ret (json (Msg "Une erreur est survenue lors de la récupération des serveurs") 500)).

(** [serverSchema] *)
Record ServerBody := {
  sv_name : string;
  sv_type : ServerType.t;
  sv_description : option string;
  sv_groups : list Id }.

Definition serverSchema (b : ServerBody) : list string :=
  (if Nat.leb 1 (String.length (sv_name b)) then [] else ["Le nom est requis"])
  ++ (if Nat.leb 1 (List.length (sv_groups b)) then []
      else ["Au moins un groupe est requis"]).

Definition POST (session : Session) (body : ServerBody)
    : M (Response (Body Server)) :=
  try_catch
    (match session with
     | None => ret (json (Msg "Non autorisé") 401)
     | Some su =>
         match serverSchema body with
         | _ :: _ as errors =>
             ret (json (Invalid "Données d'entrée invalides" errors) 400)
         | [] =>
             let groups := sv_groups body in
             let* userGroups :=
               query (Prisma.groupUser_findMany
                        (fun m => String.eqb (gu_userId m) (su_id su)
                                  && includes groups (gu_groupId m))) in
             let accessibleGroupIds := gu_groupId <$> userGroups in
             let create (authorizedGroups : list Id) :=
               let* server :=
                 write (Prisma.server_create (sv_name body) (sv_type body)
                          (default "" (sv_description body)) (su_id su)
                          authorizedGroups) in
               ret (json (Data server) 201) in
             if negb (is_super_admin (su_role su)) then
               let unauthorizedGroups :=
                 List.filter
                   (fun groupId => negb (includes accessibleGroupIds groupId))
                   groups in
               if Nat.ltb 0 (List.length unauthorizedGroups) then
                 ret (json (Msg "Vous n'avez pas accès à certains des groupes sélectionnés") 403)
               else create accessibleGroupIds
             else create groups
         end
     end)
    (fun _ =>
       ret (json (Msg "Une erreur est survenue lors de la création du serveur") 500)).

End Servers.

(** ** Notification configurations: GET /api/notifications *)

Module Notifications.

Definition GET (session : Session)
    : M (Response (Body (list Prisma.NotificationConfigFull))) :=
  try_catch
    (match session with
     | None => ret (json (Msg "Non autorisé") 401)
     | Some su =>
         let isSuperAdmin := is_super_admin (su_role su) in
         let* notificationConfigs :=
           (if isSuperAdmin then
              query (Prisma.notificationConfig_findMany (fun _ => true))
            else
              let* userGroups :=
                query (Prisma.groupUser_findMany
                         (fun m => String.eqb (gu_userId m) (su_id su))) in
              let groupIds := gu_groupId <$> userGroups in
              query (Prisma.notificationConfig_findMany
                       (fun c => includes groupIds (nc_groupId c)))) in
         ret (json (Data notificationConfigs) 200)
     end)
    (fun _ =>
       ret (json (Msg "Une erreur est survenue lors de la récupération des configurations de notification") 500)).

End Notifications.

(** ** One group: GET /api/groups/[id] *)

Module GroupById.

(** Modelled from the spec: the query of GET includes the relations
    [groupUsers] and [notificationConfigs] of a group and selects the column
    [image] of a user, which the schema file does not declare: it names the
    two relations [members] and [notifications], and [User] has no [image].
    The two relations are taken as the spec has them, the Memberships of the
    group and the NotificationConfigs attached to it, and [image] is not
    among the columns of the selected user. *)
Record GroupFull := {
  gf_group : Group;
  gf_groupUsers : list (GroupUser * option User);
  gf_servers : list Server;
  gf_notificationConfigs : list NotificationConfig }.

Definition checkGroupAccess (groupId userId : Id) (requireAdmin : bool)
    : M bool :=
  let* user := query (Prisma.user_findUnique userId) in
  if role_is_super_admin user then ret true
  else
    let* groupUser :=
      query (Prisma.groupUser_findFirst
               (fun m => String.eqb (gu_userId m) userId
                         && String.eqb (gu_groupId m) groupId
                         && (if requireAdmin then is_group_admin (gu_role m)
                             else true))) in
    ret (bool_decide (is_Some groupUser)).

(** Modelled from the spec: [include: { groupUsers: { include: { user } },
    servers, notificationConfigs }], with the relations of [GroupFull]. *)
Definition include_all (d : DB) (g : Group) : GroupFull :=
  {| gf_group := g;
     gf_groupUsers :=
       (fun m => (m, Prisma.user_findUnique (gu_userId m) d))
         <$> List.filter (fun m => String.eqb (gu_groupId m) (group_id g))
               (groupUsers d);
     gf_servers :=
       List.filter (fun s => includes (server_groups s) (group_id g)) (servers d);
     gf_notificationConfigs :=
       List.filter (fun c => String.eqb (nc_groupId c) (group_id g))
         (notificationConfigs d) |}.

Definition GET (session : Session) (groupId : Id)
    : M (Response (Body GroupFull)) :=
  try_catch
    (match session with
     | None => ret (json (Msg "Non autorisé") 401)
     | Some su =>
         let* hasAccess := checkGroupAccess groupId (su_id su) false in
         if negb hasAccess then
           ret (json (Msg "Vous n'avez pas accès à ce groupe") 403)
         else
           let* group :=
             query (fun d => include_all d <$> Prisma.group_findUnique groupId d) in
           match group with
           | None => ret (json (Msg "Groupe introuvable") 404)
           | Some group => ret (json (Data group) 200)
           end
     end)
    (fun _ =>
       ret (json (Msg "Une erreur est survenue lors de la récupération du groupe") 500)).

(** [updateGroupSchema] *)
Record UpdateGroupBody := {
  ug_name : option string;
  ug_description : option string }.

Definition updateGroupSchema (b : UpdateGroupBody) : list string :=
  match ug_name b with
  | Some s => if Nat.leb 1 (String.length s) then [] else ["Le nom est requis"]
  | None => []
  end.

(** [if (name) updateData.name = name] and
    [if (description !== undefined) updateData.description = description] *)
Definition apply_update (name description : option string) (g : Group)
    : Group :=
  {| group_id := group_id g;
     group_name :=
       match name with
       | Some s => if String.eqb s "" then group_name g else s
       | None => group_name g
       end;
     group_description := default (group_description g) description |}.

Definition PUT (session : Session) (groupId : Id) (body : UpdateGroupBody)
    : M (Response (Body Group)) :=
  try_catch
    (match session with
     | None => ret (json (Msg "Non autorisé") 401)
     | Some su =>
         let* isAdmin := checkGroupAccess groupId (su_id su) true in
         if negb isAdmin then
           ret (json (Msg "Vous devez être administrateur du groupe pour le modifier") 403)
         else
           match updateGroupSchema body with
           | _ :: _ as errors =>
               ret (json (Invalid "Données d'entrée invalides" errors) 400)
           | [] =>
               let* updatedGroup :=
                 write (Prisma.group_update groupId
                          (apply_update (ug_name body) (ug_description body))) in
               ret (json (Data updatedGroup) 200)
           end
     end)
    (fun _ =>
       ret (json (Msg "Une erreur est survenue lors de la mise à jour du groupe") 500)).

Definition DELETE (session : Session) (groupId : Id)
    : M (Response (Body unit)) :=
  try_catch
    (match session with
     | None => ret (json (Msg "Non autorisé") 401)
     | Some su =>
         if negb (is_super_admin (su_role su)) then
           ret (json (Msg "Seul un super administrateur peut supprimer un groupe") 403)
         else
           let* group :=
             query (fun d =>
                      (fun g => (g, Prisma.group_servers groupId d))
                        <$> Prisma.group_findUnique groupId d) in
           match group with
           | None => ret (json (Msg "Groupe introuvable") 404)
           | Some (_, group_servers) =>
               if Nat.ltb 0 (List.length group_servers) then
                 ret (json (Msg "Impossible de supprimer un groupe qui contient des serveurs. Veuillez d'abord retirer tous les serveurs du groupe.") 400)
               else
                 do* write (Prisma.group_delete groupId) in
                 ret (json (Msg "Groupe supprimé avec succès") 200)
           end
     end)
    (fun _ =>
       ret (json (Msg "Une erreur est survenue lors de la suppression du groupe") 500)).

End GroupById.

(** ** One notification configuration: /api/notifications/[id] *)

Module NotificationById.

(** [notificationSchema], a union discriminated by [type]: the variant of
    [config] is the declared type. *)
Inductive ConfigBody :=
| EmailBody (recipients : list string)
| WebhookBody (url : string) (headers payload : JsVal).

Record NotificationBody := {
  nb_name : string;
  nb_groupId : Id;
  nb_config : ConfigBody }.

Definition nb_type (b : NotificationBody) : NotificationChannelType.t :=
  match nb_config b with
  | EmailBody _ => NotificationChannelType.EMAIL
  | WebhookBody _ _ _ => NotificationChannelType.WEBHOOK
  end.

Definition checkNotificationAccess (notificationId userId : Id)
    (isSuperAdmin : bool) : M bool :=
  if isSuperAdmin then ret true
  else
    let* notificationConfig :=
      query (Prisma.notificationConfig_findUnique notificationId) in
    match notificationConfig with
    | None => ret false
    | Some notificationConfig =>
        let* groupUser :=
          query (Prisma.groupUser_findFirst
                   (fun m => String.eqb (gu_userId m) userId
                             && String.eqb (gu_groupId m)
                                  (nc_groupId notificationConfig))) in
        ret (bool_decide (is_Some groupUser))
    end.

Definition checkGroupAdminAccess (notificationId userId : Id)
    (isSuperAdmin : bool) : M bool :=
  if isSuperAdmin then ret true
  else
    let* notificationConfig :=
      query (Prisma.notificationConfig_findUnique notificationId) in
    match notificationConfig with
    | None => ret false
    | Some notificationConfig =>
        let* groupUser :=
          query (Prisma.groupUser_findFirst
                   (fun m => String.eqb (gu_userId m) userId
                             && String.eqb (gu_groupId m)
                                  (nc_groupId notificationConfig)
                             && is_group_admin (gu_role m))) in
        ret (bool_decide (is_Some groupUser))
    end.

Definition GET (session : Session) (notificationId : Id)
    : M (Response (Body Prisma.NotificationConfigFull)) :=
  try_catch
    (match session with
     | None => ret (json (Msg "Non autorisé") 401)
     | Some su =>
         let* hasAccess :=
           checkNotificationAccess notificationId (su_id su)
             (is_super_admin (su_role su)) in
         if negb hasAccess then
           ret (json (Msg "Vous n'avez pas accès à cette configuration de notification") 403)
         else
           let* notificationConfig :=
             query (Prisma.notificationConfig_findUnique_include notificationId) in
           match notificationConfig with
           | None =>
               ret (json (Msg "Configuration de notification introuvable") 404)
           | Some notificationConfig =>
               ret (json (Data notificationConfig) 200)
           end
     end)
    (fun _ =>
       ret (json (Msg "Une erreur est survenue lors de la récupération de la configuration de notification") 500)).

Section Routes.

Variable is_uuid : string -> bool.
Variable is_email : string -> bool.
Variable is_url : string -> bool.

Definition notificationSchema (b : NotificationBody) : list string :=
  (if Nat.leb 1 (String.length (nb_name b)) then [] else ["Le nom est requis"])
  ++ (if is_uuid (nb_groupId b) then []
      else ["L'ID de groupe doit être un UUID valide"])
  ++ match nb_config b with
     | EmailBody recipients =>
         (if forallb is_email recipients then [] else ["Email invalide"])
         ++ (if Nat.leb 1 (List.length recipients) then []
             else ["Au moins un destinataire est requis"])
     | WebhookBody url _ _ =>
         if is_url url then [] else ["L'URL du webhook doit être valide"]
     end.

Definition PUT (session : Session) (notificationId : Id)
    (body : NotificationBody)
    : M (Response (Body (option Prisma.NotificationConfigFull))) :=
  try_catch
    (match session with
     | None => ret (json (Msg "Non autorisé") 401)
     | Some su =>
         let* isGroupAdmin :=
           checkGroupAdminAccess notificationId (su_id su)
             (is_super_admin (su_role su)) in
         if negb isGroupAdmin then
           ret (json (Msg "Vous n'êtes pas autorisé à modifier cette configuration de notification") 403)
         else
           match notificationSchema body with
           | _ :: _ as errors =>
               ret (json (Invalid "Données d'entrée invalides" errors) 400)
           | [] =>
               let* existingConfig :=
                 query (Prisma.notificationConfig_findUnique_include
                          notificationId) in
               match existingConfig with
               | None =>
                   ret (json (Msg "Configuration de notification introuvable") 404)
               | Some existingConfig =>
                   let existing_type := nc_type (Prisma.config existingConfig) in
                   do* write (Prisma.notificationConfig_update notificationId
                                (nb_name body) (nb_groupId body) (nb_type body)) in
                   do* match nb_config body with
                       | EmailBody recipients =>
                           do* (if bool_decide
                                     (existing_type = NotificationChannelType.WEBHOOK)
                                   && bool_decide
                                        (is_Some (Prisma.webhookConfig existingConfig))
                                then
                                  do* write (Prisma.webhookNotification_delete
                                               notificationId) in ret tt
                                else ret tt) in
                           if bool_decide
                                (is_Some (Prisma.emailConfig existingConfig))
                           then
                             do* write (Prisma.emailNotification_update
                                          notificationId recipients) in ret tt
                           else
                             do* write (Prisma.emailNotification_create
                                          notificationId recipients) in ret tt
                       | WebhookBody url headers payload =>
                           do* (if bool_decide
                                     (existing_type = NotificationChannelType.EMAIL)
                                   && bool_decide
                                        (is_Some (Prisma.emailConfig existingConfig))
                                then
                                  do* write (Prisma.emailNotification_delete
                                               notificationId) in ret tt
                                else ret tt) in
                           if bool_decide
                                (is_Some (Prisma.webhookConfig existingConfig))
                           then
                             do* write (Prisma.webhookNotification_update
                                          notificationId url
                                          (Js.or headers (JObj []))
                                          (Js.or payload (JObj []))) in ret tt
                           else
                             do* write (Prisma.webhookNotification_create
                                          notificationId url
                                          (Js.or headers (JObj []))
                                          (Js.or payload (JObj []))) in ret tt
                       end in
                   let* updatedConfig :=
                     query (Prisma.notificationConfig_findUnique_include
                              notificationId) in
                   ret (json (Data updatedConfig) 200)
               end
           end
     end)
    (fun _ =>
       ret (json (Msg "Une erreur est survenue lors de la mise à jour de la configuration de notification") 500)).

End Routes.

Definition DELETE (session : Session) (notificationId : Id)
    : M (Response (Body unit)) :=
  try_catch
    (match session with
     | None => ret (json (Msg "Non autorisé") 401)
     | Some su =>
         let* isGroupAdmin :=
           checkGroupAdminAccess notificationId (su_id su)
             (is_super_admin (su_role su)) in
         if negb isGroupAdmin then
           ret (json (Msg "Vous n'êtes pas autorisé à supprimer cette configuration de notification") 403)
         else
           do* write (Prisma.notificationConfig_delete notificationId) in
           ret (json (Msg "Configuration de notification supprimée avec succès") 200)
     end)
    (fun _ =>
       ret (json (Msg "Une erreur est survenue lors de la suppression de la configuration de notification") 500)).

End NotificationById.

(** ** Notification configurations: POST /api/notifications *)

Module NotificationCollection.

Definition checkGroupAccess (userId groupId : Id) (isSuperAdmin : bool)
    : M bool :=
  if isSuperAdmin then ret true
  else
    let* groupUser :=
      query (Prisma.groupUser_findFirst
               (fun m => String.eqb (gu_userId m) userId
                         && String.eqb (gu_groupId m) groupId)) in
    ret (bool_decide (is_Some groupUser)).

Section Routes.

Variable is_uuid : string -> bool.
Variable is_email : string -> bool.
Variable is_url : string -> bool.
(** [new Date()] when the row is created. *)
Variable now : nat.

(** The schemas of the creation are those of the update
    ([NotificationById.notificationSchema]), declared again in this file. *)
Definition notificationSchema : NotificationById.NotificationBody -> list string :=
  NotificationById.notificationSchema is_uuid is_email is_url.

Definition POST (session : Session) (body : NotificationById.NotificationBody)
    : M (Response (Body (option Prisma.NotificationConfigFull))) :=
  try_catch
    (match session with
     | None => ret (json (Msg "Non autorisé") 401)
     | Some su =>
         match notificationSchema body with
         | _ :: _ as errors =>
             ret (json (Invalid "Données d'entrée invalides" errors) 400)
         | [] =>
             let* hasAccess :=
               checkGroupAccess (su_id su) (NotificationById.nb_groupId body)
                 (is_super_admin (su_role su)) in
             if negb hasAccess then
               ret (json (Msg "Vous n'avez pas accès à ce groupe") 403)
             else
               let* notificationConfig :=
                 write (Prisma.notificationConfig_create
                          (NotificationById.nb_name body)
                          (NotificationById.nb_groupId body)
                          (NotificationById.nb_type body) now) in
               do* match NotificationById.nb_config body with
                   | NotificationById.EmailBody recipients =>
                       do* write (Prisma.emailNotification_create
                                    (nc_id notificationConfig) recipients) in
                       ret tt
                   | NotificationById.WebhookBody url headers payload =>
                       do* write (Prisma.webhookNotification_create
                                    (nc_id notificationConfig) url
                                    (Js.or headers (JObj []))
                                    (Js.or payload (JObj []))) in
                       ret tt
                   end in
               let* completeConfig :=
                 query (Prisma.notificationConfig_findUnique_include
                          (nc_id notificationConfig)) in
               ret (json (Data completeConfig) 201)
         end
     end)
    (fun _ =>
       ret (json (Msg "Une erreur est survenue lors de la création de la configuration de notification") 500)).

End Routes.

End NotificationCollection.

(** ** The page notifications/new: the groups offered to the form *)

Module NewNotificationPage.

Definition getAccessibleGroups (userId : Id) (isSuperAdmin : bool)
    : M (list Group) :=
  if isSuperAdmin then query Prisma.group_findMany
  else
    query (Prisma.groupUser_findMany_group
             (fun m => String.eqb (gu_userId m) userId)).

End NewNotificationPage.

(** ** Dispatch: POST /api/notifications/send *)

Module Send.

(** [sendNotificationSchema] *)
Record SendBody := {
  sb_notificationConfigId : Id;
  sb_serverId : Id;
  sb_probeId : option Id;
  sb_level : NotificationLevel.t;
  sb_title : string;
  sb_message : string;
  sb_details : option Js.Props }.

(** [process.env] *)
Record SmtpEnv := {
  SMTP_HOST : option string;
  SMTP_PORT : option string;
  SMTP_USER : option string;
  SMTP_PASS : option string;
  SMTP_FROM : option string }.

Record Mail := {
  mail_from : string;
  mail_to : string;
  mail_subject : string;
  mail_html : string;
  mail_text : string }.

(** What [fetch] resolves to. *)
Record HttpResponse := {
  ok : bool;
  http_status : nat;
  statusText : string;
  response_json : string + JsVal }.

(** What a successful send answers: [{ message, notification, sendResult }]. *)
Record Sent := {
  sent_notification : Notification;
  sent_sendResult : JsVal }.

(** An adapter call resolves to a value or rejects with an error message. *)
Definition await (r : string + JsVal) : M JsVal :=
  match r with
  | inl message => throw message
  | inr v => ret v
  end.

Definition dquote : string := String (Ascii.ascii_of_nat 34) EmptyString.

(** [!s] on an environment variable: unset or empty. *)
Definition unset (o : option string) : bool :=
  match o with
  | Some s => String.eqb s ""
  | None => true
  end.

(** The live event fields, in the order the object literal lists them;
    [timestamp] is the [Date] of [new Date()]. *)
Definition notificationData (level : NotificationLevel.t)
    (title message : string) (server : Server) (probe : option Probe)
    (timestamp : nat) (details : option Js.Props) : Js.Props :=
  [ ("level", JStr (NotificationLevel.to_string level));
    ("title", JStr title);
    ("message", JStr message);
    ("serverName", JStr (server_name server));
    ("serverId", JStr (server_id server));
    ("probeName", Js.of_option (probe_name <$> probe));
    ("probeId", Js.of_option (probe_id <$> probe));
    ("timestamp", JDate timestamp);
    ("details", JObj (default [] details)) ].

(** [{ ...payloadTemplate, ...notificationData }] *)
Definition webhook_payload (payloadTemplate : JsVal) (data : Js.Props)
    : Js.Props :=
  Js.spread (Js.spread [] payloadTemplate) (JObj data).

(** [body: JSON.stringify (payload)] *)
Definition webhook_body (payload : Js.Props) : JsVal :=
  Js.to_json (JObj payload).

Section Routes.

Variable is_uuid : string -> bool.
Variable env : SmtpEnv.
(** [new Date()] when the event is built and when the send has returned. *)
Variable now sentNow : nat.
(** The rendering of the two mail bodies. *)
Variable render_html render_text : string -> string -> Js.Props -> string.
(** [transporter.sendMail] and [fetch]: the channel adapters. *)
Variable sendMail : SmtpEnv -> Mail -> string + JsVal.
Variable fetch : string -> Js.Props -> JsVal -> string + HttpResponse.

Definition sendNotificationSchema (b : SendBody) : list string :=
  (if is_uuid (sb_notificationConfigId b) then []
   else ["L'ID de configuration doit être un UUID valide"])
  ++ (if is_uuid (sb_serverId b) then []
      else ["L'ID du serveur doit être un UUID valide"])
  ++ (if from_option is_uuid true (sb_probeId b) then []
      else ["L'ID de la sonde doit être un UUID valide"])
  ++ (if Nat.leb 1 (String.length (sb_title b)) then []
      else ["Le titre est requis"])
  ++ (if Nat.leb 1 (String.length (sb_message b)) then []
      else ["Le message est requis"]).

Definition sendEmail (recipients : list string) (title message : string)
    (details : Js.Props) : string + JsVal :=
  if unset (SMTP_HOST env) || unset (SMTP_PORT env)
     || unset (SMTP_USER env) || unset (SMTP_PASS env)
  then inl "Configuration SMTP incomplète"
  else
    let smtpFrom :=
      if unset (SMTP_FROM env) then "noreply@servmon.app"
      else default "" (SMTP_FROM env) in
    let level :=
      match Js.get "level" details with Some (JStr l) => l | _ => "undefined" end in
    sendMail env
      {| mail_from := dquote +:+ "Monitoring de Serveurs" +:+ dquote
                      +:+ " <" +:+ smtpFrom +:+ ">";
         mail_to := String.concat ", " recipients;
         mail_subject := "[" +:+ level +:+ "] " +:+ title;
         mail_html := render_html title message details;
         mail_text := render_text title message details |}.

Definition sendWebhook (url : string) (headers payloadTemplate : JsVal)
    (data : Js.Props) : string + JsVal :=
  let payload := webhook_payload payloadTemplate data in
  match fetch url
          (Js.spread [("Content-Type", JStr "application/json")] headers)
          (webhook_body payload) with
  | inl message => inl message
  | inr response =>
      if negb (ok response) then
        inl ("Erreur lors de l'envoi du webhook: "
             +:+ pretty (http_status response) +:+ " " +:+ statusText response)
      else response_json response
  end.

Definition mark_sent (n : Notification) : Notification :=
  {| n_id := n_id n; n_serverId := n_serverId n; n_probeId := n_probeId n;
     n_title := n_title n; n_message := n_message n; n_level := n_level n;
     n_details := n_details n;
     n_notificationConfigId := n_notificationConfigId n;
     n_status := NotificationStatus.SENT;
     n_statusDetails := n_statusDetails n;
     n_sentAt := Some sentNow |}.

Definition mark_failed (message : string) (n : Notification) : Notification :=
  {| n_id := n_id n; n_serverId := n_serverId n; n_probeId := n_probeId n;
     n_title := n_title n; n_message := n_message n; n_level := n_level n;
     n_details := n_details n;
     n_notificationConfigId := n_notificationConfigId n;
     n_status := NotificationStatus.FAILED;
     n_statusDetails := Some message;
     n_sentAt := n_sentAt n |}.

(** The body of the inner [try]: the adapter of the declared type, or the
    error thrown when the sub-config of that type is missing. *)
Definition deliver (notificationConfig : Prisma.NotificationConfigFull)
    (title message : string) (data : Js.Props) : string + JsVal :=
  match nc_type (Prisma.config notificationConfig),
        Prisma.emailConfig notificationConfig,
        Prisma.webhookConfig notificationConfig with
  | NotificationChannelType.EMAIL, Some emailConfig, _ =>
      sendEmail (en_recipients emailConfig) title message data
  | NotificationChannelType.WEBHOOK, _, Some webhookConfig =>
      sendWebhook (wn_url webhookConfig)
        (Js.or (wn_headers webhookConfig) (JObj []))
        (Js.or (wn_payload webhookConfig) (JObj []))
        data
  | _, _, _ =>
      inl "Type de notification non pris en charge ou configuration incomplète"
  end.

Definition POST (body : SendBody) : M (Response (Body Sent)) :=
  try_catch
    (match sendNotificationSchema body with
     | _ :: _ as errors =>
         ret (json (Invalid "Données d'entrée invalides" errors) 400)
     | [] =>
         let* notificationConfig :=
           query (Prisma.notificationConfig_findUnique_include
                    (sb_notificationConfigId body)) in
         match notificationConfig with
         | None =>
             ret (json (Msg "Configuration de notification introuvable") 404)
         | Some notificationConfig =>
             let* server := query (Prisma.server_findUnique (sb_serverId body)) in
             match server with
             | None => ret (json (Msg "Serveur introuvable") 404)
             | Some server =>
                 let* probe :=
                   match sb_probeId body with
                   | Some probeId =>
                       if String.eqb probeId "" then ret None
                       else query (Prisma.probe_findUnique probeId)
                   | None => ret None
                   end in
                 let data :=
                   notificationData (sb_level body) (sb_title body)
                     (sb_message body) server probe now (sb_details body) in
                 let* notification :=
                   write (Prisma.notification_create (sb_serverId body)
                            (sb_probeId body) (sb_title body) (sb_message body)
                            (sb_level body) (JObj data)
                            (sb_notificationConfigId body)) in
                 try_catch
                   (let* sendResult :=
                      await (deliver notificationConfig (sb_title body)
                               (sb_message body) data) in
                    do* write (Prisma.notification_update (n_id notification)
                                 mark_sent) in
                    ret (json (MsgData "Notification envoyée avec succès"
                                 {| sent_notification := notification;
                                    sent_sendResult := sendResult |}) 200))
                   (fun error =>
                      do* write (Prisma.notification_update (n_id notification)
                                   (mark_failed error)) in
                      ret (json (MsgError
                                   "La notification a été enregistrée mais n'a pas pu être envoyée"
                                   error) 500))
             end
         end
     end)
    (fun error =>
       ret (json (MsgError
                    "Une erreur est survenue lors du traitement de la notification"
                    error) 500)).

End Routes.

End Send.

(** * Vocabulary of the properties, and a concrete store *)

(** The value a run returned, when it did not throw. *)
Definition fst_ok {A} (r : outcome A * World) : option A :=
  match fst r with
  | Ok a => Some a
  | Throw _ => None
  end.

(** The foreign keys of [GroupUser]: each membership names a user and a
    group of the store. *)
Definition fk_groupUser (d : DB) : bool :=
  forallb (fun m => Prisma.has_id user_id (gu_userId m) (users d)
                    && Prisma.has_id group_id (gu_groupId m) (groups d))
          (groupUsers d).

(** The members of a group, in table order. *)
Definition members_of (groupId : Id) (d : DB) : list GroupUser :=
  List.filter (fun m => String.eqb (gu_groupId m) groupId) (groupUsers d).

Definition admins_of (groupId : Id) (d : DB) : list GroupUser :=
  List.filter (GroupMembers.admin_of groupId) (groupUsers d).

(** What a successful registration leaves in the store. *)
Definition registered_as (role : UserRole.t) (d d' : DB) (u : User) : Prop :=
  users d' = users d ++ [u] /\ user_role u = role.

Definition default_group_of (u : User) (d d' : DB) : Prop :=
  exists g m,
    groups d' = groups d ++ [g]
    /\ group_name g = "Groupe principal"
    /\ members_of (group_id g) d' = [m]
    /\ gu_userId m = user_id u
    /\ gu_role m = GroupRole.ADMIN.

Definition js_keys (o : Js.Props) : list string := fst <$> o.



(** The actor holds a membership in one of the groups [groupIds]. *)
Definition holds_membership (d : DB) (userId : Id) (groupIds : list Id) : Prop :=
  exists m, In m (groupUsers d) /\ gu_userId m = userId
            /\ In (gu_groupId m) groupIds.

Definition can_view_server (d : DB) (su : SessionUser) (s : Server) : Prop :=
  su_role su = UserRole.SUPER_ADMIN
  \/ holds_membership d (su_id su) (server_groups s).

Definition can_view_config (d : DB) (su : SessionUser)
    (c : NotificationConfig) : Prop :=
  su_role su = UserRole.SUPER_ADMIN
  \/ holds_membership d (su_id su) [nc_groupId c].

Definition stored_super_admin (d : DB) (userId : Id) : Prop :=
  exists u, Prisma.user_findUnique userId d = Some u
            /\ user_role u = UserRole.SUPER_ADMIN.

(** ** A concrete store *)

Module Scenario.

Definition root : User :=
  {| user_id := "u-root"; user_email := "root@example.com";
     user_password := "$2b$10$root"; user_name := "root";
     user_role := UserRole.SUPER_ADMIN |}.
Definition alice : User :=
  {| user_id := "u-alice"; user_email := "alice@example.com";
     user_password := "$2b$10$alice"; user_name := "alice";
     user_role := UserRole.ADMIN |}.
Definition bob : User :=
  {| user_id := "u-bob"; user_email := "bob@example.com";
     user_password := "$2b$10$bob"; user_name := "bob";
     user_role := UserRole.USER |}.
Definition carol : User :=
  {| user_id := "u-carol"; user_email := "carol@example.com";
     user_password := "$2b$10$carol"; user_name := "carol";
     user_role := UserRole.USER |}.

Definition session_of (u : User) : Session :=
  Some {| su_id := user_id u; su_role := user_role u |}.

Definition ops : Group :=
  {| group_id := "g-ops"; group_name := "Ops"; group_description := "" |}.
Definition dev : Group :=
  {| group_id := "g-dev"; group_name := "Dev"; group_description := "" |}.

Definition alice_in_ops : GroupUser :=
  {| gu_id := "m-1"; gu_userId := "u-alice"; gu_groupId := "g-ops";
     gu_role := GroupRole.ADMIN |}.
Definition bob_in_ops : GroupUser :=
  {| gu_id := "m-2"; gu_userId := "u-bob"; gu_groupId := "g-ops";
     gu_role := GroupRole.MEMBER |}.
Definition carol_in_dev : GroupUser :=
  {| gu_id := "m-3"; gu_userId := "u-carol"; gu_groupId := "g-dev";
     gu_role := GroupRole.ADMIN |}.

Definition web : Server :=
  {| server_id := "s-web"; server_name := "web"; server_createdById := "u-alice";
     server_groups := ["g-ops"] |}.
Definition database : Server :=
  {| server_id := "s-db"; server_name := "db"; server_createdById := "u-carol";
     server_groups := ["g-dev"] |}.

Definition ping : Probe :=
  {| probe_id := "p-ping"; probe_name := "ping"; probe_serverId := "s-web";
     probe_groups := ["g-ops"] |}.

Definition cfg_mail : NotificationConfig :=
  {| nc_id := "cfg-mail"; nc_name := "mail"; nc_groupId := "g-ops";
     nc_type := NotificationChannelType.EMAIL; nc_createdAt := 1 |}.
Definition cfg_hook : NotificationConfig :=
  {| nc_id := "cfg-hook"; nc_name := "hook"; nc_groupId := "g-ops";
     nc_type := NotificationChannelType.WEBHOOK; nc_createdAt := 2 |}.

Definition mail_sub : EmailNotification :=
  {| en_id := "e-1"; en_notificationConfigId := "cfg-mail";
     en_recipients := ["a@x.com"] |}.
Definition hook_sub : WebhookNotification :=
  {| wn_id := "h-1"; wn_notificationConfigId := "cfg-hook";
     wn_url := "https://hooks.example.com/in";
     wn_headers := JObj [];
     wn_payload := JObj [("channel", JStr "#ops"); ("title", JStr "template")] |}.

Definition db : DB :=
  {| users := [root; alice; bob; carol];
     groups := [ops; dev];
     groupUsers := [alice_in_ops; bob_in_ops; carol_in_dev];
     servers := [web; database];
     probes := [ping];
     notificationConfigs := [cfg_mail; cfg_hook];
     emailNotifications := [mail_sub];
     webhookNotifications := [hook_sub];
     notifications := [] |}.

(** The collaborators: validators that accept everything, an SMTP
    environment that is set, a mail transport and an HTTP endpoint that
    either accept or refuse. *)
Definition accept (_ : string) : bool := true.
Definition hash (s : string) : string := "$2b$10$" +:+ s.
Definition smtp : Send.SmtpEnv :=
  {| Send.SMTP_HOST := Some "smtp.example.com"; Send.SMTP_PORT := Some "587";
     Send.SMTP_USER := Some "mailer"; Send.SMTP_PASS := Some "secret";
     Send.SMTP_FROM := None |}.
Definition render (title message : string) (_ : Js.Props) : string :=
  title +:+ ": " +:+ message.
Definition mail_ok (_ : Send.SmtpEnv) (_ : Send.Mail) : string + JsVal :=
  inr (JObj [("accepted", JBool true)]).
Definition http_ok (_ : string) (_ : Js.Props) (_ : JsVal)
    : string + Send.HttpResponse :=
  inr {| Send.ok := true; Send.http_status := 200; Send.statusText := "OK";
         Send.response_json := inr (JObj [("received", JBool true)]) |}.
Definition http_503 (_ : string) (_ : Js.Props) (_ : JsVal)
    : string + Send.HttpResponse :=
  inr {| Send.ok := false; Send.http_status := 503;
         Send.statusText := "Service Unavailable";
         Send.response_json := inl "Unexpected end of JSON input" |}.

Definition down_event : Send.SendBody :=
  {| Send.sb_notificationConfigId := "cfg-mail"; Send.sb_serverId := "s-web";
     Send.sb_probeId := None; Send.sb_level := NotificationLevel.ERROR;
     Send.sb_title := "Down"; Send.sb_message := "svc down";
     Send.sb_details := None |}.

End Scenario.

Definition first_registration : Register.RegisterBody :=
  {| Register.rb_name := "root"; Register.rb_email := "root@example.com";
     Register.rb_password := "correct horse"; Register.rb_rest := [] |}.

Definition later_registration : Register.RegisterBody :=
  {| Register.rb_name := "mallory"; Register.rb_email := "mallory@example.com";
     Register.rb_password := "correct horse";
     Register.rb_rest := [("role", JStr "SUPER_ADMIN")] |}.

(** The decision of [checkGroupAdmin], as a function of the store. *)
Definition may_administer (d : DB) (groupId userId : Id) : bool :=
  role_is_super_admin (Prisma.user_findUnique userId d)
  || bool_decide
       (is_Some
          (Prisma.groupUser_findFirst
             (fun m => GroupMembers.same_member groupId userId m
                       && is_group_admin (gu_role m)) d)).

Definition rejected_status (d : DB) (groupId : Id) (session : Session) : nat :=
  match session with
  | None => 401
  | Some su => if may_administer d groupId (su_id su) then 400 else 403
  end.







(** The membership-mutating requests, and the store each leaves behind. *)
Inductive Request :=
| RegisterUser (body : Register.RegisterBody)
| CreateGroup (session : Session) (body : Groups.GroupBody)
| AddMembers (session : Session) (groupId : Id)
    (body : GroupMembers.AddMembersBody)
| ChangeRole (session : Session) (groupId memberId : Id)
    (body : GroupMembers.UpdateMemberBody)
| RemoveMember (session : Session) (groupId memberId : Id)
| UpdateUser (session : Session) (userId : Id) (body : Users.UpdateUserBody).

Definition serve (r : Request) (d : DB) : DB :=
  match r with
  | RegisterUser body =>
      store (snd (Register.POST Scenario.accept Scenario.hash body (healthy d)))
  | CreateGroup session body =>
      store (snd (Groups.POST session body (healthy d)))
  | AddMembers session groupId body =>
      store (snd (GroupMembers.POST Scenario.accept session groupId body
                    (healthy d)))
  | ChangeRole session groupId memberId body =>
      store (snd (GroupMembers.PUT session groupId memberId body (healthy d)))
  | RemoveMember session groupId memberId =>
      store (snd (GroupMembers.DELETE session groupId memberId (healthy d)))
  | UpdateUser session userId body =>
      store (snd (Users.PUT Scenario.accept Scenario.accept Scenario.hash
                    session userId body (healthy d)))
  end.

Definition serve_all (trace : list Request) (d : DB) : DB :=
  fold_left (fun d r => serve r d) trace d.

(** Every group that has a membership has an ADMIN membership, as a
    proposition; and the primary key of [GroupUser]. *)
Definition has_admin (d : DB) : Prop :=
  forall m, In m (groupUsers d) ->
    exists a, In a (groupUsers d)
              /\ GroupMembers.admin_of (gu_groupId m) a = true.

Definition unique_member_ids (d : DB) : Prop :=
  List.NoDup (List.map gu_id (groupUsers d)).

(** Every group that has a membership has an ADMIN membership. *)
Definition keeps_an_admin (d : DB) : bool :=
  forallb
    (fun m => existsb (GroupMembers.admin_of (gu_groupId m)) (groupUsers d))
    (groupUsers d).

Definition register_bob : Register.RegisterBody :=
  {| Register.rb_name := "bob"; Register.rb_email := "bob@example.com";
     Register.rb_password := "correct horse"; Register.rb_rest := [] |}.

(** The first account registers (identifier "0", SUPER_ADMIN, administrator
    of the default group "0"), bob registers (identifier "1"), and the first
    account adds bob to the default group as MEMBER. *)
Definition setup : list Request :=
  [ RegisterUser first_registration;
    RegisterUser register_bob;
    AddMembers (Some {| su_id := "0"; su_role := UserRole.SUPER_ADMIN |}) "0"
      {| GroupMembers.am_users :=
           [ {| GroupMembers.nm_id := "1";
                GroupMembers.nm_role := GroupRole.MEMBER |} ] |} ].

(** The first account, SUPER_ADMIN, updates its own profile with an empty
    list of groups. *)
Definition leave_all_groups : Request :=
  UpdateUser (Some {| su_id := "0"; su_role := UserRole.SUPER_ADMIN |}) "0"
    {| Users.uu_name := None; Users.uu_email := None; Users.uu_password := None;
       Users.uu_role := None; Users.uu_groups := Some [] |}.

(** The probe the handler looks up: none without a [probeId]. *)
Definition probe_of (req : Send.SendBody) (d : DB) : option Probe :=
  match Send.sb_probeId req with
  | Some probeId =>
      if String.eqb probeId "" then None else Prisma.probe_findUnique probeId d
  | None => None
  end.

(** The [probeId] of the request, when there is one, names a probe. *)
Definition probe_known (req : Send.SendBody) (d : DB) : bool :=
  from_option (fun p => Prisma.has_id probe_id p (probes d)) true
    (Send.sb_probeId req).

Definition event_of (now : nat) (req : Send.SendBody) (server : Server)
    (d : DB) : Js.Props :=
  Send.notificationData (Send.sb_level req) (Send.sb_title req)
    (Send.sb_message req) server (probe_of req d) now (Send.sb_details req).

(** The row [notification.create] inserts. *)
Definition pending (now : nat) (req : Send.SendBody) (server : Server)
    (d : DB) : Notification :=
  {| n_id := Prisma.uuid n_id (notifications d);
     n_serverId := Send.sb_serverId req;
     n_probeId := Send.sb_probeId req;
     n_title := Send.sb_title req;
     n_message := Send.sb_message req;
     n_level := Send.sb_level req;
     n_details := JObj (event_of now req server d);
     n_notificationConfigId := Send.sb_notificationConfigId req;
     n_status := NotificationStatus.PENDING;
     n_statusDetails := None;
     n_sentAt := None |}.

Definition outcome_of (env : Send.SmtpEnv) (now : nat)
    (render_html render_text : string -> string -> Js.Props -> string)
    (sendMail : Send.SmtpEnv -> Send.Mail -> string + JsVal)
    (fetch : string -> Js.Props -> JsVal -> string + Send.HttpResponse)
    (req : Send.SendBody) (cfg : Prisma.NotificationConfigFull)
    (server : Server) (d : DB) : string + JsVal :=
  Send.deliver env render_html render_text sendMail fetch cfg
    (Send.sb_title req) (Send.sb_message req) (event_of now req server d).

Definition recorded (n : Notification) (d : DB) : World :=
  healthy (with_notifications (notifications d ++ [n]) d).


Definition mail_cfg : Prisma.NotificationConfigFull :=
  Prisma.include_configs Scenario.db Scenario.cfg_mail.


(** The decision of [checkGroupAdminAccess], as a function of the store. *)
Definition may_edit_config (d : DB) (notificationId : Id) (su : SessionUser)
    : bool :=
  is_super_admin (su_role su)
  || match Prisma.notificationConfig_findUnique notificationId d with
     | None => false
     | Some c =>
         bool_decide
           (is_Some
              (Prisma.groupUser_findFirst
                 (fun m => String.eqb (gu_userId m) (su_id su)
                           && String.eqb (gu_groupId m) (nc_groupId c)
                           && is_group_admin (gu_role m)) d))
     end.

(** The configuration has exactly one sub-config, of its declared type. *)
Definition one_subconfig_of_its_type (cfg : Prisma.NotificationConfigFull)
    : Prop :=
  match nc_type (Prisma.config cfg) with
  | NotificationChannelType.EMAIL =>
      is_Some (Prisma.emailConfig cfg) /\ Prisma.webhookConfig cfg = None
  | NotificationChannelType.WEBHOOK =>
      Prisma.emailConfig cfg = None /\ is_Some (Prisma.webhookConfig cfg)
  end.


Definition alice_session : SessionUser :=
  {| su_id := "u-alice"; su_role := UserRole.ADMIN |}.


(** * Vocabulary of the further properties *)

(** ** What a request may change *)

Definition only_memberships_differ (d d' : DB) : Prop :=
  with_groupUsers (groupUsers d) d' = d.

Definition only_users_and_memberships_differ (d d' : DB) : Prop :=
  with_users (users d) (with_groupUsers (groupUsers d) d') = d.

Definition only_groups_differ (d d' : DB) : Prop :=
  with_groups (groups d) d' = d.

(** The store [d] with one more notification, under a new identifier. *)
Definition one_more_notification (d d' : DB) : Prop :=
  exists n, d' = with_notifications (notifications d ++ [n]) d
            /\ n_id n = Prisma.uuid n_id (notifications d).

(** The membership table after a creation that makes its author the
    administrator of a new group. *)
Definition adds_an_admin_at_most (d d' : DB) : Prop :=
  groupUsers d' = groupUsers d
  \/ exists m, groupUsers d' = groupUsers d ++ [m]
               /\ gu_role m = GroupRole.ADMIN
               /\ gu_id m = Prisma.uuid gu_id (groupUsers d).

(** The store after [user.delete]. *)
Definition without_user (userId : Id) (d : DB) : DB :=
  with_groupUsers
    (List.filter (fun m => negb (String.eqb (gu_userId m) userId)) (groupUsers d))
    (with_users (Prisma.remove_by user_id userId (users d)) d).

Definition created_a_server (userId : Id) (d : DB) : bool :=
  existsb (fun s => String.eqb (server_createdById s) userId) (servers d).

(** The foreign keys of the two sub-config tables. *)
Definition fk_subconfigs (d : DB) : bool :=
  forallb (fun e => Prisma.has_id nc_id (en_notificationConfigId e)
                      (notificationConfigs d))
          (emailNotifications d)
  && forallb (fun h => Prisma.has_id nc_id (wn_notificationConfigId h)
                         (notificationConfigs d))
             (webhookNotifications d).

(** ** The user routes *)

(** [const finalRole = isSelfEdit ? undefined : role] *)
Definition final_role (su : SessionUser) (userId : Id)
    (body : Users.UpdateUserBody) : option UserRole.t :=
  if String.eqb (su_id su) userId then None else Users.uu_role body.

(** The account [user.create] inserts for a request to POST /api/users. *)
Definition new_account (bcrypt_hash : string -> string)
    (req : UserList.CreateUserBody) (d : DB) : User :=
  {| user_id := Prisma.uuid user_id (users d);
     user_email := UserList.cu_email req;
     user_password := bcrypt_hash (UserList.cu_password req);
     user_name := UserList.cu_name req;
     user_role := UserList.cu_role req |}.

Definition assign_group (userId : Id) (group : Users.GroupAssignment)
    : M GroupUser :=
  write (Prisma.groupUser_create userId (Users.ga_id group)
           (Users.ga_role group)).

Definition assignment_of (m : GroupUser) : Id * GroupRole.t :=
  (gu_groupId m, gu_role m).

Definition requested (g : Users.GroupAssignment) : Id * GroupRole.t :=
  (Users.ga_id g, Users.ga_role g).

(** ** The guarded membership routes *)

(** The requests that go through a route which looks at the administrators
    of the group, or which creates a group with its administrator. *)
Definition guarded (r : Request) : bool :=
  match r with
  | RegisterUser _ | CreateGroup _ _ | ChangeRole _ _ _ _
  | RemoveMember _ _ _ => true
  | AddMembers _ _ _ | UpdateUser _ _ _ => false
  end.

Section Serving.

Variable is_uuid is_email : string -> bool.
Variable bcrypt_hash : string -> string.

(** The store a request leaves behind, for any validators. *)
Definition serve_with (r : Request) (d : DB) : DB :=
  match r with
  | RegisterUser body =>
      store (snd (Register.POST is_email bcrypt_hash body (healthy d)))
  | CreateGroup session body =>
      store (snd (Groups.POST session body (healthy d)))
  | AddMembers session groupId body =>
      store (snd (GroupMembers.POST is_uuid session groupId body (healthy d)))
  | ChangeRole session groupId memberId body =>
      store (snd (GroupMembers.PUT session groupId memberId body (healthy d)))
  | RemoveMember session groupId memberId =>
      store (snd (GroupMembers.DELETE session groupId memberId (healthy d)))
  | UpdateUser session userId body =>
      store (snd (Users.PUT is_uuid is_email bcrypt_hash session userId body
                    (healthy d)))
  end.

End Serving.

(** ** The notification routes *)

(** The decision of [checkGroupAccess] of POST /api/notifications. *)
Definition may_use_group (d : DB) (groupId : Id) (su : SessionUser) : bool :=
  is_super_admin (su_role su)
  || bool_decide
       (is_Some
          (Prisma.groupUser_findFirst
             (fun m => String.eqb (gu_userId m) (su_id su)
                       && String.eqb (gu_groupId m) groupId) d)).

(** The caller administers the group: as the Super Admin of the session, or
    through an ADMIN membership. *)
Definition administers_group (d : DB) (groupId : Id) (su : SessionUser) : bool :=
  is_super_admin (su_role su)
  || bool_decide
       (is_Some
          (Prisma.groupUser_findFirst
             (fun m => String.eqb (gu_userId m) (su_id su)
                       && String.eqb (gu_groupId m) groupId
                       && is_group_admin (gu_role m)) d)).

(** The sub-config a request asks for, on the sub-config [cfg] has: the same
    row, with the requested content. *)
Definition updated_in_place (req : NotificationById.NotificationBody)
    (cfg updated : Prisma.NotificationConfigFull) : Prop :=
  match NotificationById.nb_config req with
  | NotificationById.EmailBody recipients =>
      exists e, Prisma.emailConfig cfg = Some e
        /\ Prisma.emailConfig updated
           = Some {| en_id := en_id e;
                     en_notificationConfigId := en_notificationConfigId e;
                     en_recipients := recipients |}
        /\ Prisma.webhookConfig updated = None
  | NotificationById.WebhookBody url headers payload =>
      exists h, Prisma.webhookConfig cfg = Some h
        /\ Prisma.webhookConfig updated
           = Some {| wn_id := wn_id h;
                     wn_notificationConfigId := wn_notificationConfigId h;
                     wn_url := url;
                     wn_headers := Js.or headers (JObj []);
                     wn_payload := Js.or payload (JObj []) |}
        /\ Prisma.emailConfig updated = None
  end.

(** ** Dispatch *)

(** One of the four SMTP settings the mail adapter requires is unset or
    empty. *)
Definition smtp_incomplete (env : Send.SmtpEnv) : bool :=
  Send.unset (Send.SMTP_HOST env) || Send.unset (Send.SMTP_PORT env)
  || Send.unset (Send.SMTP_USER env) || Send.unset (Send.SMTP_PASS env).

(** The configuration has no sub-config of its declared type. *)
Definition declared_subconfig_missing (cfg : Prisma.NotificationConfigFull)
    : Prop :=
  match nc_type (Prisma.config cfg) with
  | NotificationChannelType.EMAIL => Prisma.emailConfig cfg = None
  | NotificationChannelType.WEBHOOK => Prisma.webhookConfig cfg = None
  end.

(** What a send answers when the delivery failed. *)
Definition failed_answer (error : string) : Response (Body Send.Sent) :=
  json (MsgError "La notification a été enregistrée mais n'a pas pu être envoyée"
          error) 500.

(** [{ "Content-Type": "application/json", ...headers }] *)
Definition request_headers (headers : JsVal) : Js.Props :=
  Js.spread [("Content-Type", JStr "application/json")] headers.

(** ** The creation of a server *)

(** The groups among [groupIds] in which the caller holds a membership, as
    the creation of a server looks them up. *)
Definition accessible_groups (d : DB) (su : SessionUser) (groupIds : list Id)
    : list Id :=
  gu_groupId <$>
    Prisma.groupUser_findMany
      (fun m => String.eqb (gu_userId m) (su_id su)
                && includes groupIds (gu_groupId m)) d.

Definition authorized_groups (d : DB) (su : SessionUser) (groupIds : list Id)
    : list Id :=
  if is_super_admin (su_role su) then groupIds
  else accessible_groups d su groupIds.

(** The row [server.create] inserts. *)
Definition new_server (su : SessionUser) (req : Servers.ServerBody) (d : DB)
    : Server :=
  {| server_id := Prisma.uuid server_id (servers d);
     server_name := Servers.sv_name req;
     server_createdById := su_id su;
     server_groups :=
       remove_dups (authorized_groups d su (Servers.sv_groups req)) |}.

(** ** Further stores and requests *)

Module Lab.

Definition root_session : SessionUser :=
  {| su_id := "u-root"; su_role := UserRole.SUPER_ADMIN |}.
Definition bob_session : SessionUser :=
  {| su_id := "u-bob"; su_role := UserRole.USER |}.

(** root, the Super Admin, as a plain member of Ops. *)
Definition root_in_ops : GroupUser :=
  {| gu_id := "m-4"; gu_userId := "u-root"; gu_groupId := "g-ops";
     gu_role := GroupRole.MEMBER |}.
Definition db_with_root : DB :=
  with_groupUsers (groupUsers Scenario.db ++ [root_in_ops]) Scenario.db.

(** A third group, Lab, with bob as its administrator, one notification
    configuration and no server. *)
Definition lab : Group :=
  {| group_id := "g-lab"; group_name := "Lab"; group_description := "" |}.
Definition bob_in_lab : GroupUser :=
  {| gu_id := "m-5"; gu_userId := "u-bob"; gu_groupId := "g-lab";
     gu_role := GroupRole.ADMIN |}.
Definition cfg_lab : NotificationConfig :=
  {| nc_id := "cfg-lab"; nc_name := "lab"; nc_groupId := "g-lab";
     nc_type := NotificationChannelType.EMAIL; nc_createdAt := 3 |}.
Definition lab_mail : EmailNotification :=
  {| en_id := "e-2"; en_notificationConfigId := "cfg-lab";
     en_recipients := ["lab@x.com"] |}.
Definition db : DB :=
  {| users := users Scenario.db;
     groups := groups Scenario.db ++ [lab];
     groupUsers := groupUsers Scenario.db ++ [bob_in_lab];
     servers := servers Scenario.db;
     probes := probes Scenario.db;
     notificationConfigs := notificationConfigs Scenario.db ++ [cfg_lab];
     emailNotifications := emailNotifications Scenario.db ++ [lab_mail];
     webhookNotifications := webhookNotifications Scenario.db;
     notifications := [] |}.

(** The configuration "cfg-mail" after its email sub-config was lost. *)
Definition db_without_mail_subconfig : DB :=
  with_emailNotifications [] Scenario.db.

Definition smtp_without_password : Send.SmtpEnv :=
  {| Send.SMTP_HOST := Some "smtp.example.com"; Send.SMTP_PORT := Some "587";
     Send.SMTP_USER := Some "mailer"; Send.SMTP_PASS := None;
     Send.SMTP_FROM := None |}.

Definition take_bobs_email : Users.UpdateUserBody :=
  {| Users.uu_name := None; Users.uu_email := Some "bob@example.com";
     Users.uu_password := None; Users.uu_role := None;
     Users.uu_groups := None |}.

Definition new_group : Groups.GroupBody :=
  {| Groups.gb_name := "Lab"; Groups.gb_description := None |}.

Definition rename_to_lab : GroupById.UpdateGroupBody :=
  {| GroupById.ug_name := Some "Lab"; GroupById.ug_description := None |}.

Definition pager : NotificationById.NotificationBody :=
  {| NotificationById.nb_name := "pager";
     NotificationById.nb_groupId := "g-ops";
     NotificationById.nb_config :=
       NotificationById.WebhookBody "https://pager.example.com/in"
         JUndefined JUndefined |}.

Definition new_recipients : NotificationById.NotificationBody :=
  {| NotificationById.nb_name := "mail";
     NotificationById.nb_groupId := "g-ops";
     NotificationById.nb_config := NotificationById.EmailBody ["b@x.com"] |}.

Definition cache : Servers.ServerBody :=
  {| Servers.sv_name := "cache"; Servers.sv_type := ServerType.OTHER;
     Servers.sv_description := None; Servers.sv_groups := ["g-ops"] |}.

Definition dave : UserList.CreateUserBody :=
  {| UserList.cu_name := "dave"; UserList.cu_email := "dave@example.com";
     UserList.cu_password := "correct horse";
     UserList.cu_role := UserRole.USER;
     UserList.cu_groups :=
       Some [ {| Users.ga_id := "g-ops"; Users.ga_role := GroupRole.MEMBER |};
              {| Users.ga_id := "g-dev"; Users.ga_role := GroupRole.ADMIN |} ] |}.

(** The headers of a webhook that sets its own content type. *)
Definition token_headers : Js.Props :=
  [("Content-Type", JStr "text/plain"); ("X-Token", JStr "s3cret")].

Definition in_no_group : Users.GroupAssignment :=
  {| Users.ga_id := "g-none"; Users.ga_role := GroupRole.MEMBER |}.

Definition erin : UserList.CreateUserBody :=
  {| UserList.cu_name := "erin"; UserList.cu_email := "erin@example.com";
     UserList.cu_password := "correct horse";
     UserList.cu_role := UserRole.USER;
     UserList.cu_groups := Some [in_no_group] |}.

(** The first account registers and becomes the administrator of the default
    group "0"; it creates the group Lab, "1"; it promotes itself in Lab, where
    it is the administrator already; it tries to leave the default group. *)
Definition first_account : Session :=
  Some {| su_id := "0"; su_role := UserRole.SUPER_ADMIN |}.
Definition trace : list Request :=
  [ RegisterUser first_registration;
    CreateGroup first_account new_group;
    ChangeRole first_account "1" "0"
      {| GroupMembers.um_role := GroupRole.ADMIN |};
    RemoveMember first_account "0" "0" ].

End Lab.

(** * Vocabulary of the access decisions and of a send under write faults *)

(** The actor holds an ADMIN membership in the group. *)
Definition holds_admin_membership (d : DB) (userId groupId : Id) : Prop :=
  exists m, In m (groupUsers d) /\ gu_userId m = userId
            /\ gu_groupId m = groupId /\ gu_role m = GroupRole.ADMIN.

(** The rights PUT and DELETE of a notification configuration ask for. *)
Definition can_edit_config (d : DB) (su : SessionUser)
    (c : NotificationConfig) : Prop :=
  su_role su = UserRole.SUPER_ADMIN
  \/ holds_admin_membership d (su_id su) (nc_groupId c).

(** The rule by which the probes of a server are viewed: through the
    server. *)
Definition can_view_probes_of (d : DB) (su : SessionUser) (serverId : Id)
    : Prop :=
  su_role su = UserRole.SUPER_ADMIN
  \/ exists s, Prisma.server_findUnique serverId d = Some s
               /\ holds_membership d (su_id su) (server_groups s).

(** The rule of view access, read for a probe: through the groups the probe
    is attached to. *)
Definition can_view_probe (d : DB) (su : SessionUser) (p : Probe) : Prop :=
  su_role su = UserRole.SUPER_ADMIN
  \/ holds_membership d (su_id su) (probe_groups p).

(** A probe of the server web, of Ops, that is attached to Dev: the probe
    POST /api/servers/s-web/probes creates for root when the body names the
    group "g-dev". *)
Definition dev_check : Probe :=
  {| probe_id := "p-dev"; probe_name := "dev-check"; probe_serverId := "s-web";
     probe_groups := ["g-dev"] |}.
Definition db_with_dev_check : DB :=
  with_probes (probes Scenario.db ++ [dev_check]) Scenario.db.
Definition bob_session : SessionUser :=
  {| su_id := "u-bob"; su_role := UserRole.USER |}.
Definition carol_session : SessionUser :=
  {| su_id := "u-carol"; su_role := UserRole.USER |}.








(** * Properties *)

(** ** Lemmas on the store and on the monad *)

Arguments Prisma.uuid : simpl never.
Arguments Js.toISOString : simpl never.

(** The epoch, the leap day of the year 2000, a time of the year 2023, and
    the first millisecond of the year 10000. *)
Example iso_of_N_at_known_times :
  Js.iso_of_N 0 = "1970-01-01T00:00:00.000Z"
  /\ Js.iso_of_N 951782400000 = "2000-02-29T00:00:00.000Z"
  /\ Js.iso_of_N 1700000000123 = "2023-11-14T22:13:20.123Z"
  /\ Js.iso_of_N 253402300800000 = "+010000-01-01T00:00:00.000Z".
Proof. repeat split; vm_compute; reflexivity. Qed.

Lemma has_id_true {A} (key : A -> Id) (id : Id) (rows : list A) :
  Prisma.has_id key id rows = true <-> exists r, In r rows /\ key r = id.
Proof.
  unfold Prisma.has_id. rewrite existsb_exists.
  split; intros (r & Hin & Hk); exists r; split; auto.
  - now apply String.eqb_eq.
  - now apply String.eqb_eq.
Qed.

Lemma find_by_Some {A} (key : A -> Id) (id : Id) (rows : list A) (r : A) :
  Prisma.find_by key id rows = Some r -> In r rows /\ key r = id.
Proof.
  unfold Prisma.find_by. intros H. apply find_some in H as [Hin Hk].
  split; auto. now apply String.eqb_eq.
Qed.

Lemma find_by_None {A} (key : A -> Id) (id : Id) (rows : list A) :
  Prisma.find_by key id rows = None <-> Prisma.has_id key id rows = false.
Proof.
  unfold Prisma.find_by, Prisma.has_id.
  induction rows as [|r rows IH]; simpl; [tauto|].
  destruct (String.eqb (key r) id); simpl; [split; discriminate | exact IH].
Qed.

Lemma has_id_app {A} (key : A -> Id) (id : Id) (l1 l2 : list A) :
  Prisma.has_id key id (l1 ++ l2)
  = Prisma.has_id key id l1 || Prisma.has_id key id l2.
Proof. unfold Prisma.has_id. apply existsb_app. Qed.

Lemma has_id_last {A} (key : A -> Id) (rows : list A) (r : A) :
  Prisma.has_id key (key r) (rows ++ [r]) = true.
Proof.
  rewrite has_id_app. simpl. rewrite String.eqb_refl.
  now rewrite orb_true_r.
Qed.

Lemma uuid_fresh {A} (key : A -> Id) (rows : list A) :
  Prisma.has_id key (Prisma.uuid key rows) rows = false.
Proof.
  destruct (Prisma.has_id key (Prisma.uuid key rows) rows) eqn:E; [|reflexivity].
  apply has_id_true in E as (r & Hin & Hk).
  exfalso. apply (infinite_is_fresh (Prisma.ids_of key rows)).
  unfold Prisma.uuid in Hk. rewrite <- Hk.
  unfold Prisma.ids_of. apply list_elem_of_fmap. exists r. split; [reflexivity|].
  now apply list_elem_of_In.
Qed.

Lemma fk_groupUser_no_users (d : DB) :
  fk_groupUser d = true -> users d = [] -> groupUsers d = [].
Proof.
  unfold fk_groupUser. intros H Hu. rewrite Hu in H.
  destruct (groupUsers d) as [|m ms]; [reflexivity|].
  simpl in H. discriminate.
Qed.

Lemma bind_ok {A B} (m : M A) (k : A -> M B) (w w' : World) (a : A) :
  m w = (Ok a, w') -> bind m k w = k a w'.
Proof. unfold bind. now intros ->. Qed.

Ltac run_monad :=
  unfold bind, query, write, ret, throw, try_catch, required, healthy; simpl.

(** ** C10: registration *)

Section RegisterProperties.

Variable is_email : string -> bool.
Variable bcrypt_hash : string -> string.

Local Abbreviation POST := (Register.POST is_email bcrypt_hash).

(** C10. A registration that passes validation, with an email no account
    uses, answers 201 and creates one account. When the user table was empty
    the account is SUPER_ADMIN and a default group is created whose only
    member is that account, as ADMIN. When the user table was not empty the
    account is USER, whatever the request holds, and no group or membership
    is created. *)
Theorem register_first_is_super_admin_rest_are_users
    (req : Register.RegisterBody) (d : DB) :
  Register.registerSchema is_email req = [] ->
  Prisma.user_findUnique_email (Register.rb_email req) d = None ->
  fk_groupUser d = true ->
  exists resp d' u,
    POST req (healthy d) = (Ok resp, healthy d')
    /\ status resp = 201
    /\ body resp
       = MsgData "Utilisateur créé avec succès"
           {| Register.reg_user := u;
              Register.reg_isFirstUser := bool_decide (users d = []) |}
    /\ match users d with
       | [] => registered_as UserRole.SUPER_ADMIN d d' u
               /\ default_group_of u d d'
       | _ :: _ => registered_as UserRole.USER d d' u
                   /\ groups d' = groups d
                   /\ groupUsers d' = groupUsers d
       end.
Proof.
  intros Hvalid Hemail Hfk.
  unfold Register.POST. rewrite Hvalid.
  run_monad. rewrite Hemail. simpl.
  unfold Prisma.user_create, Prisma.user_count.
  apply find_by_None in Hemail. rewrite Hemail.
  destruct (users d) as [|u0 us] eqn:Hus.
  - pose proof (fk_groupUser_no_users d Hfk Hus) as Hgu.
    simpl. unfold Prisma.groupUser_create. simpl.
    rewrite has_id_app. simpl.
    rewrite String.eqb_refl, !orb_true_r. simpl. rewrite Hgu. simpl.
    eexists _, _, _. split; [reflexivity|].
    split; [reflexivity|]. split; [reflexivity|].
    split.
    + split; simpl; [now rewrite Hus | reflexivity].
    + eexists _, _. simpl. unfold members_of. simpl.
      split; [reflexivity|]. split; [reflexivity|]. simpl.
      rewrite String.eqb_refl.
      split; [reflexivity|]. split; reflexivity.
  - simpl.
    eexists _, _, _. split; [reflexivity|].
    split; [reflexivity|]. split; [reflexivity|].
    split; [|split; reflexivity].
    split; simpl; [now rewrite Hus | reflexivity].
Qed.

End RegisterProperties.

(** ** C9: the webhook payload, merged *)

Module JsFacts.

Lemma get_set (k k' : string) (v : JsVal) (o : Js.Props) :
  Js.get k (Js.set k' v o) = if String.eqb k k' then Some v else Js.get k o.
Proof.
  induction o as [|[k0 v0] o IH]; simpl.
  - reflexivity.
  - destruct (String.eqb_spec k' k0) as [->|Hne]; simpl.
    + destruct (String.eqb k k0); reflexivity.
    + destruct (String.eqb_spec k k0) as [->|Hne'].
      * destruct (String.eqb_spec k0 k') as [->|_]; [congruence | reflexivity].
      * exact IH.
Qed.


Lemma get_None_keys (k : string) (o : Js.Props) :
  Js.get k o = None <-> ~ In k (js_keys o).
Proof.
  induction o as [|[k0 v0] o IH]; simpl; [tauto|].
  destruct (String.eqb_spec k k0) as [->|Hne].
  - split; [discriminate | intros H; exfalso; apply H; now left].
  - rewrite IH. split; intros H; [intros [E|E]; [congruence | tauto] | tauto].
Qed.


(** Copying properties one by one: the last assignment of a key wins, and
    a key that is not assigned keeps its value. *)
Lemma get_assign_all (k : string) (src target : Js.Props) :
  Js.get k (fold_left (fun acc kv => Js.set (fst kv) (snd kv) acc) src target)
  = match Js.get k (rev src) with
    | Some v => Some v
    | None => Js.get k target
    end.
Proof.
  revert target. induction src as [|[k0 v0] src IH]; intros target; simpl.
  - reflexivity.
  - rewrite IH, get_set. clear IH.
    induction (rev src) as [|[k1 v1] l IHl]; simpl.
    + now destruct (String.eqb k k0).
    + destruct (String.eqb k k1); [reflexivity | exact IHl].
Qed.


Lemma get_rev_NoDup (k : string) (o : Js.Props) :
  List.NoDup (js_keys o) -> Js.get k (rev o) = Js.get k o.
Proof.
  induction o as [|[k0 v0] o IH]; intros Hnd; simpl; [reflexivity|].
  inversion Hnd as [|? ? Hnotin Hnd']; subst.
  specialize (IH Hnd').
  assert (Happ : forall l1 l2, Js.get k (l1 ++ l2)
                 = match Js.get k l1 with
                   | Some v => Some v
                   | None => Js.get k l2
                   end).
  { induction l1 as [|[k1 v1] l1 IH1]; intros l2; simpl; [reflexivity|].
    destruct (String.eqb k k1); [reflexivity | apply IH1]. }
  rewrite Happ, IH. simpl.
  destruct (String.eqb_spec k k0) as [->|Hne].
  - apply get_None_keys in Hnotin. now rewrite Hnotin.
  - now destruct (Js.get k o).
Qed.




End JsFacts.

Section WebhookPayload.

Variable level : NotificationLevel.t.
Variable title message : string.
Variable server : Server.
Variable probe : option Probe.
Variable timestamp : nat.
Variable details : option Js.Props.

Local Abbreviation data :=
  (Send.notificationData level title message server probe timestamp details).



End WebhookPayload.

Section WebhookPayloadFacts.

Variable level : NotificationLevel.t.
Variable title message : string.
Variable server : Server.
Variable probe : option Probe.
Variable timestamp : nat.
Variable details : option Js.Props.


End WebhookPayloadFacts.

(** The body sent for the event "Down" on the server web through the
    template of [Scenario.hook_sub]: the template's "channel" is kept, its
    "title" is replaced by the event's, and the two probe fields, which are
    [undefined] without a probe, are not written. *)
Example webhook_body_of_down_event :
  Send.webhook_body
    (Send.webhook_payload (wn_payload Scenario.hook_sub)
       (Send.notificationData NotificationLevel.ERROR "Down" "svc down"
          Scenario.web None 1000 None))
  = JObj [ ("channel", JStr "#ops"); ("title", JStr "Down");
           ("level", JStr "ERROR"); ("message", JStr "svc down");
           ("serverName", JStr "web"); ("serverId", JStr "s-web");
           ("timestamp", JStr "1970-01-01T00:00:01.000Z");
           ("details", JObj []) ].
Proof. reflexivity. Qed.

(** ** C8: view access and listings *)

Lemma includes_In (ids : list Id) (id : Id) :
  includes ids id = true <-> In id ids.
Proof.
  unfold includes. rewrite existsb_exists. split.
  - intros (x & Hin & Hx). apply String.eqb_eq in Hx. now subst.
  - intros Hin. exists id. split; [exact Hin | apply String.eqb_refl].
Qed.

Lemma filter_nonempty {A} (f : A -> bool) (l : list A) :
  Nat.ltb 0 (List.length (List.filter f l)) = true
  <-> exists x, In x l /\ f x = true.
Proof.
  rewrite Nat.ltb_lt. split.
  - destruct (List.filter f l) as [|x r] eqn:E; simpl; [lia|].
    intros _. exists x. apply filter_In. rewrite E. now left.
  - intros (x & Hx). apply filter_In in Hx.
    destruct (List.filter f l); [contradiction | simpl; lia].
Qed.

Lemma find_is_Some {A} (f : A -> bool) (l : list A) :
  bool_decide (is_Some (List.find f l)) = true
  <-> exists x, In x l /\ f x = true.
Proof.
  rewrite bool_decide_eq_true. split.
  - intros [x Hx]. exists x. now apply find_some in Hx.
  - intros (x & Hin & Hx). destruct (List.find f l) eqn:E; [eauto|].
    eapply find_none in E; [|exact Hin]. congruence.
Qed.

Lemma is_super_admin_true (r : UserRole.t) :
  is_super_admin r = true <-> r = UserRole.SUPER_ADMIN.
Proof. unfold is_super_admin. apply bool_decide_eq_true. Qed.

Lemma checkServerAccess_spec (w : World) (userId serverId : Id) (super : bool) :
  exists b,
    Probes.checkServerAccess userId serverId super w = (Ok b, w)
    /\ (b = true <->
        super = true
        \/ exists s, Prisma.server_findUnique serverId (store w) = Some s
                     /\ holds_membership (store w) userId (server_groups s)).
Proof.
  unfold Probes.checkServerAccess. destruct super.
  - exists true. split; [reflexivity | tauto].
  - run_monad.
    destruct (Prisma.server_findUnique serverId (store w)) as [s|] eqn:E.
    + eexists. split; [reflexivity|].
      unfold Prisma.groupUser_count, Prisma.groupUser_findMany.
      rewrite filter_nonempty. split.
      * intros (m & Hin & Hm). right. exists s. split; [reflexivity|].
        apply andb_prop in Hm as [Hu Hg].
        exists m. split; [exact Hin|]. split.
        -- now apply String.eqb_eq.
        -- now apply includes_In.
      * intros [Hs | (s' & Hs' & m & Hin & Hu & Hg)]; [discriminate|].
        injection Hs' as <-. exists m. split; [exact Hin|].
        apply andb_true_intro. split.
        -- now apply String.eqb_eq.
        -- now apply includes_In.
    + exists false. split; [reflexivity|].
      split; [discriminate|]. intros [Hs | (s & Hs & _)]; discriminate.
Qed.

Lemma checkNotificationAccess_spec (w : World) (notificationId userId : Id)
    (super : bool) :
  exists b,
    NotificationById.checkNotificationAccess notificationId userId super w
    = (Ok b, w)
    /\ (b = true <->
        super = true
        \/ exists c,
             Prisma.notificationConfig_findUnique notificationId (store w)
             = Some c
             /\ holds_membership (store w) userId [nc_groupId c]).
Proof.
  unfold NotificationById.checkNotificationAccess. destruct super.
  - exists true. split; [reflexivity | tauto].
  - run_monad.
    destruct (Prisma.notificationConfig_findUnique notificationId (store w))
      as [c|] eqn:E.
    + eexists. split; [reflexivity|].
      unfold Prisma.groupUser_findFirst. rewrite find_is_Some. split.
      * intros (m & Hin & Hm). right. exists c. split; [reflexivity|].
        apply andb_prop in Hm as [Hu Hg].
        exists m. split; [exact Hin|]. split.
        -- now apply String.eqb_eq.
        -- left. symmetry. now apply String.eqb_eq.
      * intros [Hs | (c' & Hc' & m & Hin & Hu & Hg)]; [discriminate|].
        injection Hc' as <-. exists m. split; [exact Hin|].
        apply andb_true_intro. split.
        -- now apply String.eqb_eq.
        -- destruct Hg as [Hg|[]]. apply String.eqb_eq. now symmetry.
    + exists false. split; [reflexivity|].
      split; [discriminate|]. intros [Hs | (s & Hs & _)]; discriminate.
Qed.

Lemma user_groupIds_In (d : DB) (userId g : Id) :
  In g (gu_groupId <$>
          Prisma.groupUser_findMany
            (fun m => String.eqb (gu_userId m) userId) d)
  <-> exists m, In m (groupUsers d) /\ gu_userId m = userId /\ gu_groupId m = g.
Proof.
  unfold Prisma.groupUser_findMany. rewrite <- list_elem_of_In, list_elem_of_fmap.
  split.
  - intros (m & -> & Hm). apply list_elem_of_In, filter_In in Hm as [Hin Hu].
    exists m. split; [exact Hin|]. split; [now apply String.eqb_eq | reflexivity].
  - intros (m & Hin & Hu & <-). exists m. split; [reflexivity|].
    apply list_elem_of_In, filter_In. split; [exact Hin | now apply String.eqb_eq].
Qed.

Lemma attached_to_user_group (d : DB) (userId : Id) (attached : list Id) :
  existsb
    (includes (gu_groupId <$>
                 Prisma.groupUser_findMany
                   (fun m => String.eqb (gu_userId m) userId) d))
    attached = true
  <-> holds_membership d userId attached.
Proof.
  rewrite existsb_exists. unfold holds_membership. split.
  - intros (g & Hg & Hinc). apply includes_In, user_groupIds_In in Hinc.
    destruct Hinc as (m & Hin & Hu & <-). eauto.
  - intros (m & Hin & Hu & Hg). exists (gu_groupId m). split; [exact Hg|].
    apply includes_In, user_groupIds_In. eauto.
Qed.

Lemma filter_all {A} (l : list A) : List.filter (fun _ => true) l = l.
Proof. induction l; simpl; congruence. Qed.

Lemma servers_GET_spec (w : World) (su : SessionUser) :
  exists l,
    Servers.GET (Some su) w = (Ok (json (Data l) 200), w)
    /\ (forall s, In s l <-> In s (servers (store w))
                             /\ can_view_server (store w) su s)
    /\ (su_role su = UserRole.SUPER_ADMIN -> Permutation l (servers (store w))).
Proof.
  unfold Servers.GET. run_monad.
  destruct (is_super_admin (su_role su)) eqn:Hsuper.
  - apply is_super_admin_true in Hsuper.
    eexists. split; [reflexivity|].
    unfold Prisma.server_findMany. rewrite filter_all.
    pose proof (merge_sort_Permutation Prisma.server_name_le
                  (servers (store w))) as Hperm.
    split; [|intros _; exact Hperm].
    intros s. split.
    + intros Hin. split; [|now left].
      eapply Permutation_in; [exact Hperm | exact Hin].
    + intros [Hin _].
      eapply Permutation_in; [symmetry; exact Hperm | exact Hin].
  - assert (Hns : su_role su <> UserRole.SUPER_ADMIN).
    { intros E. apply is_super_admin_true in E. congruence. }
    simpl. eexists. split; [reflexivity|].
    split; [|intros E; contradiction].
    unfold Prisma.server_findMany.
    match goal with
    | |- context [merge_sort ?R ?l] =>
        pose proof (merge_sort_Permutation R l) as Hperm
    end.
    intros s. split.
    + intros Hin. eapply Permutation_in in Hin; [|exact Hperm].
      apply filter_In in Hin as [Hin Hvis]. split; [exact Hin|].
      right. now apply attached_to_user_group.
    + intros [Hin [Hsup | Hvis]]; [contradiction|].
      eapply Permutation_in; [symmetry; exact Hperm|].
      apply filter_In. split; [exact Hin|].
      now apply attached_to_user_group.
Qed.

Lemma notifications_GET_spec (w : World) (su : SessionUser) :
  exists l,
    Notifications.GET (Some su) w = (Ok (json (Data l) 200), w)
    /\ (forall c, In c (Prisma.config <$> l)
                  <-> In c (notificationConfigs (store w))
                      /\ can_view_config (store w) su c)
    /\ (su_role su = UserRole.SUPER_ADMIN ->
        Permutation (Prisma.config <$> l) (notificationConfigs (store w))).
Proof.
  unfold Notifications.GET. run_monad.
  assert (Hcfg : forall rows : list NotificationConfig,
             Prisma.config <$> (Prisma.include_configs (store w) <$> rows)
             = rows).
  { induction rows as [|c rows IH]; simpl; [reflexivity | now f_equal]. }
  destruct (is_super_admin (su_role su)) eqn:Hsuper.
  - apply is_super_admin_true in Hsuper.
    eexists. split; [reflexivity|].
    unfold Prisma.notificationConfig_findMany. rewrite filter_all.
    match goal with
    | |- context [merge_sort ?R ?l] =>
        pose proof (merge_sort_Permutation R l) as Hperm
    end.
    apply (Permutation_map Prisma.config) in Hperm.
    change (List.map Prisma.config) with (fmap (M:=list) Prisma.config) in Hperm.
    rewrite Hcfg in Hperm.
    split; [|intros _; exact Hperm].
    intros c. split.
    + intros Hin. split; [|now left].
      eapply Permutation_in; [exact Hperm | exact Hin].
    + intros [Hin _].
      eapply Permutation_in; [symmetry; exact Hperm | exact Hin].
  - assert (Hns : su_role su <> UserRole.SUPER_ADMIN).
    { intros E. apply is_super_admin_true in E. congruence. }
    simpl. eexists. split; [reflexivity|].
    split; [|intros E; contradiction].
    unfold Prisma.notificationConfig_findMany.
    match goal with
    | |- context [merge_sort ?R ?l] =>
        pose proof (merge_sort_Permutation R l) as Hperm
    end.
    apply (Permutation_map Prisma.config) in Hperm.
    change (List.map Prisma.config) with (fmap (M:=list) Prisma.config) in Hperm.
    rewrite Hcfg in Hperm.
    assert (Hvis : forall c,
               includes
                 (gu_groupId <$>
                    Prisma.groupUser_findMany
                      (fun m => String.eqb (gu_userId m) (su_id su)) (store w))
                 (nc_groupId c) = true
               <-> holds_membership (store w) (su_id su) [nc_groupId c]).
    { intros c. rewrite <- attached_to_user_group. simpl.
      now rewrite orb_false_r. }
    intros c. split.
    + intros Hin. eapply Permutation_in in Hin; [|exact Hperm].
      apply filter_In in Hin as [Hin Hv]. split; [exact Hin|].
      right. now apply Hvis.
    + intros [Hin [Hsup | Hv]]; [contradiction|].
      eapply Permutation_in; [symmetry; exact Hperm|].
      apply filter_In. split; [exact Hin | now apply Hvis].
Qed.

Lemma probes_GET_spec (w : World) (su : SessionUser) (serverId : Id) :
  exists resp,
    Probes.GET (Some su) serverId w = (Ok resp, w)
    /\ (can_view_probes_of (store w) su serverId ->
        exists l,
          resp = json (Data l) 200
          /\ forall p, In p l <-> In p (probes (store w))
                                  /\ probe_serverId p = serverId)
    /\ (~ can_view_probes_of (store w) su serverId -> status resp = 403).
Proof.
  destruct (checkServerAccess_spec w (su_id su) serverId
              (is_super_admin (su_role su))) as (b & Hrun & Hb).
  rewrite is_super_admin_true in Hb. fold (can_view_probes_of (store w) su serverId) in Hb.
  unfold Probes.GET, try_catch. rewrite (bind_ok _ _ _ _ _ Hrun).
  destruct b; cbn [negb].
  - unfold bind, query, ret. eexists. split; [reflexivity|].
    split; [|intros Hno; exfalso; apply Hno; now apply Hb].
    intros _. eexists. split; [reflexivity|].
    intros p.
    match goal with
    | |- context [merge_sort ?R ?l] =>
        pose proof (merge_sort_Permutation R l) as Hperm
    end.
    unfold Prisma.probe_findMany in *. split.
    + intros Hin. eapply Permutation_in in Hin; [|exact Hperm].
      apply filter_In in Hin as [Hin Hs]. now apply String.eqb_eq in Hs.
    + intros [Hin Hs].
      eapply Permutation_in; [symmetry; exact Hperm|].
      apply filter_In. split; [exact Hin | now apply String.eqb_eq].
  - eexists. split; [reflexivity|].
    split; [|reflexivity].
    intros Hyes. apply Hb in Hyes. discriminate.
Qed.

(** C8, as the code has it. View access to a server or to a notification
    configuration is granted exactly when the actor is SUPER_ADMIN or holds a
    membership in a group attached to the resource. The server listing and
    the notification configuration listing answer 200 with exactly the rows
    the actor can view; for SUPER_ADMIN that is every row of the table. The
    probes of a server are viewed through the server: the actor is listed
    the probes of a server, all of them, exactly when the actor is SUPER_ADMIN
    or holds a membership in a group attached to the server, and is answered
    403 otherwise, whatever groups the probes are attached to. *)
Theorem view_access_iff_super_admin_or_member (w : World) (su : SessionUser) :
  (forall serverId,
     exists b,
       Probes.checkServerAccess (su_id su) serverId
         (is_super_admin (su_role su)) w = (Ok b, w)
       /\ (b = true <->
           su_role su = UserRole.SUPER_ADMIN
           \/ exists s, Prisma.server_findUnique serverId (store w) = Some s
                        /\ holds_membership (store w) (su_id su)
                             (server_groups s)))
  /\ (forall notificationId,
        exists b,
          NotificationById.checkNotificationAccess notificationId (su_id su)
            (is_super_admin (su_role su)) w = (Ok b, w)
          /\ (b = true <->
              su_role su = UserRole.SUPER_ADMIN
              \/ exists c,
                   Prisma.notificationConfig_findUnique notificationId (store w)
                   = Some c
                   /\ holds_membership (store w) (su_id su) [nc_groupId c]))
  /\ (exists l,
        Servers.GET (Some su) w = (Ok (json (Data l) 200), w)
        /\ (forall s, In s l <-> In s (servers (store w))
                                 /\ can_view_server (store w) su s)
        /\ (su_role su = UserRole.SUPER_ADMIN ->
            Permutation l (servers (store w))))
  /\ (exists l,
        Notifications.GET (Some su) w = (Ok (json (Data l) 200), w)
        /\ (forall c, In c (Prisma.config <$> l)
                      <-> In c (notificationConfigs (store w))
                          /\ can_view_config (store w) su c)
        /\ (su_role su = UserRole.SUPER_ADMIN ->
            Permutation (Prisma.config <$> l) (notificationConfigs (store w))))
  /\ (forall serverId,
        exists resp,
          Probes.GET (Some su) serverId w = (Ok resp, w)
          /\ (can_view_probes_of (store w) su serverId ->
              exists l,
                resp = json (Data l) 200
                /\ forall p, In p l <-> In p (probes (store w))
                                        /\ probe_serverId p = serverId)
          /\ (~ can_view_probes_of (store w) su serverId ->
              status resp = 403)).
Proof.
  split; [|split; [|split; [|split]]].
  - intros serverId.
    destruct (checkServerAccess_spec w (su_id su) serverId
                (is_super_admin (su_role su))) as (b & Hrun & Hb).
    exists b. split; [exact Hrun|]. now rewrite Hb, is_super_admin_true.
  - intros notificationId.
    destruct (checkNotificationAccess_spec w notificationId (su_id su)
                (is_super_admin (su_role su))) as (b & Hrun & Hb).
    exists b. split; [exact Hrun|]. now rewrite Hb, is_super_admin_true.
  - apply servers_GET_spec.
  - apply notifications_GET_spec.
  - intros serverId. apply probes_GET_spec.
Qed.

(** C8 as stated fails for probes: the probe dev-check of the server web is
    attached to Dev only, and web to Ops only. bob, a member of Ops and not
    of Dev, is listed dev-check among the probes of web; carol, a member of
    Dev, is refused the probes of web. *)
Lemma probe_view_is_decided_by_the_server :
  In dev_check (probes db_with_dev_check)
  /\ ~ can_view_probe db_with_dev_check bob_session dev_check
  /\ Probes.GET (Some bob_session) "s-web" (healthy db_with_dev_check)
     = (Ok (json (Data [dev_check; Scenario.ping]) 200),
        healthy db_with_dev_check)
  /\ can_view_probe db_with_dev_check carol_session dev_check
  /\ Probes.GET (Some carol_session) "s-web" (healthy db_with_dev_check)
     = (Ok (json (Msg "Vous n'avez pas accès à ce serveur") 403),
        healthy db_with_dev_check).
Proof.
  split; [simpl; auto|]. split.
  { intros [E | (m & Hin & Hu & Hg)]; [discriminate E|].
    simpl in Hin. destruct Hin as [<-|[<-|[<-|[]]]]; simpl in Hu, Hg;
      try discriminate Hu.
    destruct Hg as [Hg|[]]. discriminate Hg. }
  split; [vm_compute; reflexivity|]. split.
  { right. exists Scenario.carol_in_dev. simpl. auto. }
  vm_compute; reflexivity.
Qed.

(** bob, a member of Ops, is listed the server of Ops; root, SUPER_ADMIN, is
    listed every server, by name. *)
Example servers_listed_to_bob_and_to_root :
  Servers.GET (Scenario.session_of Scenario.bob) (healthy Scenario.db)
  = (Ok (json (Data [Scenario.web]) 200), healthy Scenario.db)
  /\ Servers.GET (Scenario.session_of Scenario.root) (healthy Scenario.db)
     = (Ok (json (Data [Scenario.database; Scenario.web]) 200),
        healthy Scenario.db).
Proof. split; vm_compute; reflexivity. Qed.

(** ** C1: AccessDenied and NotFound *)

Lemma role_is_super_admin_true (d : DB) (userId : Id) :
  role_is_super_admin (Prisma.user_findUnique userId d) = true
  <-> stored_super_admin d userId.
Proof.
  unfold role_is_super_admin, stored_super_admin.
  destruct (Prisma.user_findUnique userId d) as [u|]; simpl.
  - rewrite is_super_admin_true. split; [eauto|].
    intros (u' & E & Hr). now injection E as ->.
  - split; [discriminate | intros (u & E & _); discriminate].
Qed.

Lemma notification_GET_status (w : World) (su : SessionUser) (id : Id) :
  exists resp,
    NotificationById.GET (Some su) id w = (Ok resp, w)
    /\ status resp
       = match Prisma.notificationConfig_findUnique id (store w) with
         | Some c =>
             if is_super_admin (su_role su)
                || bool_decide
                     (is_Some
                        (Prisma.groupUser_findFirst
                           (fun m => String.eqb (gu_userId m) (su_id su)
                                     && String.eqb (gu_groupId m) (nc_groupId c))
                           (store w)))
             then 200 else 403
         | None => if is_super_admin (su_role su) then 404 else 403
         end.
Proof.
  unfold NotificationById.GET, NotificationById.checkNotificationAccess,
    Prisma.notificationConfig_findUnique_include.
  run_monad.
  destruct (is_super_admin (su_role su)); simpl;
    destruct (Prisma.notificationConfig_findUnique id (store w)) as [c|] eqn:E;
    simpl; rewrite ?E; simpl; try (eexists; split; reflexivity).
  destruct (bool_decide _); simpl; rewrite ?E; simpl;
    eexists; split; reflexivity.
Qed.

Lemma group_GET_status (w : World) (su : SessionUser) (id : Id) :
  exists resp,
    GroupById.GET (Some su) id w = (Ok resp, w)
    /\ status resp
       = if role_is_super_admin (Prisma.user_findUnique (su_id su) (store w))
            || bool_decide
                 (is_Some
                    (Prisma.groupUser_findFirst
                       (fun m => String.eqb (gu_userId m) (su_id su)
                                 && String.eqb (gu_groupId m) id && true)
                       (store w)))
         then match Prisma.group_findUnique id (store w) with
              | Some _ => 200
              | None => 404
              end
         else 403.
Proof.
  unfold GroupById.GET, GroupById.checkGroupAccess. run_monad.
  destruct (role_is_super_admin _); simpl.
  - destruct (Prisma.group_findUnique id (store w));
      simpl; eexists; split; reflexivity.
  - destruct (bool_decide _); simpl; [|eexists; split; reflexivity].
    destruct (Prisma.group_findUnique id (store w));
      simpl; eexists; split; reflexivity.
Qed.

Lemma probes_GET_status (w : World) (su : SessionUser) (id : Id) :
  exists resp,
    Probes.GET (Some su) id w = (Ok resp, w)
    /\ status resp
       = if is_super_admin (su_role su) then 200
         else match Prisma.server_findUnique id (store w) with
              | Some s =>
                  if Nat.ltb 0
                       (Prisma.groupUser_count
                          (fun m => String.eqb (gu_userId m) (su_id su)
                                    && includes (server_groups s) (gu_groupId m))
                          (store w))
                  then 200 else 403
              | None => 403
              end.
Proof.
  unfold Probes.GET, Probes.checkServerAccess. run_monad.
  destruct (is_super_admin (su_role su)); simpl;
    [eexists; split; reflexivity|].
  destruct (Prisma.server_findUnique id (store w)) as [s|]; simpl;
    [|eexists; split; reflexivity].
  destruct (Nat.ltb _ _); simpl; eexists; split; reflexivity.
Qed.

Lemma member_row_iff (d : DB) (userId groupId : Id) :
  bool_decide
    (is_Some
       (Prisma.groupUser_findFirst
          (fun m => String.eqb (gu_userId m) userId
                    && String.eqb (gu_groupId m) groupId) d)) = true
  <-> holds_membership d userId [groupId].
Proof.
  unfold Prisma.groupUser_findFirst, holds_membership. rewrite find_is_Some.
  split.
  - intros (m & Hin & Hm). apply andb_prop in Hm as [Hu Hg].
    apply String.eqb_eq in Hu, Hg. exists m. simpl. auto.
  - intros (m & Hin & Hu & [Hg|[]]). exists m. split; [exact Hin|].
    apply andb_true_intro. split; apply String.eqb_eq; congruence.
Qed.

Lemma member_row_iff' (d : DB) (userId groupId : Id) :
  bool_decide
    (is_Some
       (Prisma.groupUser_findFirst
          (fun m => String.eqb (gu_userId m) userId
                    && String.eqb (gu_groupId m) groupId && true) d)) = true
  <-> holds_membership d userId [groupId].
Proof.
  rewrite <- member_row_iff. unfold Prisma.groupUser_findFirst.
  rewrite !find_is_Some.
  split; intros (m & Hin & Hm); exists m; split; auto;
    [now rewrite andb_true_r in Hm | now rewrite andb_true_r].
Qed.

Lemma member_count_iff (d : DB) (userId : Id) (groupIds : list Id) :
  Nat.ltb 0
    (Prisma.groupUser_count
       (fun m => String.eqb (gu_userId m) userId
                 && includes groupIds (gu_groupId m)) d) = true
  <-> holds_membership d userId groupIds.
Proof.
  unfold Prisma.groupUser_count, Prisma.groupUser_findMany, holds_membership.
  rewrite filter_nonempty. split.
  - intros (m & Hin & Hm). apply andb_prop in Hm as [Hu Hg].
    apply String.eqb_eq in Hu. apply includes_In in Hg. eauto.
  - intros (m & Hin & Hu & Hg). exists m. split; [exact Hin|].
    apply andb_true_intro. split; [now apply String.eqb_eq | now apply includes_In].
Qed.

(** C1 as stated fails: bob, a plain member of Ops, asks for a
    notification configuration that does not exist and is answered 403. *)
Lemma missing_config_answers_access_denied :
  Prisma.notificationConfig_findUnique "cfg-none" Scenario.db = None
  /\ exists resp,
       NotificationById.GET (Scenario.session_of Scenario.bob) "cfg-none"
         (healthy Scenario.db) = (Ok resp, healthy Scenario.db)
       /\ status resp = 403.
Proof.
  split; [reflexivity|]. eexists. split; [vm_compute; reflexivity | reflexivity].
Qed.

Lemma register_first_is_super_admin_rest_are_users_witness :
  Register.registerSchema Scenario.accept later_registration = []
  /\ Prisma.user_findUnique_email (Register.rb_email later_registration)
       Scenario.db = None
  /\ fk_groupUser Scenario.db = true
  /\ exists resp d' u,
       Register.POST Scenario.accept Scenario.hash later_registration
         (healthy Scenario.db) = (Ok resp, healthy d')
       /\ status resp = 201
       /\ body resp
          = MsgData "Utilisateur créé avec succès"
              {| Register.reg_user := u;
                 Register.reg_isFirstUser := bool_decide (users Scenario.db = []) |}
       /\ registered_as UserRole.USER Scenario.db d' u
       /\ groups d' = groups Scenario.db
       /\ groupUsers d' = groupUsers Scenario.db.
Proof.
  split; [reflexivity|]. split; [reflexivity|]. split; [reflexivity|].
  apply (register_first_is_super_admin_rest_are_users
           Scenario.accept Scenario.hash later_registration Scenario.db);
    reflexivity.
Defined.

(** carol, who is not in Ops, is refused the configuration of Ops; root is
    answered 404 for a configuration and a group that do not exist, and 200
    for the probes of a server that does not exist. *)
Example access_answers_in_the_scenario :
  (status <$> fst_ok (NotificationById.GET (Scenario.session_of Scenario.carol)
                        "cfg-mail" (healthy Scenario.db))) = Some 403
  /\ (status <$> fst_ok (NotificationById.GET
                           (Scenario.session_of Scenario.root) "cfg-none"
                           (healthy Scenario.db))) = Some 404
  /\ (status <$> fst_ok (GroupById.GET (Scenario.session_of Scenario.root)
                           "g-none" (healthy Scenario.db))) = Some 404
  /\ (status <$> fst_ok (GroupById.GET (Scenario.session_of Scenario.bob)
                           "g-none" (healthy Scenario.db))) = Some 403
  /\ (status <$> fst_ok (Probes.GET (Scenario.session_of Scenario.root)
                           "s-none" (healthy Scenario.db))) = Some 200
  /\ (status <$> fst_ok (Probes.GET (Scenario.session_of Scenario.bob)
                           "s-none" (healthy Scenario.db))) = Some 403.
Proof. repeat split; vm_compute; reflexivity. Qed.

(** ** C3: the last administrator of a group *)

Lemma checkGroupAdmin_run (w : World) (groupId userId : Id) :
  GroupMembers.checkGroupAdmin groupId userId w
  = (Ok (may_administer (store w) groupId userId), w).
Proof.
  unfold GroupMembers.checkGroupAdmin, may_administer. run_monad.
  now destruct (role_is_super_admin _).
Qed.

Lemma fk_groupUser_user (d : DB) (m : GroupUser) :
  fk_groupUser d = true -> In m (groupUsers d) ->
  exists u, Prisma.user_findUnique (gu_userId m) d = Some u.
Proof.
  unfold fk_groupUser. rewrite forallb_forall. intros H Hin.
  specialize (H m Hin). apply andb_prop in H as [Hu _].
  unfold Prisma.user_findUnique.
  destruct (Prisma.find_by user_id (gu_userId m) (users d)) eqn:E; [eauto|].
  apply find_by_None in E. congruence.
Qed.

(** When the only ADMIN membership of the group is [m], a caller who passes
    [checkGroupAdmin] and is not a stored Super Admin is the member of [m]. *)
Lemma sole_admin_caller (d : DB) (groupId userId : Id) (m : GroupUser) :
  admins_of groupId d = [m] ->
  may_administer d groupId userId = true ->
  role_is_super_admin (Prisma.user_findUnique userId d) = false ->
  gu_userId m = userId.
Proof.
  unfold may_administer, admins_of. intros Hsole Hmay Hns.
  rewrite Hns in Hmay. simpl in Hmay.
  apply find_is_Some in Hmay as (m' & Hin & Hm').
  apply andb_prop in Hm' as [Hsame Hadm].
  unfold GroupMembers.same_member in Hsame.
  apply andb_prop in Hsame as [Hu Hg].
  assert (Hin' : In m' (List.filter (GroupMembers.admin_of groupId) (groupUsers d))).
  { apply filter_In. split; [exact Hin|].
    unfold GroupMembers.admin_of. now rewrite Hg, Hadm. }
  rewrite Hsole in Hin'. destruct Hin' as [<-|[]].
  now apply String.eqb_eq.
Qed.

Section LastAdmin.

Variable d : DB.
Variable groupId memberId : Id.
Variable m : GroupUser.

Hypothesis Hfk : fk_groupUser d = true.
Hypothesis Hmember :
  Prisma.groupUser_findFirst (GroupMembers.same_member groupId memberId) d
  = Some m.
Hypothesis Hsole : admins_of groupId d = [m].

Lemma sole_admin_row :
  In m (groupUsers d) /\ gu_userId m = memberId
  /\ is_group_admin (gu_role m) = true.
Proof.
  unfold Prisma.groupUser_findFirst in Hmember.
  apply find_some in Hmember as [Hin Hsame].
  unfold GroupMembers.same_member in Hsame.
  apply andb_prop in Hsame as [Hu _]. apply String.eqb_eq in Hu.
  assert (Hadm : In m (admins_of groupId d)) by (rewrite Hsole; now left).
  unfold admins_of in Hadm. apply filter_In in Hadm as [_ Hadm].
  unfold GroupMembers.admin_of in Hadm. apply andb_prop in Hadm as [_ Hadm].
  auto.
Qed.

(** The Super Admin guard lets every caller through who passed
    [checkGroupAdmin]. *)
Lemma sole_admin_not_forbidden (su : SessionUser) (u : User) :
  may_administer d groupId (su_id su) = true ->
  Prisma.user_findUnique (gu_userId m) d = Some u ->
  (if is_super_admin (user_role u)
   then negb (role_is_super_admin (Prisma.user_findUnique (su_id su) d))
   else false) = false.
Proof.
  intros Hmay Hu.
  destruct (is_super_admin (user_role u)) eqn:Hsu; [|reflexivity].
  destruct (role_is_super_admin (Prisma.user_findUnique (su_id su) d)) eqn:Hc;
    [reflexivity|].
  exfalso.
  pose proof (sole_admin_caller d groupId (su_id su) m Hsole Hmay Hc) as Heq.
  rewrite Heq in Hu. rewrite Hu in Hc. simpl in Hc. congruence.
Qed.

(** C3, as the code has it. When the only ADMIN membership of a group
    belongs to an actor, changing that actor's role to MEMBER and removing
    that actor through the member routes both leave the store unchanged, for
    every caller: the answer is 401 without a session, 403 for a caller who
    is neither Super Admin nor administrator of the group, and 400 for every
    other caller, a SUPER_ADMIN included. *)
Theorem last_admin_demotion_and_removal_rejected (session : Session) :
  exists put_resp delete_resp,
    GroupMembers.PUT session groupId memberId
      {| GroupMembers.um_role := GroupRole.MEMBER |} (healthy d)
    = (Ok put_resp, healthy d)
    /\ GroupMembers.DELETE session groupId memberId (healthy d)
       = (Ok delete_resp, healthy d)
    /\ status put_resp = rejected_status d groupId session
    /\ status delete_resp = rejected_status d groupId session.
Proof.
  destruct sole_admin_row as (Hin & Hu & Hadm).
  destruct (fk_groupUser_user d m Hfk Hin) as (u & Hfind).
  unfold GroupMembers.PUT, GroupMembers.DELETE, rejected_status.
  destruct session as [su|]; [|eexists _, _; repeat split; reflexivity].
  unfold try_catch.
  rewrite !(bind_ok _ _ _ _ _ (checkGroupAdmin_run (healthy d) groupId (su_id su))).
  cbn [store healthy].
  destruct (may_administer d groupId (su_id su)) eqn:Hmay;
    [|eexists _, _; repeat split; reflexivity].
  pose proof (sole_admin_not_forbidden su u Hmay Hfind) as Hforbid.
  unfold GroupMembers.caller_is_super_admin.
  pose proof Hsole as Hadmins. unfold admins_of in Hadmins.
  run_monad. rewrite Hmember. simpl. rewrite Hfind. simpl.
  unfold Prisma.groupUser_findMany.
  destruct (is_super_admin (user_role u)); simpl.
  - apply negb_false_iff in Hforbid. rewrite Hforbid. simpl.
    rewrite Hadm. simpl. rewrite Hadmins. simpl.
    eexists _, _; repeat split; reflexivity.
  - rewrite Hadm. simpl. rewrite Hadmins. simpl.
    eexists _, _; repeat split; reflexivity.
Qed.

End LastAdmin.

Lemma last_admin_demotion_and_removal_rejected_witness :
  fk_groupUser Scenario.db = true
  /\ Prisma.groupUser_findFirst (GroupMembers.same_member "g-ops" "u-alice")
       Scenario.db = Some Scenario.alice_in_ops
  /\ admins_of "g-ops" Scenario.db = [Scenario.alice_in_ops]
  /\ exists put_resp delete_resp,
       GroupMembers.PUT (Scenario.session_of Scenario.root) "g-ops" "u-alice"
         {| GroupMembers.um_role := GroupRole.MEMBER |} (healthy Scenario.db)
       = (Ok put_resp, healthy Scenario.db)
       /\ GroupMembers.DELETE (Scenario.session_of Scenario.root) "g-ops"
            "u-alice" (healthy Scenario.db)
          = (Ok delete_resp, healthy Scenario.db)
       /\ status put_resp
          = rejected_status Scenario.db "g-ops"
              (Scenario.session_of Scenario.root)
       /\ status delete_resp
          = rejected_status Scenario.db "g-ops"
              (Scenario.session_of Scenario.root).
Proof.
  split; [reflexivity|]. split; [reflexivity|]. split; [reflexivity|].
  apply (last_admin_demotion_and_removal_rejected Scenario.db "g-ops" "u-alice"
           Scenario.alice_in_ops); reflexivity.
Defined.

(** C3 as stated fails on the status: root, a SUPER_ADMIN,
    demotes and removes alice, the only administrator of Ops, and is
    answered 400 both times, not 409. *)
Lemma sole_admin_rejection_is_400_not_409 :
  admins_of "g-ops" Scenario.db = [Scenario.alice_in_ops]
  /\ exists put_resp delete_resp,
       GroupMembers.PUT (Scenario.session_of Scenario.root) "g-ops" "u-alice"
         {| GroupMembers.um_role := GroupRole.MEMBER |} (healthy Scenario.db)
       = (Ok put_resp, healthy Scenario.db)
       /\ GroupMembers.DELETE (Scenario.session_of Scenario.root) "g-ops"
            "u-alice" (healthy Scenario.db)
          = (Ok delete_resp, healthy Scenario.db)
       /\ status put_resp = 400 /\ status put_resp <> 409
       /\ status delete_resp = 400 /\ status delete_resp <> 409.
Proof.
  split; [reflexivity|]. eexists _, _.
  split; [vm_compute; reflexivity|]. split; [vm_compute; reflexivity|].
  simpl. repeat split; discriminate.
Qed.

(** ** C7: adding members *)

Lemma with_groupUsers_id (d : DB) : with_groupUsers (groupUsers d) d = d.
Proof. now destruct d. Qed.

Lemma with_groupUsers_twice (l l' : list GroupUser) (d : DB) :
  with_groupUsers l (with_groupUsers l' d) = with_groupUsers l d.
Proof. reflexivity. Qed.







Section AddMembers.

Variable is_uuid : string -> bool.

Local Abbreviation POST := (GroupMembers.POST is_uuid).


End AddMembers.




(** ** C2: every group with members keeps an administrator *)

(** What the two member routes leave in the store. *)
Lemma member_PUT_store (session : Session) (groupId memberId : Id)
    (req : GroupMembers.UpdateMemberBody) (d : DB) :
  store (snd (GroupMembers.PUT session groupId memberId req (healthy d))) = d
  \/ exists member,
       Prisma.groupUser_findFirst
         (GroupMembers.same_member groupId memberId) d = Some member
       /\ (is_group_admin (gu_role member) = true ->
           GroupMembers.um_role req = GroupRole.MEMBER ->
           List.length (admins_of groupId d) <> 1)
       /\ store (snd (GroupMembers.PUT session groupId memberId req
                        (healthy d)))
          = with_groupUsers
              (Prisma.replace_by gu_id (gu_id member)
                 (Prisma.set_role (GroupMembers.um_role req)) (groupUsers d))
              d.
Proof.
  unfold GroupMembers.PUT.
  destruct session as [su|]; [|now left].
  unfold try_catch.
  rewrite (bind_ok _ _ _ _ _ (checkGroupAdmin_run (healthy d) groupId (su_id su))).
  cbn [store healthy].
  destruct (may_administer d groupId (su_id su)); [|now left].
  unfold GroupMembers.caller_is_super_admin. run_monad.
  destruct (Prisma.groupUser_findFirst _ d) as [member|] eqn:Hmember;
    [|now left].
  simpl.
  destruct (Prisma.user_findUnique (gu_userId member) d) as [u|]; [|now left].
  simpl.
  assert (Hfinish :
    forall d' : DB,
      (Nat.eqb (List.length (admins_of groupId d)) 1 = false
       \/ is_group_admin (gu_role member) = false
       \/ GroupMembers.um_role req <> GroupRole.MEMBER) ->
      d' = with_groupUsers
             (Prisma.replace_by gu_id (gu_id member)
                (Prisma.set_role (GroupMembers.um_role req)) (groupUsers d)) d ->
      d' = d
      \/ exists member0,
           Some member = Some member0
           /\ (is_group_admin (gu_role member0) = true ->
               GroupMembers.um_role req = GroupRole.MEMBER ->
               List.length (admins_of groupId d) <> 1)
           /\ d' = with_groupUsers
                     (Prisma.replace_by gu_id (gu_id member0)
                        (Prisma.set_role (GroupMembers.um_role req))
                        (groupUsers d)) d).
  { intros d' Hwhy Hstore. right. exists member. split; [reflexivity|].
    split; [|exact Hstore]. intros Hadm Hrole.
    destruct Hwhy as [Hlen | [Hno | Hno]]; [|congruence|contradiction].
    now apply Nat.eqb_neq. }
  unfold Prisma.groupUser_findMany, Prisma.groupUser_update.
  unfold admins_of in Hfinish.
  destruct (is_super_admin (user_role u)); simpl;
    [destruct (role_is_super_admin _); simpl; [|now left]|];
    (destruct (is_group_admin (gu_role member)) eqn:Hadm; simpl;
     [destruct (bool_decide (GroupMembers.um_role req = GroupRole.MEMBER))
        eqn:Hrole; simpl;
      [destruct (Nat.eqb (List.length (List.filter _ (groupUsers d))) 1)
         eqn:Hlen; simpl; [now left|]|]|]);
    (destruct (Prisma.find_by gu_id (gu_id member) (groupUsers d)); simpl;
     [apply Hfinish; [|reflexivity] | now left]);
    auto.
  all: right; right; now apply bool_decide_eq_false in Hrole.
Qed.

Lemma member_DELETE_store (session : Session) (groupId memberId : Id) (d : DB) :
  store (snd (GroupMembers.DELETE session groupId memberId (healthy d))) = d
  \/ exists member,
       Prisma.groupUser_findFirst
         (GroupMembers.same_member groupId memberId) d = Some member
       /\ (is_group_admin (gu_role member) = true ->
           List.length (admins_of groupId d) <> 1)
       /\ store (snd (GroupMembers.DELETE session groupId memberId (healthy d)))
          = with_groupUsers
              (Prisma.remove_by gu_id (gu_id member) (groupUsers d)) d.
Proof.
  unfold GroupMembers.DELETE.
  destruct session as [su|]; [|now left].
  unfold try_catch.
  rewrite (bind_ok _ _ _ _ _ (checkGroupAdmin_run (healthy d) groupId (su_id su))).
  cbn [store healthy].
  destruct (may_administer d groupId (su_id su)); [|now left].
  unfold GroupMembers.caller_is_super_admin. run_monad.
  destruct (Prisma.groupUser_findFirst _ d) as [member|] eqn:Hmember;
    [|now left].
  simpl.
  destruct (Prisma.user_findUnique (gu_userId member) d) as [u|]; [|now left].
  simpl.
  assert (Hfinish :
    forall d' : DB,
      (Nat.eqb (List.length (admins_of groupId d)) 1 = false
       \/ is_group_admin (gu_role member) = false) ->
      d' = with_groupUsers
             (Prisma.remove_by gu_id (gu_id member) (groupUsers d)) d ->
      d' = d
      \/ exists member0,
           Some member = Some member0
           /\ (is_group_admin (gu_role member0) = true ->
               List.length (admins_of groupId d) <> 1)
           /\ d' = with_groupUsers
                     (Prisma.remove_by gu_id (gu_id member0) (groupUsers d)) d).
  { intros d' Hwhy Hstore. right. exists member. split; [reflexivity|].
    split; [|exact Hstore]. intros Hadm.
    destruct Hwhy as [Hlen | Hno]; [|congruence].
    now apply Nat.eqb_neq. }
  unfold Prisma.groupUser_findMany, Prisma.groupUser_delete.
  unfold admins_of in Hfinish.
  destruct (is_super_admin (user_role u)); simpl;
    [destruct (role_is_super_admin _); simpl; [|now left]|];
    (destruct (is_group_admin (gu_role member)) eqn:Hadm; simpl;
     [destruct (Nat.eqb (List.length (List.filter _ (groupUsers d))) 1)
        eqn:Hlen; simpl; [now left|]|]);
    (destruct (Prisma.find_by gu_id (gu_id member) (groupUsers d)); simpl;
     [apply Hfinish; [|reflexivity] | now left]);
    auto.
Qed.

Lemma unique_id_row (d : DB) (a b : GroupUser) :
  unique_member_ids d -> In a (groupUsers d) -> In b (groupUsers d) ->
  gu_id a = gu_id b -> a = b.
Proof.
  unfold unique_member_ids.
  induction (groupUsers d) as [|x l IH]; simpl; [tauto|].
  intros Hnd Ha Hb Hid.
  apply List.NoDup_cons_iff in Hnd as [Hx Hnd].
  assert (Hnot : forall r, In r l -> gu_id r <> gu_id x).
  { intros r Hr E. apply Hx. rewrite <- E. now apply in_map. }
  destruct Ha as [<-|Ha], Hb as [<-|Hb]; auto.
  - exfalso. apply (Hnot b Hb). congruence.
  - exfalso. apply (Hnot a Ha). congruence.
Qed.

(** With unique identifiers, a list of rows that is not a singleton and
    holds [x] holds a row with another identifier. *)
Lemma another_row (x : GroupUser) (l : list GroupUser) :
  List.NoDup (List.map gu_id l) -> List.length l <> 1 -> In x l ->
  exists y, In y l /\ gu_id y <> gu_id x.
Proof.
  destruct l as [|a [|b r]]; simpl; [tauto | intros _ H; congruence |].
  intros Hnd _ Hx.
  apply List.NoDup_cons_iff in Hnd as [Ha _].
  destruct (String.eqb_spec (gu_id a) (gu_id x)) as [E|E].
  - exists b. split; [auto|]. intros E'. apply Ha. rewrite E, <- E'.
    now left.
  - exists a. auto.
Qed.

Lemma NoDup_ids_filter (f : GroupUser -> bool) (l : list GroupUser) :
  List.NoDup (List.map gu_id l) ->
  List.NoDup (List.map gu_id (List.filter f l)).
Proof.
  induction l as [|x l IH]; simpl; [auto|].
  intros Hnd. apply List.NoDup_cons_iff in Hnd as [Hx Hnd].
  destruct (f x); [|now apply IH].
  simpl. apply List.NoDup_cons_iff. split; [|now apply IH].
  intros Hin. apply Hx.
  apply in_map_iff in Hin as (y & Hy & Hin).
  apply in_map_iff. exists y. split; [exact Hy|].
  now apply filter_In in Hin.
Qed.

(** When the group has an administrator besides [member], or [member] is
    not one, the other rows still find an administrator among the rows with
    another identifier than [member]'s. *)
Lemma admin_besides (d : DB) (groupId : Id) (member m : GroupUser) :
  unique_member_ids d -> has_admin d ->
  In member (groupUsers d) -> gu_groupId member = groupId ->
  (is_group_admin (gu_role member) = true ->
   List.length (admins_of groupId d) <> 1) ->
  In m (groupUsers d) ->
  exists a, In a (groupUsers d) /\ gu_id a <> gu_id member
            /\ GroupMembers.admin_of (gu_groupId m) a = true.
Proof.
  intros Hnd Hinv Hmem Hg Hguard Hm.
  destruct (Hinv m Hm) as (a & Ha & Hadm).
  destruct (String.eqb_spec (gu_id a) (gu_id member)) as [E|E];
    [|exists a; auto].
  assert (a = member) by (eapply unique_id_row; eauto). subst a.
  unfold GroupMembers.admin_of in Hadm. apply andb_prop in Hadm as [Hgm Hrole].
  apply String.eqb_eq in Hgm.
  assert (Hin : In member (admins_of groupId d)).
  { unfold admins_of. apply filter_In. split; [exact Hmem|].
    unfold GroupMembers.admin_of. rewrite Hg, String.eqb_refl. exact Hrole. }
  destruct (another_row member (admins_of groupId d)) as (y & Hy & Hne).
  - unfold admins_of. now apply NoDup_ids_filter.
  - now apply Hguard.
  - exact Hin.
  - unfold admins_of in Hy. apply filter_In in Hy as [Hy Hyadm].
    exists y. split; [exact Hy|]. split; [exact Hne|].
    now rewrite <- Hgm, Hg.
Qed.

(** The member routes keep the invariant: whatever the request, a store with
    unique membership identifiers in which every group with a membership has
    an ADMIN membership is left in such a state by a role change and by a
    removal. *)
Lemma member_routes_keep_an_admin (session : Session) (groupId memberId : Id)
    (req : GroupMembers.UpdateMemberBody) (d : DB) :
  unique_member_ids d -> has_admin d ->
  has_admin (store (snd (GroupMembers.PUT session groupId memberId req
                           (healthy d))))
  /\ has_admin (store (snd (GroupMembers.DELETE session groupId memberId
                              (healthy d)))).
Proof.
  intros Hnd Hinv. split.
  - destruct (member_PUT_store session groupId memberId req d)
      as [-> | (member & Hfind & Hguard & ->)]; [exact Hinv|].
    unfold Prisma.groupUser_findFirst in Hfind.
    apply find_some in Hfind as [Hmem Hsame].
    unfold GroupMembers.same_member in Hsame.
    apply andb_prop in Hsame as [_ Hg]. apply String.eqb_eq in Hg.
    intros m' Hm'. simpl in Hm'. unfold Prisma.replace_by in Hm'.
    apply in_map_iff in Hm' as (m & Hm'eq & Hm).
    assert (Hgm : gu_groupId m' = gu_groupId m).
    { subst m'. now destruct (String.eqb (gu_id m) (gu_id member)). }
    rewrite Hgm. simpl.
    destruct (GroupMembers.um_role req) eqn:Hrole.
    + (* promotion: administrators stay administrators *)
      destruct (Hinv m Hm) as (a & Ha & Hadm).
      exists (if String.eqb (gu_id a) (gu_id member)
              then Prisma.set_role GroupRole.ADMIN a else a).
      split.
      * unfold Prisma.replace_by. apply in_map_iff. exists a. auto.
      * destruct (String.eqb (gu_id a) (gu_id member)); [|exact Hadm].
        unfold GroupMembers.admin_of in *. simpl.
        apply andb_prop in Hadm as [Hga _]. now rewrite Hga.
    + (* demotion: another administrator remains *)
      destruct (admin_besides d groupId member m Hnd Hinv Hmem Hg
                  (fun Hadm => Hguard Hadm eq_refl) Hm)
        as (a & Ha & Hne & Hadm).
      exists a. split; [|exact Hadm].
      unfold Prisma.replace_by. apply in_map_iff. exists a.
      split; [|exact Ha].
      apply String.eqb_neq in Hne. now rewrite Hne.
  - destruct (member_DELETE_store session groupId memberId d)
      as [-> | (member & Hfind & Hguard & ->)]; [exact Hinv|].
    unfold Prisma.groupUser_findFirst in Hfind.
    apply find_some in Hfind as [Hmem Hsame].
    unfold GroupMembers.same_member in Hsame.
    apply andb_prop in Hsame as [_ Hg]. apply String.eqb_eq in Hg.
    intros m Hm. simpl in Hm. unfold Prisma.remove_by in Hm.
    apply filter_In in Hm as [Hm _]. simpl.
    destruct (admin_besides d groupId member m Hnd Hinv Hmem Hg Hguard Hm)
      as (a & Ha & Hne & Hadm).
    exists a. split; [|exact Hadm].
    unfold Prisma.remove_by. apply filter_In. split; [exact Ha|].
    apply String.eqb_neq in Hne. now rewrite Hne.
Qed.

(** C2 fails on the user route. After the setup the default group has its
    administrator and one member and the invariant holds; the user update
    deletes the administrator's membership without looking at the group, and
    the group is left with bob, a MEMBER, and no ADMIN. The member routes
    keep the invariant ([member_routes_keep_an_admin]). *)
Theorem user_update_leaves_group_without_admin :
  let before := serve_all setup empty_db in
  let after := serve leave_all_groups before in
  keeps_an_admin before = true
  /\ (gu_userId <$> admins_of "0" before) = ["0"]
  /\ (gu_userId <$> members_of "0" after) = ["1"]
  /\ admins_of "0" after = []
  /\ keeps_an_admin after = false.
Proof. vm_compute. repeat split; reflexivity. Qed.

(** ** C4 and C6: the outcome of a send *)

Lemma find_by_app_fresh {A} (key : A -> Id) (id : Id) (rows : list A) (r : A) :
  Prisma.has_id key id rows = false ->
  Prisma.find_by key id (rows ++ [r])
  = if String.eqb (key r) id then Some r else None.
Proof.
  unfold Prisma.has_id, Prisma.find_by.
  induction rows as [|x rows IH]; simpl; [reflexivity|].
  intros H. apply orb_false_elim in H as [Hx Hr]. rewrite Hx. now apply IH.
Qed.

Lemma replace_by_app_fresh {A} (key : A -> Id) (id : Id) (f : A -> A)
    (rows : list A) (r : A) :
  Prisma.has_id key id rows = false ->
  Prisma.replace_by key id f (rows ++ [r])
  = rows ++ [if String.eqb (key r) id then f r else r].
Proof.
  unfold Prisma.has_id, Prisma.replace_by.
  induction rows as [|x rows IH]; simpl; [reflexivity|].
  intros H. apply orb_false_elim in H as [Hx Hr]. rewrite Hx.
  f_equal. now apply IH.
Qed.

Lemma find_by_has_id {A} (key : A -> Id) (id : Id) (rows : list A) (r : A) :
  Prisma.find_by key id rows = Some r -> Prisma.has_id key id rows = true.
Proof.
  intros H. destruct (Prisma.has_id key id rows) eqn:E; [reflexivity|].
  apply find_by_None in E. congruence.
Qed.

Section SendProperties.

Variable is_uuid : string -> bool.
Variable env : Send.SmtpEnv.
Variable now sentNow : nat.
Variable render_html render_text : string -> string -> Js.Props -> string.
Variable sendMail : Send.SmtpEnv -> Send.Mail -> string + JsVal.
Variable fetch : string -> Js.Props -> JsVal -> string + Send.HttpResponse.

Local Abbreviation POST :=
  (Send.POST is_uuid env now sentNow render_html render_text sendMail fetch).
Local Abbreviation deliver :=
  (Send.deliver env render_html render_text sendMail fetch).

Lemma send_run (req : Send.SendBody) (d : DB)
    (cfg : Prisma.NotificationConfigFull) (server : Server) :
  Send.sendNotificationSchema is_uuid req = [] ->
  Prisma.notificationConfig_findUnique_include
    (Send.sb_notificationConfigId req) d = Some cfg ->
  Prisma.server_findUnique (Send.sb_serverId req) d = Some server ->
  probe_known req d = true ->
  POST req (healthy d)
  = match outcome_of env now render_html render_text sendMail fetch req cfg server d with
    | inr sendResult =>
        (Ok (json (MsgData "Notification envoyée avec succès"
                     {| Send.sent_notification := pending now req server d;
                        Send.sent_sendResult := sendResult |}) 200),
         recorded (Send.mark_sent sentNow (pending now req server d)) d)
    | inl error =>
        (Ok (json (MsgError
                     "La notification a été enregistrée mais n'a pas pu être envoyée"
                     error) 500),
         recorded (Send.mark_failed error (pending now req server d)) d)
    end.
Proof.
  intros Hvalid Hcfg Hserver Hprobe.
  assert (Hcfg_id : Prisma.has_id nc_id (Send.sb_notificationConfigId req)
                      (notificationConfigs d) = true).
  { unfold Prisma.notificationConfig_findUnique_include in Hcfg.
    destruct (Prisma.notificationConfig_findUnique _ d) as [c|] eqn:E;
      [|discriminate].
    now apply find_by_has_id in E. }
  assert (Hserver_id : Prisma.has_id server_id (Send.sb_serverId req)
                         (servers d) = true)
    by now apply find_by_has_id in Hserver.
  unfold Send.POST. rewrite Hvalid. unfold try_catch at 1.
  assert (Hbody : forall (B : Type) (k : option Probe -> M B),
    bind
      match Send.sb_probeId req with
      | Some probeId =>
          if String.eqb probeId "" then ret None
          else query (Prisma.probe_findUnique probeId)
      | None => ret None
      end k (healthy d) = k (probe_of req d) (healthy d)).
  { intros B k. unfold probe_of, bind, query, ret.
    destruct (Send.sb_probeId req) as [p|]; [|reflexivity].
    destruct (String.eqb p ""); reflexivity. }
  unfold bind at 1, query at 1. cbn [store healthy]. rewrite Hcfg.
  fold (healthy d).
  unfold bind at 1, query at 1. cbn [store healthy]. rewrite Hserver.
  fold (healthy d). rewrite Hbody.
  fold (event_of now req server d).
  unfold bind at 1, write at 1, Prisma.notification_create.
  cbn [budget store healthy].
  unfold probe_known in Hprobe.
  rewrite Hserver_id, Hprobe, Hcfg_id. cbn [negb fmap option_fmap option_map].
  fold (pending now req server d).
  unfold outcome_of.
  pose proof (uuid_fresh n_id (notifications d)) as Hfresh.
  destruct (deliver cfg (Send.sb_title req) (Send.sb_message req)
              (event_of now req server d)) as [error|sendResult] eqn:Hdeliver.
  - unfold try_catch, bind, Send.await, throw, write, ret,
      Prisma.notification_update.
    cbn [budget store fst snd notifications with_notifications n_id pending].
    rewrite (find_by_app_fresh n_id _ _ _ Hfresh).
    cbn [n_id pending]. rewrite String.eqb_refl.
    rewrite (replace_by_app_fresh n_id _ _ _ _ Hfresh).
    cbn [n_id pending]. rewrite String.eqb_refl.
    reflexivity.
  - unfold try_catch, bind, Send.await, throw, write, ret,
      Prisma.notification_update.
    cbn [budget store fst snd notifications with_notifications n_id pending].
    rewrite (find_by_app_fresh n_id _ _ _ Hfresh).
    cbn [n_id pending]. rewrite String.eqb_refl.
    rewrite (replace_by_app_fresh n_id _ _ _ _ Hfresh).
    cbn [n_id pending]. rewrite String.eqb_refl.
    reflexivity.
Qed.

End SendProperties.

Section SendFaults.

Variable is_uuid : string -> bool.
Variable env : Send.SmtpEnv.
Variable now sentNow : nat.
Variable render_html render_text : string -> string -> Js.Props -> string.
Variable sendMail : Send.SmtpEnv -> Send.Mail -> string + JsVal.
Variable fetch : string -> Js.Props -> JsVal -> string + Send.HttpResponse.


End SendFaults.

Section SendOutcome.

Variable is_uuid : string -> bool.
Variable env : Send.SmtpEnv.
Variable now sentNow : nat.
Variable render_html render_text : string -> string -> Js.Props -> string.
Variable sendMail : Send.SmtpEnv -> Send.Mail -> string + JsVal.
Variable fetch : string -> Js.Props -> JsVal -> string + Send.HttpResponse.

Local Abbreviation POST :=
  (Send.POST is_uuid env now sentNow render_html render_text sendMail fetch).
Local Abbreviation outcome_of :=
  (outcome_of env now render_html render_text sendMail fetch).
Local Abbreviation pending := (pending now).

Variable req : Send.SendBody.
Variable d : DB.
Variable cfg : Prisma.NotificationConfigFull.
Variable server : Server.

Hypothesis Hvalid : Send.sendNotificationSchema is_uuid req = [].
Hypothesis Hcfg :
  Prisma.notificationConfig_findUnique_include
    (Send.sb_notificationConfigId req) d = Some cfg.
Hypothesis Hserver :
  Prisma.server_findUnique (Send.sb_serverId req) d = Some server.
Hypothesis Hprobe : probe_known req d = true.



End SendOutcome.





(** ** C9: the payload of a webhook dispatch *)

Section WebhookDispatch.

Variable is_uuid : string -> bool.
Variable env : Send.SmtpEnv.
Variable now sentNow : nat.
Variable render_html render_text : string -> string -> Js.Props -> string.
Variable sendMail : Send.SmtpEnv -> Send.Mail -> string + JsVal.
Variable fetch : string -> Js.Props -> JsVal -> string + Send.HttpResponse.

Variable req : Send.SendBody.
Variable d : DB.
Variable cfg : Prisma.NotificationConfigFull.
Variable hook : WebhookNotification.
Variable server : Server.

Hypothesis Hvalid : Send.sendNotificationSchema is_uuid req = [].
Hypothesis Hcfg :
  Prisma.notificationConfig_findUnique_include
    (Send.sb_notificationConfigId req) d = Some cfg.
Hypothesis Htype : nc_type (Prisma.config cfg) = NotificationChannelType.WEBHOOK.
Hypothesis Hhook : Prisma.webhookConfig cfg = Some hook.
Hypothesis Hserver :
  Prisma.server_findUnique (Send.sb_serverId req) d = Some server.
Hypothesis Hprobe : probe_known req d = true.


End WebhookDispatch.


(** ** C5: switching the type of a notification configuration *)


Lemma find_by_replace_by {A} (key : A -> Id) (id : Id) (r r' : A)
    (rows : list A) :
  key r' = id ->
  Prisma.find_by key id rows = Some r ->
  Prisma.find_by key id (Prisma.replace_by key id (fun _ => r') rows) = Some r'.
Proof.
  intros Hk. unfold Prisma.find_by, Prisma.replace_by.
  induction rows as [|x rows IH]; simpl; [discriminate|].
  destruct (String.eqb (key x) id) eqn:E; simpl.
  - intros _. rewrite Hk, String.eqb_refl. reflexivity.
  - rewrite E. exact IH.
Qed.

Lemma find_by_remove_by {A} (key : A -> Id) (id : Id) (rows : list A) :
  Prisma.find_by key id (Prisma.remove_by key id rows) = None.
Proof.
  unfold Prisma.find_by, Prisma.remove_by.
  induction rows as [|x rows IH]; simpl; [reflexivity|].
  destruct (String.eqb (key x) id) eqn:E; simpl; [exact IH|].
  rewrite E. exact IH.
Qed.

Lemma checkGroupAdminAccess_run (w : World) (notificationId : Id)
    (su : SessionUser) :
  NotificationById.checkGroupAdminAccess notificationId (su_id su)
    (is_super_admin (su_role su)) w
  = (Ok (may_edit_config (store w) notificationId su), w).
Proof.
  unfold NotificationById.checkGroupAdminAccess, may_edit_config.
  destruct (is_super_admin (su_role su)); [reflexivity|].
  run_monad.
  now destruct (Prisma.notificationConfig_findUnique notificationId (store w)).
Qed.

Lemma include_configs_inv (id : Id) (d : DB)
    (cfg : Prisma.NotificationConfigFull) :
  Prisma.notificationConfig_findUnique_include id d = Some cfg ->
  Prisma.notificationConfig_findUnique id d = Some (Prisma.config cfg)
  /\ nc_id (Prisma.config cfg) = id
  /\ Prisma.emailNotification_findUnique id d = Prisma.emailConfig cfg
  /\ Prisma.webhookNotification_findUnique id d = Prisma.webhookConfig cfg.
Proof.
  unfold Prisma.notificationConfig_findUnique_include.
  destruct (Prisma.notificationConfig_findUnique id d) as [c|] eqn:E;
    [|discriminate].
  intros [= <-]. simpl.
  unfold Prisma.notificationConfig_findUnique in E.
  destruct (find_by_Some _ _ _ _ E) as [_ Hid]. rewrite Hid. auto.
Qed.

Lemma nb_config_cases (req : NotificationById.NotificationBody) :
  (exists recipients,
     NotificationById.nb_config req = NotificationById.EmailBody recipients)
  \/ (exists url headers payload,
        NotificationById.nb_config req
        = NotificationById.WebhookBody url headers payload).
Proof. destruct (NotificationById.nb_config req); eauto. Qed.

Lemma bool_decide_is_Some_Some {A} (x : A) :
  bool_decide (is_Some (Some x)) = true.
Proof. reflexivity. Qed.

Lemma bool_decide_is_Some_None {A} : bool_decide (is_Some (@None A)) = false.
Proof. reflexivity. Qed.


Ltac store_step :=
  cbn [budget store fst snd negb andb fmap option_fmap option_map Nat.pred
       users groups groupUsers servers probes notificationConfigs
       emailNotifications webhookNotifications notifications
       with_notificationConfigs with_emailNotifications
       with_webhookNotifications].

Section TypeSwitch.

Variable is_uuid is_email is_url : string -> bool.

Local Abbreviation PUT := (NotificationById.PUT is_uuid is_email is_url).

Variable su : SessionUser.
Variable id : Id.
Variable req : NotificationById.NotificationBody.
Variable d : DB.
Variable cfg : Prisma.NotificationConfigFull.

Hypothesis Hmay : may_edit_config d id su = true.
Hypothesis Hvalid : NotificationById.notificationSchema is_uuid is_email is_url req = [].
Hypothesis Hcfg : Prisma.notificationConfig_findUnique_include id d = Some cfg.
Hypothesis Hone : one_subconfig_of_its_type cfg.
Hypothesis Hswitch : NotificationById.nb_type req <> nc_type (Prisma.config cfg).
Hypothesis Hgroup : Prisma.has_id group_id (NotificationById.nb_groupId req) (groups d) = true.



Lemma looked_up_after_switch (c' : NotificationConfig)
    (emails : list EmailNotification) (hooks : list WebhookNotification) :
  nc_id c' = id ->
  Prisma.notificationConfig_findUnique_include id
    (with_emailNotifications emails
       (with_webhookNotifications hooks
          (with_notificationConfigs
             (Prisma.replace_by nc_id id (fun _ => c') (notificationConfigs d))
             d)))
  = Some {| Prisma.config := c';
            Prisma.emailConfig :=
              Prisma.find_by en_notificationConfigId id emails;
            Prisma.webhookConfig :=
              Prisma.find_by wn_notificationConfigId id hooks |}.
Proof.
  intros Hid'.
  destruct (include_configs_inv id d cfg Hcfg) as (Hc & _).
  unfold Prisma.notificationConfig_findUnique_include,
    Prisma.notificationConfig_findUnique in *.
  store_step. rewrite (find_by_replace_by nc_id id _ c' _ Hid' Hc).
  cbn. unfold Prisma.include_configs, Prisma.emailNotification_findUnique,
    Prisma.webhookNotification_findUnique.
  store_step. now rewrite Hid'.
Qed.

Lemma looked_up_after_webhook_delete (c' : NotificationConfig)
    (hooks : list WebhookNotification) :
  nc_id c' = id ->
  Prisma.notificationConfig_findUnique_include id
    (with_webhookNotifications hooks
       (with_notificationConfigs
          (Prisma.replace_by nc_id id (fun _ => c') (notificationConfigs d)) d))
  = Some {| Prisma.config := c';
            Prisma.emailConfig :=
              Prisma.find_by en_notificationConfigId id (emailNotifications d);
            Prisma.webhookConfig :=
              Prisma.find_by wn_notificationConfigId id hooks |}.
Proof.
  intros Hid'.
  rewrite <- (looked_up_after_switch c' (emailNotifications d) hooks Hid').
  reflexivity.
Qed.

Lemma looked_up_after_email_delete (c' : NotificationConfig)
    (emails : list EmailNotification) :
  nc_id c' = id ->
  Prisma.notificationConfig_findUnique_include id
    (with_emailNotifications emails
       (with_notificationConfigs
          (Prisma.replace_by nc_id id (fun _ => c') (notificationConfigs d)) d))
  = Some {| Prisma.config := c';
            Prisma.emailConfig :=
              Prisma.find_by en_notificationConfigId id emails;
            Prisma.webhookConfig :=
              Prisma.find_by wn_notificationConfigId id
                (webhookNotifications d) |}.
Proof.
  intros Hid'.
  rewrite <- (looked_up_after_switch c' emails (webhookNotifications d) Hid').
  reflexivity.
Qed.



End TypeSwitch.



(** * Further properties of the routes *)

(** ** Lemmas on writes and lookups *)

Lemma write_cases {A} (f : DB -> string + (A * DB)) (w : World) :
  (exists e, write f w = (Throw e, w))
  \/ (exists a d', f (store w) = inr (a, d')
        /\ write f w = (Ok a, {| store := d'; budget := pred <$> budget w |})).
Proof.
  unfold write. destruct (budget w) as [[|n]|]; [left; eauto | |];
    (destruct (f (store w)) as [e|[a d']]; [left; eauto | right; eauto]).
Qed.

Lemma write_related {A} (R : DB -> DB -> Prop) (f : DB -> string + (A * DB))
    (w : World) :
  R (store w) (store w) ->
  (forall a d', f (store w) = inr (a, d') -> R (store w) d') ->
  R (store w) (store (snd (write f w))).
Proof.
  intros Hrefl Hf.
  destruct (write_cases f w) as [(e & ->) | (a & d' & Hfd & ->)]; simpl; auto.
  eapply Hf; eauto.
Qed.

Lemma promise_all_related {A B} (R : DB -> DB -> Prop) (f : A -> M B) :
  (forall d, R d d) -> (forall a b c, R a b -> R b c -> R a c) ->
  (forall x w, R (store w) (store (snd (f x w)))) ->
  forall l w, R (store w) (store (snd (promise_all f l w))).
Proof.
  intros Hrefl Htrans Hf. induction l as [|x l IH]; intros w; simpl.
  - apply Hrefl.
  - pose proof (Hf x w) as H1. destruct (f x w) as [[b|e] w1]; simpl in *.
    + pose proof (IH w1) as H2.
      destruct (promise_all f l w1) as [[bs|e] w2]; simpl in *;
        eapply Htrans; eauto.
    + eapply Htrans; [exact H1 | apply IH].
Qed.

Lemma only_memberships_differ_refl d : only_memberships_differ d d.
Proof. now destruct d. Qed.

Lemma only_memberships_differ_trans a b c :
  only_memberships_differ a b -> only_memberships_differ b c ->
  only_memberships_differ a c.
Proof.
  unfold only_memberships_differ. intros H1 H2. rewrite <- H1 at 2.
  rewrite <- H2. reflexivity.
Qed.

Lemma groupUser_create_frame userId groupId role d m d' :
  Prisma.groupUser_create userId groupId role d = inr (m, d') ->
  only_memberships_differ d d'.
Proof.
  unfold Prisma.groupUser_create.
  repeat (match goal with |- context [if ?b then _ else _] => destruct b end;
          try discriminate).
  intros [= _ <-]. now destruct d.
Qed.

Lemma snd_try_catch_ret {A} (m : M A) (h : string -> A) (w : World) :
  snd (try_catch m (fun e => ret (h e)) w) = snd (m w).
Proof. unfold try_catch, ret. now destruct (m w) as [[a|e] w']. Qed.

Lemma snd_bind {A B} (m : M A) (k : A -> M B) (w : World) :
  snd (bind m k w)
  = match m w with
    | (Ok a, w') => snd (k a w')
    | (Throw _, w') => w'
    end.
Proof. unfold bind. now destruct (m w) as [[a|e] w']. Qed.

Lemma snd_bind_ret {A B} (m : M A) (f : A -> B) (w : World) :
  snd (bind m (fun a => ret (f a)) w) = snd (m w).
Proof. unfold bind, ret. now destruct (m w) as [[a|e] w']. Qed.

Lemma snd_bind_query {A B} (f : DB -> A) (k : A -> M B) (w : World) :
  snd (bind (query f) k w) = snd (k (f (store w)) w).
Proof. reflexivity. Qed.

Lemma snd_try_catch {A} (m : M A) (h : string -> M A) (w : World) :
  snd (try_catch m h w)
  = match m w with
    | (Ok _, w') => w'
    | (Throw e, w') => snd (h e w')
    end.
Proof. unfold try_catch. now destruct (m w) as [[a|e] w']. Qed.

Lemma bind_throw {A B} (e : string) (k : A -> M B) (w : World) :
  bind (throw e) k w = (Throw e, w).
Proof. reflexivity. Qed.

Lemma bind_ret {A B} (a : A) (k : A -> M B) (w : World) :
  bind (ret a) k w = k a w.
Proof. reflexivity. Qed.

Lemma find_by_replace_by_other {A} (key : A -> Id) (id id' : Id) (r' : A)
    (rows : list A) :
  key r' = id' -> id <> id' ->
  Prisma.find_by key id (Prisma.replace_by key id' (fun _ => r') rows)
  = Prisma.find_by key id rows.
Proof.
  intros Hk Hne. unfold Prisma.find_by, Prisma.replace_by.
  induction rows as [|x rows IH]; simpl; [reflexivity|].
  destruct (String.eqb_spec (key x) id') as [E|E]; simpl.
  - rewrite Hk.
    destruct (String.eqb_spec id' id) as [E'|_]; [congruence|].
    destruct (String.eqb_spec (key x) id) as [E'|_]; [congruence | exact IH].
  - destruct (String.eqb (key x) id); [reflexivity | exact IH].
Qed.

Lemma find_by_replace_by_keeping {A} (key : A -> Id) (id id' : Id) (f : A -> A)
    (rows : list A) :
  (forall r, key (f r) = key r) ->
  Prisma.find_by key id (Prisma.replace_by key id' f rows)
  = (fun r => if String.eqb id id' then f r else r)
      <$> Prisma.find_by key id rows.
Proof.
  intros Hf. unfold Prisma.find_by, Prisma.replace_by.
  induction rows as [|x rows IH]; simpl; [reflexivity|].
  destruct (String.eqb_spec (key x) id') as [E|E]; simpl.
  - rewrite Hf.
    destruct (String.eqb_spec (key x) id) as [E'|E']; simpl; [|exact IH].
    destruct (String.eqb_spec id id'); [reflexivity | congruence].
  - destruct (String.eqb_spec (key x) id) as [E'|E']; simpl; [|exact IH].
    destruct (String.eqb_spec id id'); [congruence | reflexivity].
Qed.

Lemma keys_replace_by {A} (key : A -> Id) (id : Id) (r' : A) (rows : list A) :
  key r' = id ->
  List.map key (Prisma.replace_by key id (fun _ => r') rows) = List.map key rows.
Proof.
  intros Hk. unfold Prisma.replace_by. rewrite List.map_map.
  apply List.map_ext. intros x.
  destruct (String.eqb_spec (key x) id) as [E|E]; congruence.
Qed.

Lemma find_by_remove_by_other {A} (key : A -> Id) (id id' : Id) (rows : list A) :
  id <> id' ->
  Prisma.find_by key id (Prisma.remove_by key id' rows)
  = Prisma.find_by key id rows.
Proof.
  intros Hne. unfold Prisma.find_by, Prisma.remove_by.
  induction rows as [|x rows IH]; simpl; [reflexivity|].
  destruct (String.eqb_spec (key x) id') as [E|E]; simpl.
  - destruct (String.eqb_spec (key x) id) as [E'|_]; [congruence | exact IH].
  - destruct (String.eqb (key x) id); [reflexivity | exact IH].
Qed.

Lemma has_id_remove_by_other {A} (key : A -> Id) (id id' : Id) (rows : list A) :
  id <> id' ->
  Prisma.has_id key id (Prisma.remove_by key id' rows)
  = Prisma.has_id key id rows.
Proof.
  intros Hne.
  destruct (Prisma.has_id key id rows) eqn:E.
  - destruct (Prisma.has_id key id (Prisma.remove_by key id' rows)) eqn:E';
      [reflexivity|].
    apply find_by_None in E'. rewrite find_by_remove_by_other in E' by exact Hne.
    apply find_by_None in E'. congruence.
  - apply find_by_None. rewrite find_by_remove_by_other by exact Hne.
    now apply find_by_None.
Qed.

Lemma filter_all_true {A} (f : A -> bool) (l : list A) :
  (forall x, In x l -> f x = true) -> List.filter f l = l.
Proof.
  induction l as [|a l IH]; simpl; [reflexivity|].
  intros H. rewrite (H a (or_introl eq_refl)). f_equal. auto.
Qed.

Lemma filter_nil_iff {A} (f : A -> bool) (l : list A) :
  List.filter f l = [] <-> forall x, In x l -> f x = false.
Proof.
  induction l as [|a l IH]; simpl; [tauto|].
  destruct (f a) eqn:E.
  - split; [discriminate|]. intros H. specialize (H a (or_introl eq_refl)).
    congruence.
  - rewrite IH. split; [intros H x [<-|Hx]; auto | auto].
Qed.

Lemma no_member_of_a_missing_group (d : DB) (groupId : Id) :
  fk_groupUser d = true ->
  Prisma.has_id group_id groupId (groups d) = false ->
  members_of groupId d = [].
Proof.
  unfold fk_groupUser, members_of. rewrite forallb_forall. intros Hfk Hnew.
  apply filter_nil_iff. intros m Hm. specialize (Hfk m Hm).
  apply andb_prop in Hfk as [_ Hg].
  destruct (String.eqb_spec (gu_groupId m) groupId) as [E|E]; [|reflexivity].
  congruence.
Qed.

Lemma In_remove_dups (l : list Id) (g : Id) : In g (remove_dups l) <-> In g l.
Proof. rewrite <- !list_elem_of_In. apply elem_of_remove_dups. Qed.

Lemma fk_subconfigs_iff (d : DB) :
  fk_subconfigs d = true
  <-> (forall e, In e (emailNotifications d) ->
         Prisma.has_id nc_id (en_notificationConfigId e) (notificationConfigs d)
         = true)
      /\ (forall h, In h (webhookNotifications d) ->
            Prisma.has_id nc_id (wn_notificationConfigId h)
              (notificationConfigs d) = true).
Proof.
  unfold fk_subconfigs. now rewrite andb_true_iff, !forallb_forall.
Qed.

(** ** Users: PUT /api/users/[id] *)

Section UserUpdate.

Variable is_uuid is_email : string -> bool.
Variable bcrypt_hash : string -> string.

Lemma assign_groups_frame (userId : Id)
    (groups : option (list Users.GroupAssignment)) (super : bool) (w : World) :
  let w' :=
    snd ((match groups with
          | Some groups =>
              if super then
                do* write (Prisma.groupUser_deleteMany
                             (fun m => String.eqb (gu_userId m) userId)) in
                if Nat.ltb 0 (List.length groups) then
                  do* promise_all
                        (fun group =>
                           write (Prisma.groupUser_create userId
                                    (Users.ga_id group) (Users.ga_role group)))
                        groups in
                  ret tt
                else ret tt
              else ret tt
          | None => ret tt
          end) w) in
  only_memberships_differ (store w) (store w')
  /\ (super = false -> store w' = store w).
Proof.
  cbv zeta. destruct groups as [groups|]; simpl;
    [|split; [apply only_memberships_differ_refl | reflexivity]].
  destruct super; simpl;
    [|split; [apply only_memberships_differ_refl | reflexivity]].
  split; [|discriminate].
  rewrite snd_bind.
  destruct (write_cases
              (Prisma.groupUser_deleteMany
                 (fun m => String.eqb (gu_userId m) userId)) w)
    as [(e & ->) | (a & d' & Hfd & ->)];
    [apply only_memberships_differ_refl|].
  assert (H1 : only_memberships_differ (store w) d').
  { unfold Prisma.groupUser_deleteMany in Hfd. injection Hfd as _ <-.
    now destruct (store w). }
  eapply only_memberships_differ_trans; [exact H1|].
  destruct (Nat.ltb 0 (List.length groups)); simpl;
    [|apply only_memberships_differ_refl].
  rewrite snd_bind_ret.
  match goal with
  | |- only_memberships_differ _ (store (snd (promise_all ?f ?l ?w0))) =>
      apply (promise_all_related only_memberships_differ f
               only_memberships_differ_refl only_memberships_differ_trans)
  end.
  intros x w0. apply write_related; [apply only_memberships_differ_refl|].
  intros m d0. apply groupUser_create_frame.
Qed.

Lemma user_PUT_store (su : SessionUser) (userId : Id)
    (body : Users.UpdateUserBody) (w : World) :
  let d := store w in
  let d' := store (snd (Users.PUT is_uuid is_email bcrypt_hash (Some su)
                          userId body w)) in
  d' = d
  \/ exists u,
       Prisma.user_findUnique userId d = Some u
       /\ (is_super_admin (su_role su) = true \/ su_id su = userId)
       /\ users d'
          = Prisma.replace_by user_id userId
              (fun _ => Users.apply_update bcrypt_hash (Users.uu_name body)
                          (Users.uu_email body) (Users.uu_password body)
                          (final_role su userId body) u)
              (users d)
       /\ only_users_and_memberships_differ d d'
       /\ (is_super_admin (su_role su) = false -> groupUsers d' = groupUsers d).
Proof.
  cbv zeta. unfold Users.PUT. rewrite snd_try_catch_ret.
  destruct (negb (is_super_admin (su_role su)) && negb (su_id su =? userId))
    eqn:Hauth; [now left|].
  assert (Hwho : is_super_admin (su_role su) = true \/ su_id su = userId).
  { apply andb_false_iff in Hauth as [H|H]; apply negb_false_iff in H;
      [now left | right; now apply String.eqb_eq]. }
  destruct (Users.updateUserSchema is_uuid is_email body); [|now left].
  rewrite snd_bind.
  match goal with
  | |- context [match ?m w with _ => _ end] =>
      assert (Htaken : exists b, m w = (Ok b, w))
  end.
  { destruct (Users.given (Users.uu_email body)); [|eexists; reflexivity].
    unfold bind, query, ret. eexists; reflexivity. }
  destruct Htaken as (taken & ->).
  destruct taken; [now left|].
  rewrite snd_bind.
  match goal with
  | |- context [write ?f w] =>
      destruct (write_cases f w) as [(e & ->) | (u' & d1 & Hfd & ->)]
  end; [now left|].
  right.
  unfold Prisma.user_update in Hfd.
  destruct (Prisma.user_findUnique userId (store w)) as [u|] eqn:Hu;
    [|discriminate].
  destruct (existsb _ (users (store w))); [discriminate|].
  injection Hfd as <- <-.
  exists u. split; [reflexivity|]. split; [exact Hwho|].
  rewrite snd_bind_ret.
  match goal with
  | |- context [snd (?m ?w1)] =>
      pose proof (assign_groups_frame userId (Users.uu_groups body)
                    (is_super_admin (su_role su)) w1) as [Hframe Hsame]
  end.
  cbv zeta in Hframe, Hsame. cbn [store] in Hframe, Hsame.
  split; [|split].
  - apply (f_equal users) in Hframe. exact Hframe.
  - unfold only_users_and_memberships_differ, only_memberships_differ in *.
    apply (f_equal (with_users (users (store w)))) in Hframe.
    destruct (store w); exact Hframe.
  - intros Hns. rewrite (Hsame Hns). reflexivity.
Qed.


(** X1. An update of a user, whatever the caller, the body and the write
    faults, leaves every table but [users] and [groupUsers] as it was, adds and
    removes no user, and changes no row of [users] but the target's. The role
    of a user changes only when a Super Admin updates another user, and a
    caller who is not a Super Admin changes no membership. *)
Theorem user_update_changes_the_target_only (su : SessionUser) (userId : Id)
    (body : Users.UpdateUserBody) (w : World) :
  let d := store w in
  let d' := store (snd (Users.PUT is_uuid is_email bcrypt_hash (Some su)
                          userId body w)) in
  only_users_and_memberships_differ d d'
  /\ List.map user_id (users d') = List.map user_id (users d)
  /\ (forall id, id <> userId ->
        Prisma.user_findUnique id d' = Prisma.user_findUnique id d)
  /\ (is_super_admin (su_role su) = false \/ su_id su = userId ->
      forall id,
        user_role <$> Prisma.user_findUnique id d'
        = user_role <$> Prisma.user_findUnique id d)
  /\ (is_super_admin (su_role su) = false -> groupUsers d' = groupUsers d).
Proof.
  cbv zeta.
  destruct (user_PUT_store su userId body w)
    as [-> | (u & Hu & Hwho & Husers & Hframe & Hgu)].
  { split; [now destruct (store w)|]. repeat split; reflexivity. }
  assert (Hid : user_id u = userId).
  { unfold Prisma.user_findUnique in Hu. now apply find_by_Some in Hu. }
  set (u' := Users.apply_update bcrypt_hash (Users.uu_name body)
               (Users.uu_email body) (Users.uu_password body)
               (final_role su userId body) u) in *.
  assert (Hid' : user_id u' = userId) by exact Hid.
  split; [exact Hframe|]. split; [|split; [|split; [|exact Hgu]]].
  - rewrite Husers. now apply keys_replace_by.
  - intros id Hne. unfold Prisma.user_findUnique. rewrite Husers.
    now apply find_by_replace_by_other.
  - intros Hself id.
    assert (Hrole : user_role u' = user_role u).
    { unfold u', final_role.
      destruct Hwho as [Hs|Hs], Hself as [Hn|Hn]; try congruence;
        rewrite ?Hs, ?Hn, String.eqb_refl; reflexivity. }
    unfold Prisma.user_findUnique. rewrite Husers.
    destruct (String.eqb_spec id userId) as [->|Hne].
    + unfold Prisma.user_findUnique in Hu.
      rewrite (find_by_replace_by user_id userId u u' _ Hid' Hu), Hu.
      cbn [fmap option_fmap option_map]. now rewrite Hrole.
    + now rewrite find_by_replace_by_other.
Qed.


(** X2. An update that asks for an email another user holds is answered 400,
    "Cet email est déjà associé à un compte", and writes nothing. *)
Theorem user_update_refuses_an_email_in_use (su : SessionUser) (userId : Id)
    (body : Users.UpdateUserBody) (w : World) (email : string) (other : User) :
  is_super_admin (su_role su) = true \/ su_id su = userId ->
  Users.updateUserSchema is_uuid is_email body = [] ->
  Users.uu_email body = Some email -> email <> "" ->
  In other (users (store w)) -> user_email other = email ->
  user_id other <> userId ->
  Users.PUT is_uuid is_email bcrypt_hash (Some su) userId body w
  = (Ok (json (Msg "Cet email est déjà associé à un compte") 400), w).
Proof.
  intros Hwho Hvalid Hemail Hne Hin Hother Hid.
  unfold Users.PUT, try_catch.
  assert (Hauth : negb (is_super_admin (su_role su))
                  && negb (su_id su =? userId) = false).
  { apply andb_false_iff.
    destruct Hwho as [->| ->]; [now left | right].
    now rewrite String.eqb_refl. }
  rewrite Hauth, Hvalid.
  unfold Users.given. rewrite Hemail.
  apply String.eqb_neq in Hne. rewrite Hne.
  unfold bind, query, ret.
  assert (Hfound :
    bool_decide
      (is_Some
         (Prisma.user_findFirst
            (fun u => String.eqb (user_email u) email
                      && negb (String.eqb (user_id u) userId)) (store w)))
    = true).
  { unfold Prisma.user_findFirst. apply find_is_Some. exists other.
    split; [exact Hin|]. apply andb_true_intro. split.
    - now apply String.eqb_eq.
    - apply negb_true_iff. now apply String.eqb_neq. }
  rewrite Hfound. reflexivity.
Qed.

End UserUpdate.

Lemma user_update_refuses_an_email_in_use_witness :
  (is_super_admin (su_role alice_session) = true
   \/ su_id alice_session = "u-alice")
  /\ Users.updateUserSchema Scenario.accept Scenario.accept Lab.take_bobs_email
     = []
  /\ Users.uu_email Lab.take_bobs_email = Some "bob@example.com"
  /\ "bob@example.com" <> ""
  /\ In Scenario.bob (users Scenario.db)
  /\ user_email Scenario.bob = "bob@example.com"
  /\ user_id Scenario.bob <> "u-alice"
  /\ Users.PUT Scenario.accept Scenario.accept Scenario.hash
       (Some alice_session) "u-alice" Lab.take_bobs_email (healthy Scenario.db)
     = (Ok (json (Msg "Cet email est déjà associé à un compte") 400),
        healthy Scenario.db).
Proof.
  assert (Hwho : is_super_admin (su_role alice_session) = true
                 \/ su_id alice_session = "u-alice") by (right; reflexivity).
  assert (Hmail : "bob@example.com" <> "") by discriminate.
  assert (Hin : In Scenario.bob (users Scenario.db)) by (simpl; auto).
  assert (Hid : user_id Scenario.bob <> "u-alice") by discriminate.
  split; [exact Hwho|]. split; [reflexivity|]. split; [reflexivity|].
  split; [exact Hmail|]. split; [exact Hin|]. split; [reflexivity|].
  split; [exact Hid|].
  exact (user_update_refuses_an_email_in_use Scenario.accept Scenario.accept
           Scenario.hash alice_session "u-alice" Lab.take_bobs_email
           (healthy Scenario.db) "bob@example.com" Scenario.bob
           Hwho eq_refl eq_refl Hmail Hin eq_refl Hid).
Defined.

(** ** Users: DELETE /api/users/[id] *)

Lemma user_DELETE_run (su : SessionUser) (userId : Id) (w : World) :
  Users.DELETE (Some su) userId w
  = if negb (is_super_admin (su_role su)) then
      (Ok (json (Msg "Vous n'avez pas les permissions nécessaires") 403), w)
    else if String.eqb (su_id su) userId then
      (Ok (json (Msg "Vous ne pouvez pas supprimer votre propre compte") 400), w)
    else
      match Prisma.user_findUnique userId (store w) with
      | None => (Ok (json (Msg "Utilisateur introuvable") 404), w)
      | Some _ =>
          match write (Prisma.user_delete userId) w with
          | (Ok _, w') =>
              (Ok (json (Msg "Utilisateur supprimé avec succès") 200), w')
          | (Throw _, w') =>
              (Ok (json (Msg "Une erreur est survenue lors de la suppression de l'utilisateur") 500),
               w')
          end
      end.
Proof.
  unfold Users.DELETE, try_catch.
  destruct (negb (is_super_admin (su_role su))); [reflexivity|].
  destruct (String.eqb (su_id su) userId); [reflexivity|].
  unfold bind at 1, query.
  destruct (Prisma.user_findUnique userId (store w)); [|reflexivity].
  unfold bind, ret.
  now destruct (write (Prisma.user_delete userId) w) as [[a|e] w'].
Qed.

Lemma user_delete_write (userId : Id) (w : World) :
  (exists e, write (Prisma.user_delete userId) w = (Throw e, w))
  \/ (exists u,
        created_a_server userId (store w) = false
        /\ write (Prisma.user_delete userId) w
           = (Ok u, {| store := without_user userId (store w);
                       budget := pred <$> budget w |})).
Proof.
  destruct (write_cases (Prisma.user_delete userId) w)
    as [(e & ->) | (u & d' & Hfd & ->)]; [left; eauto|].
  right. unfold Prisma.user_delete in Hfd.
  destruct (Prisma.user_findUnique userId (store w)); [|discriminate].
  fold (created_a_server userId (store w)) in Hfd.
  destruct (created_a_server userId (store w)); [discriminate|].
  injection Hfd as <- <-. eauto.
Qed.

Lemma fk_groupUser_without_user (userId : Id) (d : DB) :
  fk_groupUser d = true -> fk_groupUser (without_user userId d) = true.
Proof.
  unfold fk_groupUser, without_user. rewrite !forallb_forall. simpl.
  intros Hfk m Hm. apply filter_In in Hm as [Hm Hne].
  specialize (Hfk m Hm). apply andb_prop in Hfk as [Hu Hg].
  apply andb_true_intro. split; [|exact Hg].
  rewrite has_id_remove_by_other; [exact Hu|].
  apply negb_true_iff in Hne. now apply String.eqb_neq in Hne.
Qed.


(** X3. A deletion of a user never removes the account of the caller, changes
    no account but the one it names, and changes nothing at all when the
    caller is not a Super Admin. *)
Theorem user_delete_spares_the_caller (su : SessionUser) (userId : Id)
    (w : World) :
  let d := store w in
  let d' := store (snd (Users.DELETE (Some su) userId w)) in
  Prisma.user_findUnique (su_id su) d' = Prisma.user_findUnique (su_id su) d
  /\ (forall id, id <> userId ->
        Prisma.user_findUnique id d' = Prisma.user_findUnique id d)
  /\ (is_super_admin (su_role su) = false -> d' = d).
Proof.
  cbv zeta. rewrite user_DELETE_run.
  destruct (is_super_admin (su_role su)); cbn [negb];
    [|repeat split; reflexivity].
  destruct (String.eqb_spec (su_id su) userId) as [Hself|Hother];
    [repeat split; reflexivity|].
  destruct (Prisma.user_findUnique userId (store w)) as [target|] eqn:Hu;
    [|repeat split; reflexivity].
  destruct (user_delete_write userId w) as [(e & ->) | (u & _ & ->)];
    [repeat split; reflexivity|].
  cbn [snd store].
  assert (Hfind : forall id, id <> userId ->
            Prisma.user_findUnique id (without_user userId (store w))
            = Prisma.user_findUnique id (store w)).
  { intros id Hne. unfold Prisma.user_findUnique, without_user. simpl.
    now apply find_by_remove_by_other. }
  split; [now apply Hfind|]. split; [exact Hfind | discriminate].
Qed.


(** X4. On a store whose memberships name users and groups of the store, a
    deletion of a user leaves such a store; when it answers 200 the user is
    gone and the memberships left are those of the other users. *)
Theorem user_delete_takes_the_memberships_along (su : SessionUser)
    (userId : Id) (w : World) :
  fk_groupUser (store w) = true ->
  let run := Users.DELETE (Some su) userId w in
  fk_groupUser (store (snd run)) = true
  /\ (forall resp,
        fst run = Ok resp -> status resp = 200 ->
        store (snd run) = without_user userId (store w)
        /\ Prisma.user_findUnique userId (store (snd run)) = None
        /\ forall m, In m (groupUsers (store (snd run))) <->
                     In m (groupUsers (store w)) /\ gu_userId m <> userId).
Proof.
  intros Hfk. cbv zeta. rewrite user_DELETE_run.
  destruct (negb (is_super_admin (su_role su)));
    [split; [exact Hfk | intros ? [= <-]; discriminate]|].
  destruct (String.eqb (su_id su) userId);
    [split; [exact Hfk | intros ? [= <-]; discriminate]|].
  destruct (Prisma.user_findUnique userId (store w)) as [target|];
    [|split; [exact Hfk | intros ? [= <-]; discriminate]].
  destruct (user_delete_write userId w) as [(e & ->) | (u & _ & ->)];
    [split; [exact Hfk | intros ? [= <-]; discriminate]|].
  cbn [fst snd store]. split; [now apply fk_groupUser_without_user|].
  intros resp _ _. split; [reflexivity|]. split.
  - unfold Prisma.user_findUnique, without_user. simpl.
    apply find_by_remove_by.
  - intros m. unfold without_user. simpl. rewrite filter_In.
    rewrite negb_true_iff, String.eqb_neq. reflexivity.
Qed.

Lemma user_delete_takes_the_memberships_along_witness :
  let run := Users.DELETE (Some Lab.root_session) "u-bob" (healthy Scenario.db) in
  fk_groupUser Scenario.db = true
  /\ (status <$> fst_ok run) = Some 200
  /\ fk_groupUser (store (snd run)) = true
  /\ (forall resp,
        fst run = Ok resp -> status resp = 200 ->
        store (snd run) = without_user "u-bob" Scenario.db
        /\ Prisma.user_findUnique "u-bob" (store (snd run)) = None
        /\ forall m, In m (groupUsers (store (snd run))) <->
                     In m (groupUsers Scenario.db) /\ gu_userId m <> "u-bob").
Proof.
  cbv zeta. split; [reflexivity|]. split; [reflexivity|].
  exact (user_delete_takes_the_memberships_along Lab.root_session "u-bob"
           (healthy Scenario.db) eq_refl).
Defined.


(** X5. A user who created a server of the store is not deleted: the relation
    [Server.createdBy] names no [onDelete], so the deletion is refused, and the
    request is answered with another status than 200 and writes nothing. *)
Theorem user_who_created_a_server_is_not_deleted (su : SessionUser)
    (userId : Id) (w : World) (s : Server) :
  In s (servers (store w)) -> server_createdById s = userId ->
  exists resp,
    Users.DELETE (Some su) userId w = (Ok resp, w) /\ status resp <> 200.
Proof.
  intros Hin Hby. rewrite user_DELETE_run.
  destruct (negb (is_super_admin (su_role su)));
    [eexists; split; [reflexivity | discriminate]|].
  destruct (String.eqb (su_id su) userId);
    [eexists; split; [reflexivity | discriminate]|].
  destruct (Prisma.user_findUnique userId (store w)) as [target|];
    [|eexists; split; [reflexivity | discriminate]].
  destruct (user_delete_write userId w) as [(e & ->) | (u & Hnone & ->)];
    [eexists; split; [reflexivity | discriminate]|].
  exfalso. unfold created_a_server in Hnone.
  assert (existsb (fun s => String.eqb (server_createdById s) userId)
            (servers (store w)) = true); [|congruence].
  apply existsb_exists. exists s. split; [exact Hin|]. now apply String.eqb_eq.
Qed.

Lemma user_who_created_a_server_is_not_deleted_witness :
  In Scenario.web (servers Scenario.db)
  /\ server_createdById Scenario.web = "u-alice"
  /\ exists resp,
       Users.DELETE (Some Lab.root_session) "u-alice" (healthy Scenario.db)
       = (Ok resp, healthy Scenario.db)
       /\ status resp <> 200.
Proof.
  assert (Hin : In Scenario.web (servers Scenario.db)) by (simpl; auto).
  split; [exact Hin|]. split; [reflexivity|].
  exact (user_who_created_a_server_is_not_deleted Lab.root_session "u-alice"
           (healthy Scenario.db) Scenario.web Hin eq_refl).
Defined.

(** ** Users: POST /api/users *)

Lemma assign_all_run (userId : Id) (l : list Users.GroupAssignment) (d : DB) :
  exists o rows,
    promise_all (assign_group userId) l (healthy d)
    = (o, healthy (with_groupUsers (groupUsers d ++ rows) d))
    /\ ((exists g, In g l
                   /\ Prisma.has_id group_id (Users.ga_id g) (groups d) = false)
        -> exists e, o = Throw e)
    /\ (forall created, o = Ok created ->
          rows = created
          /\ List.map assignment_of rows = List.map requested l
          /\ forall m, In m rows -> gu_userId m = userId).
Proof.
  revert d. induction l as [|g l IH]; intros d.
  - exists (Ok []), []. simpl. rewrite app_nil_r, with_groupUsers_id.
    split; [reflexivity|]. split; [intros (g & [] & _)|].
    intros created [= <-]. split; [reflexivity|]. split; [reflexivity|].
    intros m [].
  - simpl.
    destruct (write_cases (Prisma.groupUser_create userId (Users.ga_id g)
                             (Users.ga_role g)) (healthy d))
      as [(e & Hrun) | (m & d1 & Hfd & Hrun)];
      unfold assign_group at 1; rewrite Hrun.
    + destruct (IH d) as (o & rows & Hr & _ & _). rewrite Hr. simpl.
      exists (Throw e), rows. split; [reflexivity|].
      split; [eauto | discriminate].
    + cbn [store healthy budget fmap option_fmap option_map] in *.
      unfold Prisma.groupUser_create in Hfd.
      destruct (negb (Prisma.has_id user_id _ _)); [discriminate|].
      destruct (negb (Prisma.has_id group_id _ _)) eqn:Hgroup; [discriminate|].
      destruct (existsb _ _); [discriminate|].
      injection Hfd as <- <-.
      set (m := {| gu_id := _; gu_userId := _; gu_groupId := _; gu_role := _ |}).
      destruct (IH (with_groupUsers (groupUsers d ++ [m]) d))
        as (o & rows & Hr & Hthrow & Hok).
      simpl in Hr, Hthrow. rewrite with_groupUsers_twice, <- app_assoc in Hr.
      simpl in Hr.
      fold (healthy (with_groupUsers (groupUsers d ++ [m]) d)). rewrite Hr.
      exists (match o with Ok bs => Ok (m :: bs) | Throw e => Throw e end),
             (m :: rows).
      split; [now destruct o|]. split.
      * intros (g' & [<- | Hin] & Hmiss).
        -- apply negb_false_iff in Hgroup. congruence.
        -- destruct Hthrow as (e & ->); eauto.
      * intros created. destruct o as [bs|e]; [|discriminate].
        intros [= <-]. destruct (Hok bs eq_refl) as (-> & Hmap & Hu).
        split; [reflexivity|]. split; [simpl; now rewrite Hmap|].
        intros m' [<- | Hin]; [reflexivity | now apply Hu].
Qed.

Section UserCreate.

Variable is_uuid is_email : string -> bool.
Variable bcrypt_hash : string -> string.

Lemma user_POST_run (su : SessionUser) (req : UserList.CreateUserBody) (d : DB) :
  is_super_admin (su_role su) = true ->
  UserList.createUserSchema is_uuid is_email req = [] ->
  Prisma.user_findUnique_email (UserList.cu_email req) d = None ->
  let u := new_account bcrypt_hash req d in
  let d1 := with_users (users d ++ [u]) d in
  UserList.POST is_uuid is_email bcrypt_hash (Some su) req (healthy d)
  = match promise_all (assign_group (user_id u))
            (default [] (UserList.cu_groups req)) (healthy d1) with
    | (Ok _, w') => (Ok (json (Data (UserList.without_password u)) 201), w')
    | (Throw _, w') =>
        (Ok (json (Msg "Une erreur est survenue lors de la création de l'utilisateur") 500),
         w')
    end.
Proof.
  intros Hsuper Hvalid Hfree. cbv zeta.
  unfold UserList.POST, try_catch. rewrite Hsuper, Hvalid. cbn [negb].
  unfold bind at 1, query at 1. cbn [store healthy]. rewrite Hfree.
  unfold bind at 1, write at 1, Prisma.user_create.
  cbn [budget store healthy].
  apply find_by_None in Hfree. rewrite Hfree.
  cbn [fmap option_fmap option_map].
  fold (new_account bcrypt_hash req d).
  fold (healthy (with_users (users d ++ [new_account bcrypt_hash req d]) d)).
  destruct (UserList.cu_groups req) as [[|g l]|]; try reflexivity.
  cbn [default List.length Nat.ltb Nat.leb].
  unfold bind, ret.
  change (fun group : Users.GroupAssignment =>
            write (Prisma.groupUser_create (user_id (new_account bcrypt_hash req d))
                     (Users.ga_id group) (Users.ga_role group)))
    with (assign_group (user_id (new_account bcrypt_hash req d))).
  unfold id. now destruct (promise_all _ (g :: l) _) as [[bs|e] w'].
Qed.


(** X6. A creation of a user that answers 201 was asked by a Super Admin; it
    added the account, with the hashed password, and one membership of the new
    user for each group of the request, in the order and with the roles of the
    request, and nothing else. The answer is the account without its
    password. *)
Theorem created_user_holds_the_requested_memberships (su : SessionUser)
    (req : UserList.CreateUserBody) (d : DB) (w' : World)
    (resp : Response (Body UserList.UserWithoutPassword)) :
  UserList.POST is_uuid is_email bcrypt_hash (Some su) req (healthy d) = (Ok resp, w') ->
  status resp = 201 ->
  let u := new_account bcrypt_hash req d in
  exists rows,
    su_role su = UserRole.SUPER_ADMIN
    /\ body resp = Data (UserList.without_password u)
    /\ w' = healthy (with_groupUsers (groupUsers d ++ rows)
                       (with_users (users d ++ [u]) d))
    /\ List.map assignment_of rows
       = List.map requested (default [] (UserList.cu_groups req))
    /\ forall m, In m rows -> gu_userId m = user_id u.
Proof.
  intros Hrun Hst. cbv zeta.
  destruct (is_super_admin (su_role su)) eqn:Hsuper.
  2:{ unfold UserList.POST, try_catch in Hrun. rewrite Hsuper in Hrun.
      injection Hrun as <- <-. discriminate. }
  destruct (UserList.createUserSchema is_uuid is_email req) eqn:Hvalid.
  2:{ unfold UserList.POST, try_catch in Hrun. rewrite Hsuper, Hvalid in Hrun.
      injection Hrun as <- <-. discriminate. }
  destruct (Prisma.user_findUnique_email (UserList.cu_email req) d) eqn:Hfree.
  { unfold UserList.POST, try_catch in Hrun. rewrite Hsuper, Hvalid in Hrun.
    unfold bind, query, ret in Hrun. cbn [store healthy negb] in Hrun.
    rewrite Hfree in Hrun. injection Hrun as <- <-. discriminate. }
  rewrite (user_POST_run su req d Hsuper Hvalid Hfree) in Hrun.
  cbv zeta in Hrun.
  destruct (assign_all_run (user_id (new_account bcrypt_hash req d))
              (default [] (UserList.cu_groups req))
              (with_users (users d ++ [new_account bcrypt_hash req d]) d))
    as (o & rows & Hall & _ & Hok).
  rewrite Hall in Hrun. destruct o as [created|e].
  - injection Hrun as <- <-.
    destruct (Hok created eq_refl) as (_ & Hmap & Hu).
    exists rows. split; [now apply is_super_admin_true|].
    split; [reflexivity|]. split; [reflexivity|]. split; [exact Hmap | exact Hu].
  - injection Hrun as <- <-. discriminate.
Qed.


(** X7. A creation of a user that names a group the store does not have is
    answered 500, but the account stays in the store: the same request, sent
    again, is answered 400, "Cet email est déjà associé à un compte". *)
Theorem failed_user_creation_leaves_the_account (su : SessionUser)
    (req : UserList.CreateUserBody) (d : DB) (g : Users.GroupAssignment) :
  is_super_admin (su_role su) = true ->
  UserList.createUserSchema is_uuid is_email req = [] ->
  Prisma.user_findUnique_email (UserList.cu_email req) d = None ->
  In g (default [] (UserList.cu_groups req)) ->
  Prisma.has_id group_id (Users.ga_id g) (groups d) = false ->
  exists d',
    UserList.POST is_uuid is_email bcrypt_hash (Some su) req (healthy d)
    = (Ok (json (Msg "Une erreur est survenue lors de la création de l'utilisateur") 500),
       healthy d')
    /\ users d' = users d ++ [new_account bcrypt_hash req d]
    /\ UserList.POST is_uuid is_email bcrypt_hash (Some su) req (healthy d')
       = (Ok (json (Msg "Cet email est déjà associé à un compte") 400),
          healthy d').
Proof.
  intros Hsuper Hvalid Hfree Hin Hmissing.
  rewrite (user_POST_run su req d Hsuper Hvalid Hfree). cbv zeta.
  set (u := new_account bcrypt_hash req d).
  destruct (assign_all_run (user_id u) (default [] (UserList.cu_groups req))
              (with_users (users d ++ [u]) d))
    as (o & rows & Hrun & Hthrow & _).
  rewrite Hrun. destruct Hthrow as (e & ->); [exists g; auto|].
  eexists. split; [reflexivity|]. split; [reflexivity|].
  unfold UserList.POST, try_catch. rewrite Hsuper, Hvalid. cbn [negb].
  unfold bind, query, ret. cbn [store healthy].
  unfold Prisma.user_findUnique_email. cbn [users with_groupUsers with_users].
  apply find_by_None in Hfree.
  rewrite (find_by_app_fresh user_email _ _ _ Hfree).
  cbn [u new_account user_email]. now rewrite String.eqb_refl.
Qed.

End UserCreate.

Lemma created_user_holds_the_requested_memberships_witness :
  let run := UserList.POST Scenario.accept Scenario.accept Scenario.hash
               (Some Lab.root_session) Lab.dave (healthy Scenario.db) in
  let u := new_account Scenario.hash Lab.dave Scenario.db in
  exists resp,
    run = (Ok resp, snd run)
    /\ status resp = 201
    /\ exists rows,
         su_role Lab.root_session = UserRole.SUPER_ADMIN
         /\ body resp = Data (UserList.without_password u)
         /\ snd run
            = healthy (with_groupUsers (groupUsers Scenario.db ++ rows)
                         (with_users (users Scenario.db ++ [u]) Scenario.db))
         /\ List.map assignment_of rows
            = List.map requested (default [] (UserList.cu_groups Lab.dave))
         /\ forall m, In m rows -> gu_userId m = user_id u.
Proof.
  cbv zeta. eexists. split; [reflexivity|]. split; [reflexivity|].
  exact (created_user_holds_the_requested_memberships Scenario.accept
           Scenario.accept Scenario.hash Lab.root_session Lab.dave Scenario.db
           _ _ eq_refl eq_refl).
Defined.

Lemma failed_user_creation_leaves_the_account_witness :
  is_super_admin (su_role Lab.root_session) = true
  /\ UserList.createUserSchema Scenario.accept Scenario.accept Lab.erin = []
  /\ Prisma.user_findUnique_email (UserList.cu_email Lab.erin) Scenario.db = None
  /\ In Lab.in_no_group (default [] (UserList.cu_groups Lab.erin))
  /\ Prisma.has_id group_id (Users.ga_id Lab.in_no_group) (groups Scenario.db)
     = false
  /\ exists d',
       UserList.POST Scenario.accept Scenario.accept Scenario.hash
         (Some Lab.root_session) Lab.erin (healthy Scenario.db)
       = (Ok (json (Msg "Une erreur est survenue lors de la création de l'utilisateur") 500),
          healthy d')
       /\ users d'
          = users Scenario.db ++ [new_account Scenario.hash Lab.erin Scenario.db]
       /\ UserList.POST Scenario.accept Scenario.accept Scenario.hash
            (Some Lab.root_session) Lab.erin (healthy d')
          = (Ok (json (Msg "Cet email est déjà associé à un compte") 400),
             healthy d').
Proof.
  assert (Hin : In Lab.in_no_group (default [] (UserList.cu_groups Lab.erin)))
    by (simpl; auto).
  split; [reflexivity|]. split; [reflexivity|]. split; [reflexivity|].
  split; [exact Hin|]. split; [reflexivity|].
  exact (failed_user_creation_leaves_the_account Scenario.accept
           Scenario.accept Scenario.hash Lab.root_session Lab.erin Scenario.db
           Lab.in_no_group eq_refl eq_refl eq_refl Hin eq_refl).
Defined.

(** ** Registration, twice *)

Section RegisterTwice.

Variable is_email : string -> bool.
Variable bcrypt_hash : string -> string.

Lemma register_201_stores_the_email (body : Register.RegisterBody)
    (w w' : World) (resp : Response (Body Register.Registered)) :
  Register.POST is_email bcrypt_hash body w = (Ok resp, w') ->
  status resp = 201 ->
  Prisma.has_id user_email (Register.rb_email body) (users (store w')) = true.
Proof.
  unfold Register.POST, try_catch.
  destruct (Register.registerSchema is_email body);
    [|intros [= <- <-]; discriminate].
  unfold bind at 1, query at 1.
  destruct (Prisma.user_findUnique_email (Register.rb_email body) (store w));
    [intros [= <- <-]; discriminate|].
  unfold bind at 1, query at 1.
  unfold bind at 1.
  match goal with
  | |- context [write ?f w] =>
      destruct (write_cases f w) as [(e & ->) | (u & d1 & Hfd & ->)]
  end; [intros [= <- <-]; discriminate|].
  unfold Prisma.user_create in Hfd.
  destruct (Prisma.has_id user_email _ (users (store w))); [discriminate|].
  injection Hfd as <- <-.
  set (w1 := {| store := _; budget := _ |}).
  assert (Husers : forall (m : M unit) r w2,
            users (store (snd (m w1))) = users (store w1) ->
            (let (o, w3) := bind m (fun _ => ret r) w1 in
             match o with
             | Ok a => (Ok a, w3)
             | Throw _ =>
                 ret (json (Msg "Une erreur est survenue lors de l'inscription") 500) w3
             end) = (Ok resp, w2) ->
            status resp = 201 ->
            users (store w2) = users (store w1)).
  { intros m r w2 Hm. unfold bind, ret.
    destruct (m w1) as [[[]|e] w3]; simpl in *; intros [= <- <-]; auto. }
  intros Hrun Hst.
  eapply Husers in Hrun; [| |exact Hst].
  - rewrite Hrun. unfold w1. cbn [store users with_users].
    rewrite has_id_app. simpl. rewrite String.eqb_refl.
    now rewrite orb_true_r.
  - clear. destruct (Nat.eqb _ 0); [|reflexivity].
    rewrite snd_bind.
    match goal with
    | |- context [write ?f w1] =>
        destruct (write_cases f w1) as [(e & ->) | (g & d2 & Hfd & ->)]
    end; [reflexivity|].
    unfold Prisma.group_create in Hfd. injection Hfd as <- <-.
    rewrite snd_bind_ret.
    match goal with
    | |- context [write ?f ?w2] =>
        destruct (write_cases f w2) as [(e & ->) | (m & d3 & Hfd & ->)]
    end; [reflexivity|].
    apply groupUser_create_frame in Hfd.
    apply (f_equal users) in Hfd. cbn [store]. simpl in Hfd. exact Hfd.
Qed.


(** X8. After a registration answered 201, a registration with the same
    email and a body that passes validation is answered 409, "Cet email est
    déjà utilisé par un autre compte", and writes nothing. *)
Theorem registered_email_cannot_register_again
    (first again : Register.RegisterBody) (w w' : World)
    (resp : Response (Body Register.Registered)) :
  Register.POST is_email bcrypt_hash first w = (Ok resp, w') ->
  status resp = 201 ->
  Register.rb_email again = Register.rb_email first ->
  Register.registerSchema is_email again = [] ->
  Register.POST is_email bcrypt_hash again w'
  = (Ok (json (Msg "Cet email est déjà utilisé par un autre compte") 409), w').
Proof.
  intros Hrun Hst Hemail Hvalid.
  pose proof (register_201_stores_the_email first w w' resp Hrun Hst) as Hhas.
  unfold Register.POST, try_catch. rewrite Hvalid, Hemail.
  unfold bind, query, ret. unfold Prisma.user_findUnique_email.
  destruct (Prisma.find_by user_email (Register.rb_email first)
              (users (store w'))) eqn:E; [reflexivity|].
  apply find_by_None in E. congruence.
Qed.

End RegisterTwice.

Lemma registered_email_cannot_register_again_witness :
  let run := Register.POST Scenario.accept Scenario.hash first_registration
               (healthy empty_db) in
  exists resp,
    run = (Ok resp, snd run)
    /\ status resp = 201
    /\ Register.rb_email first_registration = Register.rb_email first_registration
    /\ Register.registerSchema Scenario.accept first_registration = []
    /\ Register.POST Scenario.accept Scenario.hash first_registration (snd run)
       = (Ok (json (Msg "Cet email est déjà utilisé par un autre compte") 409),
          snd run).
Proof.
  cbv zeta. eexists. split; [reflexivity|]. split; [reflexivity|].
  split; [reflexivity|]. split; [reflexivity|].
  exact (registered_email_cannot_register_again Scenario.accept Scenario.hash
           first_registration first_registration (healthy empty_db) _ _
           eq_refl eq_refl eq_refl eq_refl).
Defined.

(** ** Groups: POST and GET /api/groups *)


(** X9. On a store whose memberships name users and groups of the store, a
    creation of a group that answers 201 added the group, with the name of the
    request, and one membership: the caller is the only member of the new
    group, as ADMIN, and may administer it. *)
Theorem group_creator_is_its_admin (su : SessionUser) (req : Groups.GroupBody)
    (w w' : World) (resp : Response (Body Group)) :
  fk_groupUser (store w) = true ->
  Groups.POST (Some su) req w = (Ok resp, w') ->
  status resp = 201 ->
  exists g m,
    body resp = Data g
    /\ group_name g = Groups.gb_name req
    /\ groups (store w') = groups (store w) ++ [g]
    /\ groupUsers (store w') = groupUsers (store w) ++ [m]
    /\ members_of (group_id g) (store w') = [m]
    /\ gu_userId m = su_id su
    /\ gu_role m = GroupRole.ADMIN
    /\ may_administer (store w') (group_id g) (su_id su) = true.
Proof.
  intros Hfk. unfold Groups.POST, try_catch.
  destruct (negb (is_super_admin (su_role su)) && _);
    [intros [= <- <-]; discriminate|].
  destruct (Groups.groupSchema req); [|intros [= <- <-]; discriminate].
  unfold bind at 1.
  match goal with
  | |- context [write ?f w] =>
      destruct (write_cases f w) as [(e & ->) | (g & d1 & Hfd & ->)]
  end; [intros [= <- <-]; discriminate|].
  unfold Prisma.group_create in Hfd. injection Hfd as <- <-.
  unfold bind at 1.
  match goal with
  | |- context [write ?f ?w1] =>
      destruct (write_cases f w1) as [(e & ->) | (m & d2 & Hfd & ->)]
  end; [intros [= <- <-]; discriminate|].
  unfold ret. intros [= <- <-] _.
  unfold Prisma.groupUser_create in Hfd. cbn [store] in Hfd.
  destruct (negb (Prisma.has_id user_id _ _)); [discriminate|].
  destruct (negb (Prisma.has_id group_id _ _)); [discriminate|].
  destruct (existsb _ _); [discriminate|].
  injection Hfd as <- <-.
  eexists _, _. split; [reflexivity|]. split; [reflexivity|].
  split; [reflexivity|]. split; [reflexivity|].
  pose proof (no_member_of_a_missing_group (store w)
                (Prisma.uuid group_id (groups (store w))) Hfk
                (uuid_fresh group_id (groups (store w)))) as Hnone.
  unfold members_of in *. cbn [store groupUsers with_groupUsers with_groups group_id gu_userId gu_role].
  split; [|split; [reflexivity|split; [reflexivity|]]].
  - rewrite List.filter_app, Hnone. simpl. now rewrite String.eqb_refl.
  - unfold may_administer. apply orb_true_iff. right.
    unfold Prisma.groupUser_findFirst. apply find_is_Some.
    eexists. split; [apply in_or_app; right; left; reflexivity|].
    unfold GroupMembers.same_member. simpl. now rewrite !String.eqb_refl.
Qed.

Lemma group_creator_is_its_admin_witness :
  let run := Groups.POST (Some Lab.root_session) Lab.new_group
               (healthy Scenario.db) in
  fk_groupUser Scenario.db = true
  /\ exists resp,
       run = (Ok resp, snd run)
       /\ status resp = 201
       /\ exists g m,
            body resp = Data g
            /\ group_name g = Groups.gb_name Lab.new_group
            /\ groups (store (snd run)) = groups Scenario.db ++ [g]
            /\ groupUsers (store (snd run)) = groupUsers Scenario.db ++ [m]
            /\ members_of (group_id g) (store (snd run)) = [m]
            /\ gu_userId m = su_id Lab.root_session
            /\ gu_role m = GroupRole.ADMIN
            /\ may_administer (store (snd run)) (group_id g)
                 (su_id Lab.root_session) = true.
Proof.
  cbv zeta. split; [reflexivity|].
  eexists. split; [reflexivity|]. split; [reflexivity|].
  exact (group_creator_is_its_admin Lab.root_session Lab.new_group
           (healthy Scenario.db) _ _ eq_refl eq_refl eq_refl).
Defined.


(** X10. The listing of the groups answers 200 and writes nothing. A Super
    Admin is listed the groups of the store, in some order; another caller is
    listed the groups in which they hold a membership, and no other. The form
    of a new notification configuration is offered the same list. *)
Theorem group_listing_is_the_callers_groups (su : SessionUser) (w : World) :
  exists listed,
    Groups.GET (Some su) w = (Ok (json (Data listed) 200), w)
    /\ NewNotificationPage.getAccessibleGroups (su_id su)
         (is_super_admin (su_role su)) w = (Ok listed, w)
    /\ (su_role su = UserRole.SUPER_ADMIN ->
        Permutation listed (groups (store w)))
    /\ (su_role su <> UserRole.SUPER_ADMIN ->
        forall g,
          In g listed
          <-> Prisma.group_findUnique (group_id g) (store w) = Some g
              /\ holds_membership (store w) (su_id su) [group_id g]).
Proof.
  unfold Groups.GET, NewNotificationPage.getAccessibleGroups, try_catch.
  destruct (is_super_admin (su_role su)) eqn:Hsuper.
  - apply is_super_admin_true in Hsuper.
    eexists. split; [reflexivity|]. split; [reflexivity|].
    split; [|intros Hns; contradiction].
    intros _. unfold Prisma.group_findMany. apply merge_sort_Permutation.
  - assert (Hns : su_role su <> UserRole.SUPER_ADMIN).
    { intros E. apply is_super_admin_true in E. congruence. }
    eexists. split; [reflexivity|]. split; [reflexivity|].
    split; [intros E; contradiction|].
    intros _ g. unfold Prisma.groupUser_findMany_group, Prisma.groupUser_findMany.
    rewrite <- list_elem_of_In, list_elem_of_omap. split.
    + intros (m & Hm & Hg). apply list_elem_of_In, filter_In in Hm as [Hin Hu].
      apply String.eqb_eq in Hu.
      pose proof Hg as Hg'. unfold Prisma.group_findUnique in Hg'.
      apply find_by_Some in Hg' as [_ Hid]. rewrite Hid. split; [exact Hg|].
      exists m. simpl. auto.
    + intros (Hg & m & Hin & Hu & [Hm|[]]). exists m. split.
      * apply list_elem_of_In, filter_In. split; [exact Hin|].
        now apply String.eqb_eq.
      * now rewrite <- Hm.
Qed.

(** ** One group: PUT and DELETE /api/groups/[id] *)

Lemma group_PUT_run (su : SessionUser) (groupId : Id)
    (req : GroupById.UpdateGroupBody) (w : World) :
  GroupById.PUT (Some su) groupId req w
  = if negb (may_administer (store w) groupId (su_id su)) then
      (Ok (json (Msg "Vous devez être administrateur du groupe pour le modifier") 403), w)
    else
      match GroupById.updateGroupSchema req with
      | _ :: _ as errors =>
          (Ok (json (Invalid "Données d'entrée invalides" errors) 400), w)
      | [] =>
          match write (Prisma.group_update groupId
                         (GroupById.apply_update (GroupById.ug_name req)
                            (GroupById.ug_description req))) w with
          | (Ok g, w') => (Ok (json (Data g) 200), w')
          | (Throw _, w') =>
              (Ok (json (Msg "Une erreur est survenue lors de la mise à jour du groupe") 500),
               w')
          end
      end.
Proof.
  unfold GroupById.PUT, try_catch.
  change (GroupById.checkGroupAccess groupId (su_id su) true)
    with (GroupMembers.checkGroupAdmin groupId (su_id su)).
  rewrite (bind_ok _ _ _ _ _ (checkGroupAdmin_run w groupId (su_id su))).
  destruct (negb (may_administer (store w) groupId (su_id su))); [reflexivity|].
  destruct (GroupById.updateGroupSchema req); [|reflexivity].
  unfold bind, ret.
  now destruct (write _ w) as [[g|e] w'].
Qed.

Lemma group_update_write (groupId : Id) (f : Group -> Group) (w : World) :
  (exists e, write (Prisma.group_update groupId f) w = (Throw e, w))
  \/ (exists g,
        Prisma.group_findUnique groupId (store w) = Some g
        /\ write (Prisma.group_update groupId f) w
           = (Ok (f g),
              {| store := with_groups
                            (Prisma.replace_by group_id groupId f
                               (groups (store w))) (store w);
                 budget := pred <$> budget w |})).
Proof.
  destruct (write_cases (Prisma.group_update groupId f) w)
    as [(e & ->) | (g' & d' & Hfd & ->)]; [left; eauto|].
  right. unfold Prisma.group_update in Hfd.
  destruct (Prisma.group_findUnique groupId (store w)) as [g|]; [|discriminate].
  injection Hfd as <- <-. eauto.
Qed.


(** X11. An update of a group changes no table but [groups] and no group but
    the one it names; when it answers 200 the answer is the group with the
    name and the description of the request, and that is the group the store
    holds. *)
Theorem group_update_changes_that_group_only (su : SessionUser) (groupId : Id)
    (req : GroupById.UpdateGroupBody) (w : World) :
  let d := store w in
  let run := GroupById.PUT (Some su) groupId req w in
  let d' := store (snd run) in
  only_groups_differ d d'
  /\ (forall id, id <> groupId ->
        Prisma.group_findUnique id d' = Prisma.group_findUnique id d)
  /\ (forall resp,
        fst run = Ok resp -> status resp = 200 ->
        exists g,
          Prisma.group_findUnique groupId d = Some g
          /\ body resp
             = Data (GroupById.apply_update (GroupById.ug_name req)
                       (GroupById.ug_description req) g)
          /\ Prisma.group_findUnique groupId d'
             = Some (GroupById.apply_update (GroupById.ug_name req)
                       (GroupById.ug_description req) g)).
Proof.
  cbv zeta. rewrite group_PUT_run.
  assert (Hsame : forall (r : Response (Body Group)),
    only_groups_differ (store w) (store (snd (Ok r, w)))
    /\ (forall id, id <> groupId ->
          Prisma.group_findUnique id (store (snd (Ok r, w)))
          = Prisma.group_findUnique id (store w))).
  { intros r. cbn [snd]. split; [now destruct (store w) | reflexivity]. }
  destruct (negb (may_administer (store w) groupId (su_id su))).
  { destruct (Hsame (json (Msg "Vous devez être administrateur du groupe pour le modifier") 403)).
    repeat split; auto. intros ? [= <-]; discriminate. }
  destruct (GroupById.updateGroupSchema req) as [|e errors].
  2:{ destruct (Hsame (json (Invalid "Données d'entrée invalides" (e :: errors)) 400)).
      repeat split; auto. intros ? [= <-]; discriminate. }
  set (f := GroupById.apply_update _ _).
  destruct (group_update_write groupId f w) as [(e & ->) | (g & Hg & ->)].
  { destruct (Hsame (json (Msg "Une erreur est survenue lors de la mise à jour du groupe") 500)).
    repeat split; auto. intros ? [= <-]; discriminate. }
  cbn [fst snd store].
  assert (Hkeep : forall r, group_id (f r) = group_id r) by reflexivity.
  split; [now destruct (store w)|]. split.
  - intros id Hne. unfold Prisma.group_findUnique. simpl.
    rewrite (find_by_replace_by_keeping group_id id groupId f _ Hkeep).
    apply String.eqb_neq in Hne. rewrite Hne.
    now destruct (Prisma.find_by group_id id (groups (store w))).
  - intros resp [= <-] _. exists g. split; [exact Hg|]. split; [reflexivity|].
    unfold Prisma.group_findUnique in *. simpl.
    rewrite (find_by_replace_by_keeping group_id groupId groupId f _ Hkeep).
    rewrite Hg, String.eqb_refl. reflexivity.
Qed.


(** X12. A Super Admin who updates a group the store does not have is
    answered 500, not 404: the handler does not look the group up before the
    update, and the update throws. Nothing is written. *)
Theorem group_update_of_a_missing_group_is_an_error (su : SessionUser)
    (groupId : Id) (req : GroupById.UpdateGroupBody) (w : World) :
  stored_super_admin (store w) (su_id su) ->
  Prisma.group_findUnique groupId (store w) = None ->
  GroupById.updateGroupSchema req = [] ->
  GroupById.PUT (Some su) groupId req w
  = (Ok (json (Msg "Une erreur est survenue lors de la mise à jour du groupe") 500),
     w).
Proof.
  intros Hsuper Hnone Hvalid. rewrite group_PUT_run, Hvalid.
  unfold may_administer.
  apply role_is_super_admin_true in Hsuper. rewrite Hsuper. cbn [orb negb].
  destruct (group_update_write groupId
              (GroupById.apply_update (GroupById.ug_name req)
                 (GroupById.ug_description req)) w)
    as [(e & ->) | (g & Hg & _)]; [reflexivity | congruence].
Qed.

Lemma group_update_of_a_missing_group_is_an_error_witness :
  stored_super_admin Scenario.db (su_id Lab.root_session)
  /\ Prisma.group_findUnique "g-none" Scenario.db = None
  /\ GroupById.updateGroupSchema Lab.rename_to_lab = []
  /\ GroupById.PUT (Some Lab.root_session) "g-none" Lab.rename_to_lab
       (healthy Scenario.db)
     = (Ok (json (Msg "Une erreur est survenue lors de la mise à jour du groupe") 500),
        healthy Scenario.db).
Proof.
  assert (Hroot : stored_super_admin Scenario.db (su_id Lab.root_session))
    by (exists Scenario.root; split; reflexivity).
  split; [exact Hroot|]. split; [reflexivity|]. split; [reflexivity|].
  exact (group_update_of_a_missing_group_is_an_error Lab.root_session "g-none"
           Lab.rename_to_lab (healthy Scenario.db) Hroot eq_refl eq_refl).
Defined.

Lemma group_DELETE_run (su : SessionUser) (groupId : Id) (w : World) :
  GroupById.DELETE (Some su) groupId w
  = if negb (is_super_admin (su_role su)) then
      (Ok (json (Msg "Seul un super administrateur peut supprimer un groupe") 403), w)
    else
      match Prisma.group_findUnique groupId (store w) with
      | None => (Ok (json (Msg "Groupe introuvable") 404), w)
      | Some _ =>
          if Nat.ltb 0 (List.length (Prisma.group_servers groupId (store w)))
          then
            (Ok (json (Msg "Impossible de supprimer un groupe qui contient des serveurs. Veuillez d'abord retirer tous les serveurs du groupe.") 400),
             w)
          else
            match write (Prisma.group_delete groupId) w with
            | (Ok _, w') => (Ok (json (Msg "Groupe supprimé avec succès") 200), w')
            | (Throw _, w') =>
                (Ok (json (Msg "Une erreur est survenue lors de la suppression du groupe") 500),
                 w')
            end
      end.
Proof.
  unfold GroupById.DELETE, try_catch.
  destruct (negb (is_super_admin (su_role su))); [reflexivity|].
  unfold bind at 1, query.
  destruct (Prisma.group_findUnique groupId (store w)); [|reflexivity].
  cbn [fmap option_fmap option_map].
  destruct (Nat.ltb 0 _); [reflexivity|].
  unfold bind, ret.
  now destruct (write (Prisma.group_delete groupId) w) as [[a|e] w'].
Qed.


(** X13. A group to which a server of the store is attached is not deleted,
    whoever asks: the request is answered with another status than 200 and
    writes nothing. *)
Theorem group_with_a_server_is_not_deleted (session : Session) (groupId : Id)
    (w : World) (s : Server) :
  In s (servers (store w)) -> In groupId (server_groups s) ->
  exists resp,
    GroupById.DELETE session groupId w = (Ok resp, w) /\ status resp <> 200.
Proof.
  intros Hin Hattached.
  destruct session as [su|]; [|eexists; split; [reflexivity | discriminate]].
  rewrite group_DELETE_run.
  destruct (negb (is_super_admin (su_role su)));
    [eexists; split; [reflexivity | discriminate]|].
  destruct (Prisma.group_findUnique groupId (store w));
    [|eexists; split; [reflexivity | discriminate]].
  assert (Hsome : Nat.ltb 0 (List.length (Prisma.group_servers groupId (store w)))
                  = true).
  { unfold Prisma.group_servers. apply filter_nonempty. exists s.
    split; [exact Hin|]. now apply includes_In. }
  rewrite Hsome. eexists; split; [reflexivity | discriminate].
Qed.

Lemma group_with_a_server_is_not_deleted_witness :
  In Scenario.web (servers Scenario.db)
  /\ In "g-ops" (server_groups Scenario.web)
  /\ exists resp,
       GroupById.DELETE (Some Lab.root_session) "g-ops" (healthy Scenario.db)
       = (Ok resp, healthy Scenario.db)
       /\ status resp <> 200.
Proof.
  assert (Hin : In Scenario.web (servers Scenario.db)) by (simpl; auto).
  assert (Hops : In "g-ops" (server_groups Scenario.web)) by (simpl; auto).
  split; [exact Hin|]. split; [exact Hops|].
  exact (group_with_a_server_is_not_deleted (Some Lab.root_session) "g-ops"
           (healthy Scenario.db) Scenario.web Hin Hops).
Defined.

Lemma detach_unattached (groupId : Id) (s : Server) :
  Prisma.is_in (server_groups s) groupId = false ->
  Prisma.detach groupId s = s.
Proof.
  intros Hno. unfold Prisma.detach.
  rewrite filter_all_true; [now destruct s|].
  intros g Hg. apply negb_true_iff. apply String.eqb_neq. intros ->.
  assert (Prisma.is_in (server_groups s) groupId = true); [|congruence].
  now apply includes_In.
Qed.

Lemma kept_config (groupId : Id) (cfgId : Id) (configs : list NotificationConfig) :
  Prisma.has_id nc_id cfgId configs = true ->
  Prisma.is_in
    (nc_id <$> List.filter (fun c => String.eqb (nc_groupId c) groupId) configs)
    cfgId = false ->
  Prisma.has_id nc_id cfgId
    (List.filter (fun c => negb (String.eqb (nc_groupId c) groupId)) configs)
  = true.
Proof.
  intros Hhas Hkept. apply has_id_true in Hhas as (c & Hc & Hid).
  apply has_id_true. exists c. split; [|exact Hid].
  apply filter_In. split; [exact Hc|].
  destruct (String.eqb (nc_groupId c) groupId) eqn:E; [|reflexivity].
  exfalso.
  assert (Prisma.is_in
            (nc_id <$> List.filter (fun c => String.eqb (nc_groupId c) groupId)
                         configs) cfgId = true); [|congruence].
  apply includes_In. rewrite <- Hid.
  apply list_elem_of_In, list_elem_of_fmap. exists c. split; [reflexivity|].
  apply list_elem_of_In, filter_In. auto.
Qed.


(** X14. On a store whose memberships and sub-configs name rows of the
    store, a deletion of a group leaves such a store; when it answers 200 the
    group is gone with its memberships and its notification configurations,
    the memberships and configurations of the other groups are kept, and the
    users and the servers are as they were. *)
Theorem group_delete_takes_its_rows_along (session : Session) (groupId : Id)
    (w : World) :
  fk_groupUser (store w) = true -> fk_subconfigs (store w) = true ->
  let d := store w in
  let run := GroupById.DELETE session groupId w in
  let d' := store (snd run) in
  fk_groupUser d' = true /\ fk_subconfigs d' = true
  /\ (forall resp,
        fst run = Ok resp -> status resp = 200 ->
        Prisma.group_findUnique groupId d' = None
        /\ (forall m, In m (groupUsers d') <->
                      In m (groupUsers d) /\ gu_groupId m <> groupId)
        /\ (forall c, In c (notificationConfigs d') <->
                      In c (notificationConfigs d) /\ nc_groupId c <> groupId)
        /\ users d' = users d /\ servers d' = servers d).
Proof.
  intros Hfk Hsub. cbv zeta.
  destruct session as [su|];
    [|split; [exact Hfk|]; split; [exact Hsub|]; intros ? [= <-]; discriminate].
  rewrite group_DELETE_run.
  destruct (negb (is_super_admin (su_role su)));
    [split; [exact Hfk|]; split; [exact Hsub|]; intros ? [= <-]; discriminate|].
  destruct (Prisma.group_findUnique groupId (store w)) as [g|] eqn:Hg;
    [|split; [exact Hfk|]; split; [exact Hsub|]; intros ? [= <-]; discriminate].
  destruct (Nat.ltb 0 (List.length (Prisma.group_servers groupId (store w))))
    eqn:Hservers;
    [split; [exact Hfk|]; split; [exact Hsub|]; intros ? [= <-]; discriminate|].
  destruct (write_cases (Prisma.group_delete groupId) w)
    as [(e & ->) | (g' & d' & Hfd & ->)];
    [split; [exact Hfk|]; split; [exact Hsub|]; intros ? [= <-]; discriminate|].
  cbn [fst snd store].
  unfold Prisma.group_delete in Hfd. rewrite Hg in Hfd.
  destruct (Prisma.referred_to _ _); [discriminate|].
  injection Hfd as _ <-.
  assert (Hnone : forall s, In s (servers (store w)) ->
            Prisma.is_in (server_groups s) groupId = false).
  { intros s Hs.
    destruct (Prisma.is_in (server_groups s) groupId) eqn:E; [|reflexivity].
    exfalso. apply Nat.ltb_ge in Hservers.
    assert (Hin : In s (Prisma.group_servers groupId (store w)))
      by (apply filter_In; auto).
    destruct (Prisma.group_servers groupId (store w)); [destruct Hin|].
    simpl in Hservers. lia. }
  split; [|split].
  - unfold fk_groupUser in *. rewrite forallb_forall in *. simpl.
    intros m Hm. apply filter_In in Hm as [Hm Hne].
    specialize (Hfk m Hm). apply andb_prop in Hfk as [Hu Hgr].
    apply andb_true_intro. split; [exact Hu|].
    rewrite has_id_remove_by_other; [exact Hgr|].
    apply negb_true_iff in Hne. now apply String.eqb_neq in Hne.
  - apply fk_subconfigs_iff in Hsub as [He Hh].
    apply fk_subconfigs_iff. simpl. split.
    + intros e Hin. apply filter_In in Hin as [Hin Hkept].
      apply negb_true_iff in Hkept. apply kept_config; auto.
    + intros h Hin. apply filter_In in Hin as [Hin Hkept].
      apply negb_true_iff in Hkept. apply kept_config; auto.
  - intros resp _ _. simpl.
    split; [apply find_by_remove_by|].
    split.
    { intros m. rewrite filter_In, negb_true_iff, String.eqb_neq. reflexivity. }
    split.
    { intros c. rewrite filter_In, negb_true_iff, String.eqb_neq. reflexivity. }
    split; [reflexivity|].
    induction (servers (store w)) as [|s l IH]; [reflexivity|].
    rewrite fmap_cons. rewrite detach_unattached by (apply Hnone; now left).
    f_equal. apply IH. intros s' Hs'. apply Hnone. now right.
Qed.

Lemma group_delete_takes_its_rows_along_witness :
  let run := GroupById.DELETE (Some Lab.root_session) "g-lab" (healthy Lab.db) in
  let d' := store (snd run) in
  fk_groupUser Lab.db = true /\ fk_subconfigs Lab.db = true
  /\ (status <$> fst_ok run) = Some 200
  /\ fk_groupUser d' = true /\ fk_subconfigs d' = true
  /\ (forall resp,
        fst run = Ok resp -> status resp = 200 ->
        Prisma.group_findUnique "g-lab" d' = None
        /\ (forall m, In m (groupUsers d') <->
                      In m (groupUsers Lab.db) /\ gu_groupId m <> "g-lab")
        /\ (forall c, In c (notificationConfigs d') <->
                      In c (notificationConfigs Lab.db) /\ nc_groupId c <> "g-lab")
        /\ users d' = users Lab.db /\ servers d' = servers Lab.db).
Proof.
  cbv zeta. split; [reflexivity|]. split; [reflexivity|].
  split; [reflexivity|].
  exact (group_delete_takes_its_rows_along (Some Lab.root_session) "g-lab"
           (healthy Lab.db) eq_refl eq_refl).
Defined.

(** ** Group members: the membership of a Super Admin, and the routes that
    keep an administrator *)


(** X15. The membership of a user whose stored role is SUPER_ADMIN is neither
    changed nor removed by a caller whose stored role is not SUPER_ADMIN, the
    administrators of the group included: both requests are answered 403 and
    write nothing. *)
Theorem super_admin_membership_is_protected (su : SessionUser)
    (groupId memberId : Id) (req : GroupMembers.UpdateMemberBody) (w : World)
    (member : GroupUser) (u : User) :
  role_is_super_admin (Prisma.user_findUnique (su_id su) (store w)) = false ->
  Prisma.groupUser_findFirst (GroupMembers.same_member groupId memberId)
    (store w) = Some member ->
  Prisma.user_findUnique (gu_userId member) (store w) = Some u ->
  user_role u = UserRole.SUPER_ADMIN ->
  exists put_resp delete_resp,
    GroupMembers.PUT (Some su) groupId memberId req w = (Ok put_resp, w)
    /\ status put_resp = 403
    /\ GroupMembers.DELETE (Some su) groupId memberId w = (Ok delete_resp, w)
    /\ status delete_resp = 403.
Proof.
  intros Hcaller Hmember Hu Hrole.
  unfold GroupMembers.PUT, GroupMembers.DELETE, try_catch.
  rewrite !(bind_ok _ _ _ _ _ (checkGroupAdmin_run w groupId (su_id su))).
  destruct (may_administer (store w) groupId (su_id su)); cbn [negb];
    [|eexists _, _; repeat split; reflexivity].
  unfold GroupMembers.caller_is_super_admin.
  unfold bind, query, ret, required. rewrite Hmember. simpl.
  rewrite Hu. simpl. rewrite Hrole. simpl. rewrite Hcaller. simpl.
  eexists _, _; repeat split; reflexivity.
Qed.

Lemma super_admin_membership_is_protected_witness :
  role_is_super_admin
    (Prisma.user_findUnique (su_id alice_session) Lab.db_with_root) = false
  /\ Prisma.groupUser_findFirst (GroupMembers.same_member "g-ops" "u-root")
       Lab.db_with_root = Some Lab.root_in_ops
  /\ Prisma.user_findUnique (gu_userId Lab.root_in_ops) Lab.db_with_root
     = Some Scenario.root
  /\ user_role Scenario.root = UserRole.SUPER_ADMIN
  /\ may_administer Lab.db_with_root "g-ops" (su_id alice_session) = true
  /\ exists put_resp delete_resp,
       GroupMembers.PUT (Some alice_session) "g-ops" "u-root"
         {| GroupMembers.um_role := GroupRole.ADMIN |} (healthy Lab.db_with_root)
       = (Ok put_resp, healthy Lab.db_with_root)
       /\ status put_resp = 403
       /\ GroupMembers.DELETE (Some alice_session) "g-ops" "u-root"
            (healthy Lab.db_with_root)
          = (Ok delete_resp, healthy Lab.db_with_root)
       /\ status delete_resp = 403.
Proof.
  split; [reflexivity|]. split; [reflexivity|]. split; [reflexivity|].
  split; [reflexivity|]. split; [reflexivity|].
  exact (super_admin_membership_is_protected alice_session "g-ops" "u-root"
           {| GroupMembers.um_role := GroupRole.ADMIN |}
           (healthy Lab.db_with_root) Lab.root_in_ops Scenario.root
           eq_refl eq_refl eq_refl eq_refl).
Defined.

Lemma admin_membership_added (userId groupId : Id) (w : World) :
  adds_an_admin_at_most (store w)
    (store (snd (write (Prisma.groupUser_create userId groupId GroupRole.ADMIN) w))).
Proof.
  destruct (write_cases (Prisma.groupUser_create userId groupId GroupRole.ADMIN) w)
    as [(e & ->) | (m & d' & Hfd & ->)]; [now left|].
  unfold Prisma.groupUser_create in Hfd.
  destruct (negb (Prisma.has_id user_id _ _)); [discriminate|].
  destruct (negb (Prisma.has_id group_id _ _)); [discriminate|].
  destruct (existsb _ _); [discriminate|].
  injection Hfd as <- <-. right. eexists. simpl. eauto.
Qed.

Lemma register_memberships (is_email : string -> bool)
    (bcrypt_hash : string -> string) (req : Register.RegisterBody) (w : World) :
  adds_an_admin_at_most (store w)
    (store (snd (Register.POST is_email bcrypt_hash req w))).
Proof.
  unfold Register.POST. rewrite snd_try_catch_ret.
  destruct (Register.registerSchema is_email req); [|now left].
  unfold bind at 1, query at 1.
  destruct (Prisma.user_findUnique_email _ _); [now left|].
  unfold bind at 1, query at 1. rewrite snd_bind.
  match goal with
  | |- context [write ?f w] =>
      destruct (write_cases f w) as [(e & ->) | (u & d1 & Hfd & ->)]
  end; [now left|].
  unfold Prisma.user_create in Hfd.
  destruct (Prisma.has_id user_email _ _); [discriminate|].
  injection Hfd as <- <-.
  rewrite snd_bind_ret.
  destruct (Nat.eqb _ 0); [|now left].
  rewrite snd_bind.
  match goal with
  | |- context [write ?f ?w1] =>
      destruct (write_cases f w1) as [(e & ->) | (g & d2 & Hfd & ->)]
  end; [now left|].
  unfold Prisma.group_create in Hfd. injection Hfd as <- <-.
  rewrite snd_bind_ret.
  match goal with
  | |- context [write (Prisma.groupUser_create ?u ?g _) ?w2] =>
      exact (admin_membership_added u g w2)
  end.
Qed.

Lemma group_POST_memberships (session : Session) (req : Groups.GroupBody)
    (w : World) :
  adds_an_admin_at_most (store w) (store (snd (Groups.POST session req w))).
Proof.
  unfold Groups.POST. rewrite snd_try_catch_ret.
  destruct session as [su|]; [|now left].
  destruct (negb (is_super_admin (su_role su)) && _); [now left|].
  destruct (Groups.groupSchema req); [|now left].
  rewrite snd_bind.
  match goal with
  | |- context [write ?f w] =>
      destruct (write_cases f w) as [(e & ->) | (g & d1 & Hfd & ->)]
  end; [now left|].
  unfold Prisma.group_create in Hfd. injection Hfd as <- <-.
  rewrite snd_bind_ret.
  match goal with
  | |- context [write (Prisma.groupUser_create ?u ?g _) ?w2] =>
      exact (admin_membership_added u g w2)
  end.
Qed.

Lemma added_admin_keeps_the_invariant (d d' : DB) :
  adds_an_admin_at_most d d' ->
  unique_member_ids d -> has_admin d ->
  unique_member_ids d' /\ has_admin d'.
Proof.
  unfold unique_member_ids, has_admin.
  intros [Heq | (m & Heq & Hrole & Hid)] Hnd Hinv; rewrite Heq.
  - split; assumption.
  - split.
    + rewrite List.map_app. simpl.
      apply (Permutation_NoDup
               (Permutation_cons_append (List.map gu_id (groupUsers d))
                  (gu_id m))).
      constructor; [|exact Hnd].
      intros Hin. apply in_map_iff in Hin as (x & Hx & Hin).
      pose proof (uuid_fresh gu_id (groupUsers d)) as Hfresh.
      rewrite <- Hid in Hfresh.
      assert (Prisma.has_id gu_id (gu_id m) (groupUsers d) = true)
        by (apply has_id_true; eauto).
      congruence.
    + intros x Hx. apply in_app_or in Hx as [Hx | [<- | []]].
      * destruct (Hinv x Hx) as (a & Ha & Hadm).
        exists a. split; [apply in_or_app; now left | exact Hadm].
      * exists m. split; [apply in_or_app; right; now left|].
        unfold GroupMembers.admin_of. now rewrite String.eqb_refl, Hrole.
Qed.

Lemma member_PUT_ids (session : Session) (groupId memberId : Id)
    (req : GroupMembers.UpdateMemberBody) (d : DB) :
  unique_member_ids d ->
  unique_member_ids
    (store (snd (GroupMembers.PUT session groupId memberId req (healthy d)))).
Proof.
  intros Hnd.
  destruct (member_PUT_store session groupId memberId req d)
    as [-> | (member & _ & _ & ->)]; [exact Hnd|].
  unfold unique_member_ids in *. simpl.
  unfold Prisma.replace_by. rewrite List.map_map.
  erewrite List.map_ext; [exact Hnd|].
  intros x. simpl. now destruct (String.eqb (gu_id x) (gu_id member)).
Qed.

Lemma member_DELETE_ids (session : Session) (groupId memberId : Id) (d : DB) :
  unique_member_ids d ->
  unique_member_ids
    (store (snd (GroupMembers.DELETE session groupId memberId (healthy d)))).
Proof.
  intros Hnd.
  destruct (member_DELETE_store session groupId memberId d)
    as [-> | (member & _ & _ & ->)]; [exact Hnd|].
  unfold unique_member_ids in *. simpl. unfold Prisma.remove_by.
  now apply NoDup_ids_filter.
Qed.


(** X16. Registrations, creations of groups, changes of a member's role and
    removals of members, in any number and order, by any callers and with any
    bodies, keep the memberships' identifiers distinct and keep an ADMIN in
    every group that has a member, when the store they start from is so. *)
Theorem guarded_routes_keep_an_admin
    (is_uuid is_email : string -> bool) (bcrypt_hash : string -> string)
    (trace : list Request) (d : DB) :
  forallb guarded trace = true ->
  unique_member_ids d -> has_admin d ->
  let d' := fold_left (fun d r => serve_with is_uuid is_email bcrypt_hash r d)
              trace d in
  unique_member_ids d' /\ has_admin d'.
Proof.
  cbv zeta. revert d. induction trace as [|r trace IH]; intros d Hg Hnd Hinv.
  - simpl. auto.
  - simpl in Hg. apply andb_prop in Hg as [Hr Hg]. simpl.
    assert (Hstep : unique_member_ids (serve_with is_uuid is_email bcrypt_hash r d)
                    /\ has_admin (serve_with is_uuid is_email bcrypt_hash r d)).
    { destruct r as [req | session req | | session groupId memberId req
                   | session groupId memberId | ]; try discriminate; simpl.
      - apply (added_admin_keeps_the_invariant d); auto.
        apply (register_memberships is_email bcrypt_hash req (healthy d)).
      - apply (added_admin_keeps_the_invariant d); auto.
        apply (group_POST_memberships session req (healthy d)).
      - split; [now apply member_PUT_ids|].
        now apply member_routes_keep_an_admin.
      - split; [now apply member_DELETE_ids|].
        apply (member_routes_keep_an_admin session groupId memberId
                 {| GroupMembers.um_role := GroupRole.MEMBER |} d); auto. }
    destruct Hstep. now apply IH.
Qed.

Lemma guarded_routes_keep_an_admin_witness :
  let d' := fold_left
              (fun d r => serve_with Scenario.accept Scenario.accept
                            Scenario.hash r d) Lab.trace empty_db in
  forallb guarded Lab.trace = true
  /\ unique_member_ids empty_db /\ has_admin empty_db
  /\ List.length (groupUsers d') = 2
  /\ unique_member_ids d' /\ has_admin d'.
Proof.
  cbv zeta.
  assert (Hids : unique_member_ids empty_db) by constructor.
  assert (Hadmin : has_admin empty_db) by (intros m Hm; destruct Hm).
  split; [reflexivity|]. split; [exact Hids|]. split; [exact Hadmin|].
  split; [reflexivity|].
  exact (guarded_routes_keep_an_admin Scenario.accept Scenario.accept
           Scenario.hash Lab.trace empty_db eq_refl Hids Hadmin).
Defined.

(** ** Servers: POST /api/servers *)

Lemma server_POST_run (su : SessionUser) (req : Servers.ServerBody) (w : World) :
  Servers.POST (Some su) req w
  = match Servers.serverSchema req with
    | _ :: _ as errors =>
        (Ok (json (Invalid "Données d'entrée invalides" errors) 400), w)
    | [] =>
        if negb (is_super_admin (su_role su))
           && Nat.ltb 0
                (List.length
                   (List.filter
                      (fun g => negb (includes
                                        (accessible_groups (store w) su
                                           (Servers.sv_groups req)) g))
                      (Servers.sv_groups req)))
        then
          (Ok (json (Msg "Vous n'avez pas accès à certains des groupes sélectionnés") 403),
           w)
        else
          match write (Prisma.server_create (Servers.sv_name req)
                         (Servers.sv_type req)
                         (default "" (Servers.sv_description req)) (su_id su)
                         (authorized_groups (store w) su (Servers.sv_groups req)))
                  w with
          | (Ok s, w') => (Ok (json (Data s) 201), w')
          | (Throw _, w') =>
              (Ok (json (Msg "Une erreur est survenue lors de la création du serveur") 500),
               w')
          end
    end.
Proof.
  unfold Servers.POST, try_catch, authorized_groups.
  destruct (Servers.serverSchema req); [|reflexivity].
  unfold bind at 1, query at 1.
  fold (accessible_groups (store w) su (Servers.sv_groups req)).
  destruct (is_super_admin (su_role su)); cbn [negb andb].
  - unfold bind, ret. now destruct (write _ w) as [[s|e] w'].
  - destruct (Nat.ltb 0 _); [reflexivity|].
    unfold bind, ret. now destruct (write _ w) as [[s|e] w'].
Qed.

Lemma accessible_groups_In (d : DB) (su : SessionUser) (groupIds : list Id)
    (g : Id) :
  In g (accessible_groups d su groupIds)
  <-> In g groupIds /\ holds_membership d (su_id su) [g].
Proof.
  unfold accessible_groups, Prisma.groupUser_findMany, holds_membership.
  rewrite <- list_elem_of_In, list_elem_of_fmap. split.
  - intros (m & -> & Hm). apply list_elem_of_In, filter_In in Hm as [Hin Hm].
    apply andb_prop in Hm as [Hu Hg].
    apply String.eqb_eq in Hu. apply includes_In in Hg.
    split; [exact Hg|]. exists m. simpl. auto.
  - intros (Hg & m & Hin & Hu & [Hm|[]]). exists m. split; [exact Hm|].
    apply list_elem_of_In, filter_In. split; [exact Hin|].
    apply andb_true_intro. split; [now apply String.eqb_eq|].
    apply includes_In. now rewrite <- Hm.
Qed.

Lemma server_POST_cases (su : SessionUser) (req : Servers.ServerBody)
    (w : World) :
  let run := Servers.POST (Some su) req w in
  let s := new_server su req (store w) in
  (snd run = w /\ forall resp, fst run = Ok resp -> status resp <> 201)
  \/ (run = (Ok (json (Data s) 201),
             {| store := with_servers (servers (store w) ++ [s]) (store w);
                budget := pred <$> budget w |})
      /\ Servers.sv_groups req <> []
      /\ (forall g,
            In g (authorized_groups (store w) su (Servers.sv_groups req))
            <-> In g (Servers.sv_groups req))
      /\ (forall g,
            In g (authorized_groups (store w) su (Servers.sv_groups req)) ->
            Prisma.has_id group_id g (groups (store w)) = true)).
Proof.
  cbv zeta. rewrite server_POST_run.
  destruct (Servers.serverSchema req) as [|e errors] eqn:Hschema;
    [|left; split; [reflexivity | intros ? [= <-]; discriminate]].
  destruct (negb (is_super_admin (su_role su)) && _) eqn:Hdenied;
    [left; split; [reflexivity | intros ? [= <-]; discriminate]|].
  destruct (write_cases
              (Prisma.server_create (Servers.sv_name req) (Servers.sv_type req)
                 (default "" (Servers.sv_description req)) (su_id su)
                 (authorized_groups (store w) su (Servers.sv_groups req))) w)
    as [(e & ->) | (s & d' & Hfd & ->)];
    [left; split; [reflexivity | intros ? [= <-]; discriminate]|].
  right.
  unfold Prisma.server_create in Hfd.
  destruct (negb (Prisma.has_id user_id _ _)); [discriminate|].
  destruct (negb (forallb _ _)) eqn:Hexist; [discriminate|].
  injection Hfd as <- <-.
  apply negb_false_iff in Hexist. rewrite forallb_forall in Hexist.
  split; [reflexivity|]. split; [|split; [|exact Hexist]].
  - unfold Servers.serverSchema in Hschema. intros Hnil.
    rewrite Hnil in Hschema.
    apply app_eq_nil in Hschema as [_ Hschema]. discriminate.
  - intros g. unfold authorized_groups.
    destruct (is_super_admin (su_role su)); [reflexivity|].
    cbn [negb andb] in Hdenied. apply Nat.ltb_ge in Hdenied.
    rewrite accessible_groups_In. split; [tauto|]. intros Hg.
    destruct (includes (accessible_groups (store w) su (Servers.sv_groups req)) g)
      eqn:Hacc.
    + apply includes_In, accessible_groups_In in Hacc. exact Hacc.
    + exfalso.
      assert (Hin : In g (List.filter
                (fun g => negb (includes
                                  (accessible_groups (store w) su
                                     (Servers.sv_groups req)) g))
                (Servers.sv_groups req)))
        by (apply filter_In; now rewrite Hacc).
      destruct (List.filter _ (Servers.sv_groups req)); [destruct Hin|].
      simpl in Hdenied. lia.
Qed.


(** X17. A creation of a server that does not answer 201 writes nothing. One
    that answers 201 added one server, with the name of the request and the
    caller as its creator, attached once to each group of the request and to
    no other; there is at least one such group, each is a group of the store,
    and a caller who is not a Super Admin holds a membership in each. *)
Theorem server_is_attached_to_groups_of_its_creator (su : SessionUser)
    (req : Servers.ServerBody) (w : World) :
  let run := Servers.POST (Some su) req w in
  (forall resp, fst run = Ok resp -> status resp <> 201 -> snd run = w)
  /\ (forall resp,
        fst run = Ok resp -> status resp = 201 ->
        exists s,
          body resp = Data s
          /\ store (snd run) = with_servers (servers (store w) ++ [s]) (store w)
          /\ server_name s = Servers.sv_name req
          /\ server_createdById s = su_id su
          /\ List.NoDup (server_groups s)
          /\ (forall g, In g (server_groups s) <-> In g (Servers.sv_groups req))
          /\ (exists g, In g (server_groups s))
          /\ (forall g, In g (server_groups s) ->
                Prisma.has_id group_id g (groups (store w)) = true)
          /\ (is_super_admin (su_role su) = false ->
              forall g, In g (server_groups s) ->
                holds_membership (store w) (su_id su) [g])).
Proof.
  cbv zeta.
  destruct (server_POST_cases su req w)
    as [[Hsame Hnot] | (Hrun & Hsome & Hauth & Hexist)]; cbv zeta in *.
  { split; [intros; exact Hsame|]. intros resp Hresp Hst.
    now destruct (Hnot resp Hresp). }
  rewrite Hrun. cbn [fst snd store].
  split; [intros ? [= <-] H; now contradiction H|].
  intros resp [= <-] _. eexists. split; [reflexivity|].
  cbn [new_server server_name server_createdById server_groups].
  split; [reflexivity|]. split; [reflexivity|]. split; [reflexivity|].
  split; [apply NoDup_ListNoDup, NoDup_remove_dups|].
  split; [intros g; now rewrite In_remove_dups, Hauth|].
  split.
  { destruct (Servers.sv_groups req) as [|g gs] eqn:Hgroups; [congruence|].
    exists g. rewrite In_remove_dups, Hauth. now left. }
  split; [intros g Hg; apply Hexist; now rewrite <- In_remove_dups|].
  intros Hns g Hg. rewrite In_remove_dups in Hg. unfold authorized_groups in Hg.
  rewrite Hns in Hg. now apply accessible_groups_In in Hg.
Qed.


(** X18. After a creation of a server answered 201, the listing of the
    servers, asked by the same caller, answers 200 with a list that holds the
    server of the answer. *)
Theorem created_server_is_listed_to_its_creator (su : SessionUser)
    (req : Servers.ServerBody) (w w' : World) (resp : Response (Body Server)) :
  Servers.POST (Some su) req w = (Ok resp, w') ->
  status resp = 201 ->
  exists s listed,
    body resp = Data s
    /\ Servers.GET (Some su) w' = (Ok (json (Data listed) 200), w')
    /\ In s listed.
Proof.
  intros Hpost Hst.
  destruct (server_POST_cases su req w)
    as [[_ Hnot] | (Hrun & Hsome & Hauth & _)]; cbv zeta in *.
  { rewrite Hpost in Hnot. now destruct (Hnot resp eq_refl). }
  rewrite Hpost in Hrun. injection Hrun as -> ->.
  destruct (servers_GET_spec
              {| store := with_servers
                            (servers (store w) ++ [new_server su req (store w)])
                            (store w);
                 budget := pred <$> budget w |} su)
    as (listed & Hget & Hlisted & _).
  exists (new_server su req (store w)), listed.
  split; [reflexivity|]. split; [exact Hget|].
  apply Hlisted. cbn [store servers with_servers].
  split; [apply in_or_app; right; now left|].
  unfold can_view_server.
  destruct (is_super_admin (su_role su)) eqn:Hsuper.
  - left. now apply is_super_admin_true.
  - right.
    destruct (Servers.sv_groups req) as [|g gs] eqn:Hgroups; [congruence|].
    assert (Hg : In g (authorized_groups (store w) su (g :: gs)))
      by (apply Hauth; now left).
    unfold authorized_groups in Hg. rewrite Hsuper in Hg.
    pose proof Hg as Hg'.
    apply accessible_groups_In in Hg as (_ & m & Hin & Hu & [Hm|[]]).
    exists m. cbn [store groupUsers with_servers].
    split; [exact Hin|]. split; [exact Hu|].
    cbn [new_server server_groups]. rewrite In_remove_dups.
    unfold authorized_groups. rewrite Hsuper, Hgroups, <- Hm. exact Hg'.
Qed.

Lemma created_server_is_listed_to_its_creator_witness :
  let run := Servers.POST (Some Lab.bob_session) Lab.cache (healthy Scenario.db) in
  exists resp,
    run = (Ok resp, snd run)
    /\ status resp = 201
    /\ exists s listed,
         body resp = Data s
         /\ Servers.GET (Some Lab.bob_session) (snd run)
            = (Ok (json (Data listed) 200), snd run)
         /\ In s listed.
Proof.
  cbv zeta. eexists. split; [reflexivity|]. split; [reflexivity|].
  exact (created_server_is_listed_to_its_creator Lab.bob_session Lab.cache
           (healthy Scenario.db) _ _ eq_refl eq_refl).
Defined.

(** ** Notification configurations: creation, update in place, deletion *)

Lemma config_DELETE_run (su : SessionUser) (id : Id) (w : World) :
  NotificationById.DELETE (Some su) id w
  = if negb (may_edit_config (store w) id su) then
      (Ok (json (Msg "Vous n'êtes pas autorisé à supprimer cette configuration de notification") 403),
       w)
    else
      match write (Prisma.notificationConfig_delete id) w with
      | (Ok _, w') =>
          (Ok (json (Msg "Configuration de notification supprimée avec succès") 200),
           w')
      | (Throw _, w') =>
          (Ok (json (Msg "Une erreur est survenue lors de la suppression de la configuration de notification") 500),
           w')
      end.
Proof.
  unfold NotificationById.DELETE, try_catch.
  rewrite (bind_ok _ _ _ _ _ (checkGroupAdminAccess_run w id su)).
  destruct (negb (may_edit_config (store w) id su)); [reflexivity|].
  unfold bind, ret.
  now destruct (write (Prisma.notificationConfig_delete id) w) as [[a|e] w'].
Qed.

Lemma collection_checkGroupAccess_run (w : World) (groupId : Id)
    (su : SessionUser) :
  NotificationCollection.checkGroupAccess (su_id su) groupId
    (is_super_admin (su_role su)) w
  = (Ok (may_use_group (store w) groupId su), w).
Proof.
  unfold NotificationCollection.checkGroupAccess, may_use_group.
  now destruct (is_super_admin (su_role su)).
Qed.

Lemma no_subconfig_of_a_new_config (d : DB) :
  fk_subconfigs d = true ->
  Prisma.has_id en_notificationConfigId
    (Prisma.uuid nc_id (notificationConfigs d)) (emailNotifications d) = false
  /\ Prisma.has_id wn_notificationConfigId
       (Prisma.uuid nc_id (notificationConfigs d)) (webhookNotifications d)
     = false.
Proof.
  intros Hfk. apply fk_subconfigs_iff in Hfk as [He Hh].
  pose proof (uuid_fresh nc_id (notificationConfigs d)) as Hfresh.
  split.
  - destruct (Prisma.has_id en_notificationConfigId _ _) eqn:E; [|reflexivity].
    apply has_id_true in E as (e & Hin & Hid).
    specialize (He e Hin). congruence.
  - destruct (Prisma.has_id wn_notificationConfigId _ _) eqn:E; [|reflexivity].
    apply has_id_true in E as (h & Hin & Hid).
    specialize (Hh h Hin). congruence.
Qed.

Section ConfigCreate.

Variable is_uuid is_email is_url : string -> bool.
Variable now : nat.

Lemma config_POST_run (su : SessionUser)
    (req : NotificationById.NotificationBody) (d : DB) :
  NotificationCollection.notificationSchema is_uuid is_email is_url req = [] ->
  may_use_group d (NotificationById.nb_groupId req) su = true ->
  Prisma.has_id group_id (NotificationById.nb_groupId req) (groups d) = true ->
  fk_subconfigs d = true ->
  exists cfg d',
    NotificationCollection.POST is_uuid is_email is_url now (Some su) req (healthy d) = (Ok (json (Data (Some cfg)) 201), healthy d')
    /\ Prisma.config cfg
       = {| nc_id := Prisma.uuid nc_id (notificationConfigs d);
            nc_name := NotificationById.nb_name req;
            nc_groupId := NotificationById.nb_groupId req;
            nc_type := NotificationById.nb_type req;
            nc_createdAt := now |}
    /\ notificationConfigs d' = notificationConfigs d ++ [Prisma.config cfg]
    /\ groupUsers d' = groupUsers d
    /\ one_subconfig_of_its_type cfg
    /\ Prisma.notificationConfig_findUnique_include
         (nc_id (Prisma.config cfg)) d' = Some cfg.
Proof.
  intros Hvalid Hmay Hgroup Hfk.
  destruct (no_subconfig_of_a_new_config d Hfk) as [Hne Hnh].
  pose proof (uuid_fresh nc_id (notificationConfigs d)) as Hfresh.
  unfold NotificationCollection.POST, try_catch. rewrite Hvalid.
  rewrite (bind_ok _ _ _ _ _
             (collection_checkGroupAccess_run (healthy d)
                (NotificationById.nb_groupId req) su)).
  cbn [store healthy]. rewrite Hmay. cbn [negb].
  unfold bind at 1, write at 1, Prisma.notificationConfig_create.
  cbn [budget store healthy]. rewrite Hgroup.
  cbn [negb fmap option_fmap option_map].
  set (c := {| nc_id := _; nc_name := _; nc_groupId := _; nc_type := _;
               nc_createdAt := _ |}).
  assert (Hfind : forall d0,
            notificationConfigs d0 = notificationConfigs d ++ [c] ->
            Prisma.notificationConfig_findUnique
              (Prisma.uuid nc_id (notificationConfigs d)) d0 = Some c).
  { intros d0 E. unfold Prisma.notificationConfig_findUnique. rewrite E.
    rewrite (find_by_app_fresh nc_id _ _ _ Hfresh). simpl.
    now rewrite String.eqb_refl. }
  unfold NotificationById.nb_type in c.
  assert (Hcid : nc_id c = Prisma.uuid nc_id (notificationConfigs d))
    by reflexivity.
  destruct (NotificationById.nb_config req) as [recipients|url headers payload]
    eqn:Hbody.
  - set (e := {| en_id := Prisma.uuid en_id (emailNotifications d);
                 en_notificationConfigId := nc_id c;
                 en_recipients := recipients |}).
    set (d2 := with_emailNotifications (emailNotifications d ++ [e])
                 (with_notificationConfigs (notificationConfigs d ++ [c]) d)).
    assert (Hincl :
      Prisma.notificationConfig_findUnique_include (nc_id c) d2
      = Some {| Prisma.config := c; Prisma.emailConfig := Some e;
                Prisma.webhookConfig := None |}).
    { unfold Prisma.notificationConfig_findUnique_include.
      rewrite Hcid, Hfind by reflexivity.
      cbn [fmap option_fmap option_map].
      unfold Prisma.include_configs, Prisma.emailNotification_findUnique,
        Prisma.webhookNotification_findUnique.
      cbn [d2 emailNotifications webhookNotifications with_emailNotifications
           with_notificationConfigs].
      rewrite Hcid, (find_by_app_fresh en_notificationConfigId _ _ _ Hne).
      cbn [e en_notificationConfigId]. rewrite Hcid, String.eqb_refl.
      apply find_by_None in Hnh. now rewrite Hnh. }
    unfold bind, write, ret, query, Prisma.emailNotification_create.
    cbn [budget store nc_id notificationConfigs emailNotifications
         with_notificationConfigs fmap option_fmap option_map].
    rewrite has_id_last, !Hcid, Hne. cbn [negb].
    rewrite <- !Hcid. fold e. fold d2. cbn [store]. rewrite Hincl.
    eexists _, _. split; [reflexivity|].
    split; [reflexivity|]. split; [reflexivity|]. split; [reflexivity|].
    split; [|exact Hincl].
    unfold one_subconfig_of_its_type. simpl. split; [eauto | reflexivity].
  - set (h := {| wn_id := Prisma.uuid wn_id (webhookNotifications d);
                 wn_notificationConfigId := nc_id c; wn_url := url;
                 wn_headers := Js.or headers (JObj []);
                 wn_payload := Js.or payload (JObj []) |}).
    set (d2 := with_webhookNotifications (webhookNotifications d ++ [h])
                 (with_notificationConfigs (notificationConfigs d ++ [c]) d)).
    assert (Hincl :
      Prisma.notificationConfig_findUnique_include (nc_id c) d2
      = Some {| Prisma.config := c; Prisma.emailConfig := None;
                Prisma.webhookConfig := Some h |}).
    { unfold Prisma.notificationConfig_findUnique_include.
      rewrite Hcid, Hfind by reflexivity.
      cbn [fmap option_fmap option_map].
      unfold Prisma.include_configs, Prisma.emailNotification_findUnique,
        Prisma.webhookNotification_findUnique.
      cbn [d2 emailNotifications webhookNotifications with_webhookNotifications
           with_notificationConfigs].
      rewrite Hcid, (find_by_app_fresh wn_notificationConfigId _ _ _ Hnh).
      cbn [h wn_notificationConfigId]. rewrite Hcid, String.eqb_refl.
      apply find_by_None in Hne. now rewrite Hne. }
    unfold bind, write, ret, query, Prisma.webhookNotification_create.
    cbn [budget store nc_id notificationConfigs webhookNotifications
         with_notificationConfigs fmap option_fmap option_map].
    rewrite has_id_last, !Hcid, Hnh. cbn [negb].
    rewrite <- !Hcid. fold h. fold d2. cbn [store]. rewrite Hincl.
    eexists _, _. split; [reflexivity|].
    split; [reflexivity|]. split; [reflexivity|]. split; [reflexivity|].
    split; [|exact Hincl].
    unfold one_subconfig_of_its_type. simpl. split; [reflexivity | eauto].
Qed.


(** X19. On a store whose sub-configs name configurations of the store, and
    without write faults, a member of a group of the store, or a Super Admin,
    who sends a valid notification configuration for that group is answered 201
    with the configuration: a new row under a new identifier, with the name,
    the group and the type of the request, and exactly one sub-config, of that
    type. Read back by the same caller, it is answered 200 with the same
    configuration. *)
Theorem created_config_is_read_back (su : SessionUser)
    (req : NotificationById.NotificationBody) (d : DB) :
  NotificationCollection.notificationSchema is_uuid is_email is_url req = [] ->
  may_use_group d (NotificationById.nb_groupId req) su = true ->
  Prisma.has_id group_id (NotificationById.nb_groupId req) (groups d) = true ->
  fk_subconfigs d = true ->
  exists cfg d',
    NotificationCollection.POST is_uuid is_email is_url now (Some su) req (healthy d) = (Ok (json (Data (Some cfg)) 201), healthy d')
    /\ Prisma.config cfg
       = {| nc_id := Prisma.uuid nc_id (notificationConfigs d);
            nc_name := NotificationById.nb_name req;
            nc_groupId := NotificationById.nb_groupId req;
            nc_type := NotificationById.nb_type req;
            nc_createdAt := now |}
    /\ notificationConfigs d' = notificationConfigs d ++ [Prisma.config cfg]
    /\ one_subconfig_of_its_type cfg
    /\ NotificationById.GET (Some su) (nc_id (Prisma.config cfg)) (healthy d')
       = (Ok (json (Data cfg) 200), healthy d').
Proof.
  intros Hvalid Hmay Hgroup Hfk.
  destruct (config_POST_run su req d Hvalid Hmay Hgroup Hfk)
    as (cfg & d' & Hrun & Hc & Hrows & Hgu & Hone & Hincl).
  exists cfg, d'. split; [exact Hrun|]. split; [exact Hc|].
  split; [exact Hrows|]. split; [exact Hone|].
  pose proof (include_configs_inv _ _ _ Hincl) as (Hfind & _).
  unfold NotificationById.GET, NotificationById.checkNotificationAccess,
    try_catch.
  destruct (is_super_admin (su_role su)) eqn:Hsuper.
  - unfold bind, query, ret. cbn [store healthy negb]. now rewrite Hincl.
  - unfold bind, query, ret. cbn [store healthy]. rewrite Hfind.
    unfold may_use_group in Hmay. rewrite Hsuper in Hmay.
    cbn [orb] in Hmay. unfold Prisma.groupUser_findFirst in *.
    cbn [store healthy].
    assert (Hg : nc_groupId (Prisma.config cfg) = NotificationById.nb_groupId req)
      by now rewrite Hc.
    rewrite Hgu, Hg, Hmay.
    cbn [negb store healthy]. now rewrite Hincl.
Qed.


(** X20. On such a store, a member of a group who does not administer it
    creates a notification configuration for the group, and is then refused,
    403, every update and the deletion of the configuration they created. *)
Theorem member_creates_a_config_but_cannot_change_it (su : SessionUser)
    (req : NotificationById.NotificationBody) (d : DB) :
  NotificationCollection.notificationSchema is_uuid is_email is_url req = [] ->
  may_use_group d (NotificationById.nb_groupId req) su = true ->
  administers_group d (NotificationById.nb_groupId req) su = false ->
  Prisma.has_id group_id (NotificationById.nb_groupId req) (groups d) = true ->
  fk_subconfigs d = true ->
  exists cfg d',
    NotificationCollection.POST is_uuid is_email is_url now (Some su) req (healthy d) = (Ok (json (Data (Some cfg)) 201), healthy d')
    /\ (forall change,
          NotificationById.PUT is_uuid is_email is_url (Some su)
            (nc_id (Prisma.config cfg)) change (healthy d')
          = (Ok (json (Msg "Vous n'êtes pas autorisé à modifier cette configuration de notification") 403),
             healthy d'))
    /\ NotificationById.DELETE (Some su) (nc_id (Prisma.config cfg)) (healthy d')
       = (Ok (json (Msg "Vous n'êtes pas autorisé à supprimer cette configuration de notification") 403),
          healthy d').
Proof.
  intros Hvalid Hmay Hadmin Hgroup Hfk.
  destruct (config_POST_run su req d Hvalid Hmay Hgroup Hfk)
    as (cfg & d' & Hrun & Hc & Hrows & Hgu & Hone & Hincl).
  exists cfg, d'. split; [exact Hrun|].
  pose proof (include_configs_inv _ _ _ Hincl) as (Hfind & _).
  assert (Hno : may_edit_config d' (nc_id (Prisma.config cfg)) su = false).
  { unfold may_edit_config, administers_group in *. rewrite Hfind.
    unfold Prisma.groupUser_findFirst in *. rewrite Hgu, Hc. exact Hadmin. }
  split.
  - intros change. unfold NotificationById.PUT, try_catch.
    rewrite (bind_ok _ _ _ _ _
               (checkGroupAdminAccess_run (healthy d')
                  (nc_id (Prisma.config cfg)) su)).
    cbn [store healthy]. now rewrite Hno.
  - rewrite config_DELETE_run. cbn [store healthy]. now rewrite Hno.
Qed.

End ConfigCreate.

Lemma created_config_is_read_back_witness :
  NotificationCollection.notificationSchema Scenario.accept Scenario.accept
    Scenario.accept Lab.pager = []
  /\ may_use_group Scenario.db (NotificationById.nb_groupId Lab.pager)
       Lab.bob_session = true
  /\ Prisma.has_id group_id (NotificationById.nb_groupId Lab.pager)
       (groups Scenario.db) = true
  /\ fk_subconfigs Scenario.db = true
  /\ exists cfg d',
       NotificationCollection.POST Scenario.accept Scenario.accept
         Scenario.accept 3 (Some Lab.bob_session) Lab.pager (healthy Scenario.db)
       = (Ok (json (Data (Some cfg)) 201), healthy d')
       /\ Prisma.config cfg
          = {| nc_id := Prisma.uuid nc_id (notificationConfigs Scenario.db);
               nc_name := NotificationById.nb_name Lab.pager;
               nc_groupId := NotificationById.nb_groupId Lab.pager;
               nc_type := NotificationById.nb_type Lab.pager;
               nc_createdAt := 3 |}
       /\ notificationConfigs d'
          = notificationConfigs Scenario.db ++ [Prisma.config cfg]
       /\ one_subconfig_of_its_type cfg
       /\ NotificationById.GET (Some Lab.bob_session) (nc_id (Prisma.config cfg))
            (healthy d')
          = (Ok (json (Data cfg) 200), healthy d').
Proof.
  split; [reflexivity|]. split; [reflexivity|]. split; [reflexivity|].
  split; [reflexivity|].
  exact (created_config_is_read_back Scenario.accept Scenario.accept
           Scenario.accept 3 Lab.bob_session Lab.pager Scenario.db
           eq_refl eq_refl eq_refl eq_refl).
Defined.

Lemma member_creates_a_config_but_cannot_change_it_witness :
  NotificationCollection.notificationSchema Scenario.accept Scenario.accept
    Scenario.accept Lab.pager = []
  /\ may_use_group Scenario.db (NotificationById.nb_groupId Lab.pager)
       Lab.bob_session = true
  /\ administers_group Scenario.db (NotificationById.nb_groupId Lab.pager)
       Lab.bob_session = false
  /\ Prisma.has_id group_id (NotificationById.nb_groupId Lab.pager)
       (groups Scenario.db) = true
  /\ fk_subconfigs Scenario.db = true
  /\ exists cfg d',
       NotificationCollection.POST Scenario.accept Scenario.accept
         Scenario.accept 3 (Some Lab.bob_session) Lab.pager (healthy Scenario.db)
       = (Ok (json (Data (Some cfg)) 201), healthy d')
       /\ (forall change,
             NotificationById.PUT Scenario.accept Scenario.accept
               Scenario.accept (Some Lab.bob_session)
               (nc_id (Prisma.config cfg)) change (healthy d')
             = (Ok (json (Msg "Vous n'êtes pas autorisé à modifier cette configuration de notification") 403),
                healthy d'))
       /\ NotificationById.DELETE (Some Lab.bob_session)
            (nc_id (Prisma.config cfg)) (healthy d')
          = (Ok (json (Msg "Vous n'êtes pas autorisé à supprimer cette configuration de notification") 403),
             healthy d').
Proof.
  split; [reflexivity|]. split; [reflexivity|]. split; [reflexivity|].
  split; [reflexivity|]. split; [reflexivity|].
  exact (member_creates_a_config_but_cannot_change_it Scenario.accept
           Scenario.accept Scenario.accept 3 Lab.bob_session Lab.pager
           Scenario.db eq_refl eq_refl eq_refl eq_refl eq_refl).
Defined.

Section SameTypeUpdate.

Variable is_uuid is_email is_url : string -> bool.

Variable su : SessionUser.
Variable id : Id.
Variable req : NotificationById.NotificationBody.
Variable d : DB.
Variable cfg : Prisma.NotificationConfigFull.

Hypothesis Hmay : may_edit_config d id su = true.
Hypothesis Hvalid :
  NotificationById.notificationSchema is_uuid is_email is_url req = [].
Hypothesis Hcfg :
  Prisma.notificationConfig_findUnique_include id d = Some cfg.
Hypothesis Hone : one_subconfig_of_its_type cfg.
Hypothesis Hsame : NotificationById.nb_type req = nc_type (Prisma.config cfg).
Hypothesis Hgroup :
  Prisma.has_id group_id (NotificationById.nb_groupId req) (groups d) = true.


(** X21. An update of a notification configuration of the store that has one
    sub-config, of its type, by a caller who may edit it, with a body that
    passes validation, keeps the type of the configuration and names a group
    of the store, without write faults, answers 200 with the configuration as
    it is stored: the same identifier, type and creation time, the name and
    the group of the request, and the sub-config it had, the same row, with
    the content of the request. No sub-config is deleted or created. *)
Theorem update_of_the_same_type_keeps_the_rows :
  exists updated d',
    NotificationById.PUT is_uuid is_email is_url (Some su) id req (healthy d)
    = (Ok (json (Data (Some updated)) 200), healthy d')
    /\ Prisma.notificationConfig_findUnique_include id d' = Some updated
    /\ Prisma.config updated
       = {| nc_id := id;
            nc_name := NotificationById.nb_name req;
            nc_groupId := NotificationById.nb_groupId req;
            nc_type := nc_type (Prisma.config cfg);
            nc_createdAt := nc_createdAt (Prisma.config cfg) |}
    /\ updated_in_place req cfg updated
    /\ one_subconfig_of_its_type updated.
Proof.
  destruct (include_configs_inv id d cfg Hcfg) as (Hc & Hid & He & Hh).
  pose proof (find_by_has_id _ _ _ _ Hc) as Hcid.
  unfold Prisma.notificationConfig_findUnique in Hcid.
  unfold Prisma.emailNotification_findUnique in He.
  unfold Prisma.webhookNotification_findUnique in Hh.
  unfold one_subconfig_of_its_type in Hone.
  unfold updated_in_place.
  unfold NotificationById.nb_type in *.
  unfold NotificationById.PUT, try_catch, healthy.
  rewrite (bind_ok _ _ _ _ _ (checkGroupAdminAccess_run _ id su)).
  cbn [store]. rewrite Hmay. cbn [negb]. rewrite Hvalid.
  unfold bind at 1, query at 1. cbn [store]. rewrite Hcfg.
  unfold NotificationById.nb_type.
  destruct (nb_config_cases req)
    as [[recipients Hreq] | (url & headers & payload & Hreq)];
    rewrite Hreq in *;
    destruct (nc_type (Prisma.config cfg)) eqn:Htype; try congruence.
  - destruct Hone as [[e Hsome] Hnone].
    rewrite Hsome.
    rewrite ?bool_decide_is_Some_Some, ?bool_decide_is_Some_None.
    change (bool_decide (NotificationChannelType.EMAIL
                         = NotificationChannelType.WEBHOOK)) with false.
    unfold bind, write, ret, query. store_step.
    unfold Prisma.notificationConfig_update. rewrite Hc, Hgroup. store_step.
    unfold Prisma.emailNotification_update, Prisma.emailNotification_findUnique.
    store_step. rewrite He, Hsome. store_step.
    assert (Hfind : Prisma.find_by en_notificationConfigId id (emailNotifications d)
                    = Some e) by congruence.
    pose proof (find_by_Some _ _ _ _ Hfind) as [_ Heid].
    assert (Hlook : forall c' e',
              nc_id c' = id -> en_notificationConfigId e' = id ->
              Prisma.notificationConfig_findUnique_include id
                (with_emailNotifications
                   (Prisma.replace_by en_notificationConfigId id (fun _ => e')
                      (emailNotifications d))
                   (with_notificationConfigs
                      (Prisma.replace_by nc_id id (fun _ => c')
                         (notificationConfigs d)) d))
              = Some {| Prisma.config := c'; Prisma.emailConfig := Some e';
                        Prisma.webhookConfig := None |}).
    { intros c' e' Hc' He'.
      rewrite (looked_up_after_email_delete id d cfg Hcfg c' _ Hc').
      rewrite (find_by_replace_by en_notificationConfigId id e e' _ He' Hfind).
      now rewrite Hh, Hnone. }
    rewrite Hid, !Hlook by reflexivity.
    eexists _, _. split; [reflexivity|]. split; [now apply Hlook|].
    split; [reflexivity|]. split.
    + exists e. split; [reflexivity|]. split; [|reflexivity].
      simpl. now rewrite Heid.
    + unfold one_subconfig_of_its_type. simpl. split; [eauto | reflexivity].
  - destruct Hone as [Hnone [h Hsome]].
    rewrite Hsome.
    rewrite ?bool_decide_is_Some_Some, ?bool_decide_is_Some_None.
    change (bool_decide (NotificationChannelType.WEBHOOK
                         = NotificationChannelType.EMAIL)) with false.
    unfold bind, write, ret, query. store_step.
    unfold Prisma.notificationConfig_update. rewrite Hc, Hgroup. store_step.
    unfold Prisma.webhookNotification_update,
      Prisma.webhookNotification_findUnique.
    store_step. rewrite Hh, Hsome. store_step.
    assert (Hfind : Prisma.find_by wn_notificationConfigId id
                      (webhookNotifications d) = Some h) by congruence.
    pose proof (find_by_Some _ _ _ _ Hfind) as [_ Hhid].
    assert (Hlook : forall c' h',
              nc_id c' = id -> wn_notificationConfigId h' = id ->
              Prisma.notificationConfig_findUnique_include id
                (with_webhookNotifications
                   (Prisma.replace_by wn_notificationConfigId id (fun _ => h')
                      (webhookNotifications d))
                   (with_notificationConfigs
                      (Prisma.replace_by nc_id id (fun _ => c')
                         (notificationConfigs d)) d))
              = Some {| Prisma.config := c'; Prisma.emailConfig := None;
                        Prisma.webhookConfig := Some h' |}).
    { intros c' h' Hc' Hh'.
      rewrite (looked_up_after_webhook_delete id d cfg Hcfg c' _ Hc').
      rewrite (find_by_replace_by wn_notificationConfigId id h h' _ Hh' Hfind).
      now rewrite He, Hnone. }
    rewrite Hid, !Hlook by reflexivity.
    eexists _, _. split; [reflexivity|]. split; [now apply Hlook|].
    split; [reflexivity|]. split.
    + exists h. split; [reflexivity|]. split; [|reflexivity].
      simpl. now rewrite Hhid.
    + unfold one_subconfig_of_its_type. simpl. split; [reflexivity | eauto].
Qed.

End SameTypeUpdate.

Lemma update_of_the_same_type_keeps_the_rows_witness :
  may_edit_config Scenario.db "cfg-mail" alice_session = true
  /\ NotificationById.notificationSchema Scenario.accept Scenario.accept
       Scenario.accept Lab.new_recipients = []
  /\ Prisma.notificationConfig_findUnique_include "cfg-mail" Scenario.db
     = Some mail_cfg
  /\ one_subconfig_of_its_type mail_cfg
  /\ NotificationById.nb_type Lab.new_recipients
     = nc_type (Prisma.config mail_cfg)
  /\ Prisma.has_id group_id (NotificationById.nb_groupId Lab.new_recipients)
       (groups Scenario.db) = true
  /\ exists updated d',
       NotificationById.PUT Scenario.accept Scenario.accept Scenario.accept
         (Some alice_session) "cfg-mail" Lab.new_recipients
         (healthy Scenario.db)
       = (Ok (json (Data (Some updated)) 200), healthy d')
       /\ Prisma.notificationConfig_findUnique_include "cfg-mail" d'
          = Some updated
       /\ Prisma.config updated
          = {| nc_id := "cfg-mail";
               nc_name := NotificationById.nb_name Lab.new_recipients;
               nc_groupId := NotificationById.nb_groupId Lab.new_recipients;
               nc_type := nc_type (Prisma.config mail_cfg);
               nc_createdAt := nc_createdAt (Prisma.config mail_cfg) |}
       /\ updated_in_place Lab.new_recipients mail_cfg updated
       /\ one_subconfig_of_its_type updated.
Proof.
  assert (Hone : one_subconfig_of_its_type mail_cfg)
    by (split; [eexists; reflexivity | reflexivity]).
  split; [reflexivity|]. split; [reflexivity|]. split; [reflexivity|].
  split; [exact Hone|]. split; [reflexivity|]. split; [reflexivity|].
  exact (update_of_the_same_type_keeps_the_rows Scenario.accept Scenario.accept
           Scenario.accept alice_session "cfg-mail" Lab.new_recipients
           Scenario.db mail_cfg eq_refl eq_refl eq_refl Hone eq_refl eq_refl).
Defined.


(** X22. The deletion of a notification configuration the store does not have
    is never answered 404: a Super Admin is answered 500, since the handler
    does not look the configuration up before the deletion, and anyone else
    403. Nothing is written. *)
Theorem config_delete_of_a_missing_config (su : SessionUser) (id : Id)
    (w : World) :
  Prisma.notificationConfig_findUnique id (store w) = None ->
  exists resp,
    NotificationById.DELETE (Some su) id w = (Ok resp, w)
    /\ status resp = if is_super_admin (su_role su) then 500 else 403.
Proof.
  intros Hnone. rewrite config_DELETE_run. unfold may_edit_config.
  rewrite Hnone. destruct (is_super_admin (su_role su)); cbn [orb negb];
    [|eexists; split; reflexivity].
  destruct (write_cases (Prisma.notificationConfig_delete id) w)
    as [(e & ->) | (c & d' & Hfd & _)];
    [eexists; split; reflexivity|].
  unfold Prisma.notificationConfig_delete in Hfd. rewrite Hnone in Hfd.
  discriminate.
Qed.

Lemma config_delete_of_a_missing_config_witness :
  Prisma.notificationConfig_findUnique "cfg-none" Scenario.db = None
  /\ exists resp,
       NotificationById.DELETE (Some Lab.root_session) "cfg-none"
         (healthy Scenario.db)
       = (Ok resp, healthy Scenario.db)
       /\ status resp
          = if is_super_admin (su_role Lab.root_session) then 500 else 403.
Proof.
  split; [reflexivity|].
  exact (config_delete_of_a_missing_config Lab.root_session "cfg-none"
           (healthy Scenario.db) eq_refl).
Defined.

Section ConfigDelete.

Variable is_uuid : string -> bool.
Variable env : Send.SmtpEnv.
Variable now sentNow : nat.
Variable render_html render_text : string -> string -> Js.Props -> string.
Variable sendMail : Send.SmtpEnv -> Send.Mail -> string + JsVal.
Variable fetch : string -> Js.Props -> JsVal -> string + Send.HttpResponse.


(** X23. Whoever may edit a notification configuration to which no
    notification refers deletes it, without write faults, and is answered 200:
    the configuration and its sub-configs are gone, every other configuration
    reads as before, and a send to the deleted configuration is answered 404,
    "Configuration de notification introuvable", and records nothing. *)
Theorem deleted_config_is_gone (su : SessionUser) (id : Id) (d : DB)
    (cfg : Prisma.NotificationConfigFull) :
  may_edit_config d id su = true ->
  Prisma.notificationConfig_findUnique_include id d = Some cfg ->
  Prisma.referred_to [id] d = false ->
  exists d',
    NotificationById.DELETE (Some su) id (healthy d)
    = (Ok (json (Msg "Configuration de notification supprimée avec succès") 200),
       healthy d')
    /\ Prisma.notificationConfig_findUnique id d' = None
    /\ Prisma.emailNotification_findUnique id d' = None
    /\ Prisma.webhookNotification_findUnique id d' = None
    /\ (forall other, other <> id ->
          Prisma.notificationConfig_findUnique_include other d'
          = Prisma.notificationConfig_findUnique_include other d)
    /\ (forall req,
          Send.sendNotificationSchema is_uuid req = [] ->
          Send.sb_notificationConfigId req = id ->
          Send.POST is_uuid env now sentNow render_html render_text sendMail
            fetch req (healthy d')
          = (Ok (json (Msg "Configuration de notification introuvable") 404),
             healthy d')).
Proof.
  intros Hmay Hcfg Hfree.
  apply include_configs_inv in Hcfg as (Hc & Hid & _ & _).
  rewrite config_DELETE_run. cbn [store healthy]. rewrite Hmay. cbn [negb].
  unfold write, Prisma.notificationConfig_delete. cbn [budget store healthy].
  rewrite Hc, Hfree. cbn [fmap option_fmap option_map].
  eexists. split; [reflexivity|].
  assert (Hgone : forall d0, Prisma.notificationConfig_findUnique id
            (with_webhookNotifications
               (Prisma.remove_by wn_notificationConfigId id (webhookNotifications d0))
               (with_emailNotifications
                  (Prisma.remove_by en_notificationConfigId id (emailNotifications d0))
                  (with_notificationConfigs
                     (Prisma.remove_by nc_id id (notificationConfigs d0)) d0)))
            = None).
  { intros d0. unfold Prisma.notificationConfig_findUnique. simpl.
    apply find_by_remove_by. }
  split; [apply Hgone|].
  split; [unfold Prisma.emailNotification_findUnique; simpl;
          apply find_by_remove_by|].
  split; [unfold Prisma.webhookNotification_findUnique; simpl;
          apply find_by_remove_by|].
  split.
  - intros other Hne.
    unfold Prisma.notificationConfig_findUnique_include,
      Prisma.notificationConfig_findUnique. simpl.
    rewrite find_by_remove_by_other by exact Hne.
    destruct (Prisma.find_by nc_id other (notificationConfigs d)) as [c|] eqn:E;
      [|reflexivity].
    simpl. apply find_by_Some in E as [_ E].
    unfold Prisma.include_configs, Prisma.emailNotification_findUnique,
      Prisma.webhookNotification_findUnique. simpl.
    rewrite E, !find_by_remove_by_other by exact Hne. reflexivity.
  - intros req Hvalid Hreq. unfold Send.POST, try_catch. rewrite Hvalid, Hreq.
    unfold bind, query. cbn [store healthy].
    unfold Prisma.notificationConfig_findUnique_include. rewrite Hgone.
    reflexivity.
Qed.

End ConfigDelete.

Lemma deleted_config_is_gone_witness :
  may_edit_config Scenario.db "cfg-mail" alice_session = true
  /\ Prisma.notificationConfig_findUnique_include "cfg-mail" Scenario.db
     = Some mail_cfg
  /\ Prisma.referred_to ["cfg-mail"] Scenario.db = false
  /\ exists d',
       NotificationById.DELETE (Some alice_session) "cfg-mail"
         (healthy Scenario.db)
       = (Ok (json (Msg "Configuration de notification supprimée avec succès") 200),
          healthy d')
       /\ Prisma.notificationConfig_findUnique "cfg-mail" d' = None
       /\ Prisma.emailNotification_findUnique "cfg-mail" d' = None
       /\ Prisma.webhookNotification_findUnique "cfg-mail" d' = None
       /\ (forall other, other <> "cfg-mail" ->
             Prisma.notificationConfig_findUnique_include other d'
             = Prisma.notificationConfig_findUnique_include other Scenario.db)
       /\ (forall req,
             Send.sendNotificationSchema Scenario.accept req = [] ->
             Send.sb_notificationConfigId req = "cfg-mail" ->
             Send.POST Scenario.accept Scenario.smtp 1000 1001 Scenario.render
               Scenario.render Scenario.mail_ok Scenario.http_ok req (healthy d')
             = (Ok (json (Msg "Configuration de notification introuvable") 404),
                healthy d')).
Proof.
  split; [reflexivity|]. split; [reflexivity|]. split; [reflexivity|].
  exact (deleted_config_is_gone Scenario.accept Scenario.smtp 1000 1001
           Scenario.render Scenario.render Scenario.mail_ok Scenario.http_ok
           alice_session "cfg-mail" Scenario.db mail_cfg
           eq_refl eq_refl eq_refl).
Defined.

(** ** Dispatch: what a send records, and two failures before the transport *)

Lemma notification_update_one_more (d d1 d2 : DB) (f : Notification -> Notification)
    (a : Notification) :
  (forall n, n_id (f n) = n_id n) ->
  one_more_notification d d1 ->
  Prisma.notification_update (Prisma.uuid n_id (notifications d)) f d1
  = inr (a, d2) ->
  one_more_notification d d2.
Proof.
  intros Hf (n & -> & Hid). unfold Prisma.notification_update.
  cbn [notifications with_notifications].
  destruct (Prisma.find_by n_id _ _); [|discriminate].
  intros [= _ <-].
  rewrite (replace_by_app_fresh n_id _ _ _ _ (uuid_fresh n_id (notifications d))).
  rewrite Hid, String.eqb_refl.
  exists (f n). split; [reflexivity|]. now rewrite Hf.
Qed.

Lemma write_update_one_more (d : DB) (f : Notification -> Notification)
    (w : World) :
  (forall n, n_id (f n) = n_id n) ->
  one_more_notification d (store w) ->
  one_more_notification d
    (store (snd (write (Prisma.notification_update
                          (Prisma.uuid n_id (notifications d)) f) w))).
Proof.
  intros Hf H.
  destruct (write_cases (Prisma.notification_update
                           (Prisma.uuid n_id (notifications d)) f) w)
    as [(e & ->) | (a & d' & Hfd & ->)]; [exact H|].
  eapply notification_update_one_more; eauto.
Qed.

Section SendFrame.

Variable is_uuid : string -> bool.
Variable env : Send.SmtpEnv.
Variable now sentNow : nat.
Variable render_html render_text : string -> string -> Js.Props -> string.
Variable sendMail : Send.SmtpEnv -> Send.Mail -> string + JsVal.
Variable fetch : string -> Js.Props -> JsVal -> string + Send.HttpResponse.


(** X24. A send, whatever the request, the transports and the write faults,
    either leaves the store as it was or adds one notification under a new
    identifier: no other table changes, and no notification already recorded is
    changed or removed. *)
Theorem send_adds_one_notification_at_most (req : Send.SendBody) (w : World) :
  let d := store w in
  let d' := store (snd (Send.POST is_uuid env now sentNow render_html
                          render_text sendMail fetch req w)) in
  d' = d \/ one_more_notification d d'.
Proof.
  cbv zeta. unfold Send.POST. rewrite snd_try_catch_ret.
  destruct (Send.sendNotificationSchema is_uuid req); [|now left].
  rewrite snd_bind_query.
  destruct (Prisma.notificationConfig_findUnique_include _ (store w))
    as [cfg|]; [|now left].
  rewrite snd_bind_query.
  destruct (Prisma.server_findUnique _ (store w)) as [server|]; [|now left].
  rewrite snd_bind.
  match goal with
  | |- context [match ?m w with _ => _ end] =>
      assert (Hprobe : exists p, m w = (Ok p, w))
  end.
  { destruct (Send.sb_probeId req) as [p|]; [|eexists; reflexivity].
    destruct (String.eqb p ""); eexists; reflexivity. }
  destruct Hprobe as (probe & ->).
  rewrite snd_bind.
  match goal with
  | |- context [write ?f w] =>
      destruct (write_cases f w) as [(e & ->) | (n & d1 & Hfd & ->)]
  end; [now left|].
  right.
  assert (H1 : one_more_notification (store w) d1
               /\ n_id n = Prisma.uuid n_id (notifications (store w))).
  { unfold Prisma.notification_create in Hfd.
    destruct (negb (Prisma.has_id server_id _ _)); [discriminate|].
    destruct (negb (from_option _ _ _)); [discriminate|].
    destruct (negb (Prisma.has_id nc_id _ _)); [discriminate|].
    injection Hfd as <- <-. split; [|reflexivity].
    eexists. split; reflexivity. }
  destruct H1 as [H1 Hn]. rewrite Hn.
  set (w1 := {| store := d1; budget := _ |}).
  assert (Hw1 : one_more_notification (store w) (store w1)) by exact H1.
  clearbody w1.
  rewrite snd_try_catch.
  unfold Send.await.
  destruct (Send.deliver _ _ _ _ _ _ _ _ _) as [error|sendResult].
  - rewrite bind_throw, snd_bind_ret.
    apply write_update_one_more; [reflexivity | exact Hw1].
  - rewrite bind_ret.
    pose proof (write_update_one_more (store w) (Send.mark_sent sentNow) w1
                  (fun _ => eq_refl) Hw1) as H2.
    unfold bind at 1.
    destruct (write (Prisma.notification_update _ (Send.mark_sent sentNow)) w1)
      as [[a|e] w2]; [exact H2|].
    cbn [snd] in H2. rewrite snd_bind_ret.
    apply write_update_one_more; [reflexivity | exact H2].
Qed.

End SendFrame.

Section SendFailures.

Variable is_uuid : string -> bool.
Variable env : Send.SmtpEnv.
Variable now sentNow : nat.
Variable render_html render_text : string -> string -> Js.Props -> string.
Variable sendMail : Send.SmtpEnv -> Send.Mail -> string + JsVal.
Variable fetch : string -> Js.Props -> JsVal -> string + Send.HttpResponse.

Variable req : Send.SendBody.
Variable d : DB.
Variable cfg : Prisma.NotificationConfigFull.
Variable server : Server.

Hypothesis Hvalid : Send.sendNotificationSchema is_uuid req = [].
Hypothesis Hcfg :
  Prisma.notificationConfig_findUnique_include
    (Send.sb_notificationConfigId req) d = Some cfg.
Hypothesis Hserver :
  Prisma.server_findUnique (Send.sb_serverId req) d = Some server.
Hypothesis Hprobe : probe_known req d = true.


(** X25. A send that passes validation and names a configuration and a
    server of the store (and a probe of the store, when it names one), to an
    EMAIL configuration that has its email sub-config, when one of SMTP_HOST,
    SMTP_PORT, SMTP_USER and SMTP_PASS is unset or empty, on a store without
    write faults, is answered 500 with the error "Configuration SMTP
    incomplète", whatever the mail transport would do; the notification is
    recorded, as FAILED with that error. *)
Theorem send_fails_before_the_transport_without_smtp_settings :
  nc_type (Prisma.config cfg) = NotificationChannelType.EMAIL ->
  is_Some (Prisma.emailConfig cfg) ->
  smtp_incomplete env = true ->
  Send.POST is_uuid env now sentNow render_html render_text sendMail fetch req
    (healthy d)
  = (Ok (failed_answer "Configuration SMTP incomplète"),
     recorded (Send.mark_failed "Configuration SMTP incomplète"
                 (pending now req server d)) d).
Proof.
  intros Htype [e He] Hsmtp.
  rewrite (send_run is_uuid env now sentNow render_html render_text sendMail
             fetch req d cfg server Hvalid Hcfg Hserver Hprobe).
  unfold outcome_of, Send.deliver. rewrite Htype, He.
  unfold Send.sendEmail. unfold smtp_incomplete in Hsmtp. rewrite Hsmtp.
  reflexivity.
Qed.


(** X26. A send that passes validation and names a configuration and a
    server of the store (and a probe of the store, when it names one), to a
    configuration that has no sub-config of its declared type, on a store
    without write faults, is answered 500 with the error "Type de notification
    non pris en charge ou configuration incomplète", whatever the transports
    would do; the notification is recorded, as FAILED with that error. *)
Theorem send_fails_when_the_declared_subconfig_is_missing :
  declared_subconfig_missing cfg ->
  Send.POST is_uuid env now sentNow render_html render_text sendMail fetch req
    (healthy d)
  = (Ok (failed_answer
           "Type de notification non pris en charge ou configuration incomplète"),
     recorded (Send.mark_failed
                 "Type de notification non pris en charge ou configuration incomplète"
                 (pending now req server d)) d).
Proof.
  unfold declared_subconfig_missing. intros Hmissing.
  rewrite (send_run is_uuid env now sentNow render_html render_text sendMail
             fetch req d cfg server Hvalid Hcfg Hserver Hprobe).
  unfold outcome_of, Send.deliver.
  destruct (nc_type (Prisma.config cfg)); rewrite Hmissing.
  - reflexivity.
  - now destruct (Prisma.emailConfig cfg).
Qed.

End SendFailures.

Lemma send_fails_before_the_transport_without_smtp_settings_witness :
  Send.sendNotificationSchema Scenario.accept Scenario.down_event = []
  /\ Prisma.notificationConfig_findUnique_include
       (Send.sb_notificationConfigId Scenario.down_event) Scenario.db
     = Some mail_cfg
  /\ Prisma.server_findUnique (Send.sb_serverId Scenario.down_event) Scenario.db
     = Some Scenario.web
  /\ probe_known Scenario.down_event Scenario.db = true
  /\ nc_type (Prisma.config mail_cfg) = NotificationChannelType.EMAIL
  /\ is_Some (Prisma.emailConfig mail_cfg)
  /\ smtp_incomplete Lab.smtp_without_password = true
  /\ Send.POST Scenario.accept Lab.smtp_without_password 1000 1001
       Scenario.render Scenario.render Scenario.mail_ok Scenario.http_ok
       Scenario.down_event (healthy Scenario.db)
     = (Ok (failed_answer "Configuration SMTP incomplète"),
        recorded (Send.mark_failed "Configuration SMTP incomplète"
                    (pending 1000 Scenario.down_event Scenario.web Scenario.db))
          Scenario.db).
Proof.
  assert (Hsub : is_Some (Prisma.emailConfig mail_cfg))
    by (eexists; reflexivity).
  split; [reflexivity|]. split; [reflexivity|]. split; [reflexivity|].
  split; [reflexivity|]. split; [reflexivity|]. split; [exact Hsub|].
  split; [reflexivity|].
  exact (send_fails_before_the_transport_without_smtp_settings Scenario.accept
           Lab.smtp_without_password 1000 1001 Scenario.render Scenario.render
           Scenario.mail_ok Scenario.http_ok Scenario.down_event Scenario.db
           mail_cfg Scenario.web eq_refl eq_refl eq_refl eq_refl
           eq_refl Hsub eq_refl).
Defined.

Lemma send_fails_when_the_declared_subconfig_is_missing_witness :
  let cfg := Prisma.include_configs Lab.db_without_mail_subconfig
               Scenario.cfg_mail in
  Send.sendNotificationSchema Scenario.accept Scenario.down_event = []
  /\ Prisma.notificationConfig_findUnique_include
       (Send.sb_notificationConfigId Scenario.down_event)
       Lab.db_without_mail_subconfig
     = Some cfg
  /\ Prisma.server_findUnique (Send.sb_serverId Scenario.down_event)
       Lab.db_without_mail_subconfig
     = Some Scenario.web
  /\ probe_known Scenario.down_event Lab.db_without_mail_subconfig = true
  /\ declared_subconfig_missing cfg
  /\ Send.POST Scenario.accept Scenario.smtp 1000 1001 Scenario.render
       Scenario.render Scenario.mail_ok Scenario.http_ok Scenario.down_event
       (healthy Lab.db_without_mail_subconfig)
     = (Ok (failed_answer
              "Type de notification non pris en charge ou configuration incomplète"),
        recorded (Send.mark_failed
                    "Type de notification non pris en charge ou configuration incomplète"
                    (pending 1000 Scenario.down_event Scenario.web
                       Lab.db_without_mail_subconfig))
          Lab.db_without_mail_subconfig).
Proof.
  cbv zeta.
  split; [reflexivity|]. split; [reflexivity|]. split; [reflexivity|].
  split; [reflexivity|]. split; [reflexivity|].
  exact (send_fails_when_the_declared_subconfig_is_missing Scenario.accept
           Scenario.smtp 1000 1001 Scenario.render Scenario.render
           Scenario.mail_ok Scenario.http_ok Scenario.down_event
           Lab.db_without_mail_subconfig
           (Prisma.include_configs Lab.db_without_mail_subconfig
              Scenario.cfg_mail)
           Scenario.web eq_refl eq_refl eq_refl eq_refl eq_refl).
Defined.


(** X27. The headers of a webhook request are those of the configuration,
    each named once there, with "Content-Type: application/json" when the
    configuration names no content type: a header of the configuration
    overrides the default, and a configuration without headers sends the
    default alone. *)
Theorem webhook_headers_override_the_default (h : Js.Props) (k : string) :
  List.NoDup (js_keys h) ->
  Js.get k (request_headers (JObj h))
  = match Js.get k h with
    | Some v => Some v
    | None =>
        if String.eqb k "Content-Type" then Some (JStr "application/json")
        else None
    end
  /\ request_headers (Js.or JNull (JObj []))
     = [("Content-Type", JStr "application/json")]
  /\ forall fetch url template data,
       Send.sendWebhook fetch url (JObj h) template data
       = match fetch url (request_headers (JObj h))
                 (Send.webhook_body (Send.webhook_payload template data)) with
         | inl e => inl e
         | inr response =>
             if negb (Send.ok response) then
               inl ("Erreur lors de l'envoi du webhook: "
                    +:+ pretty (Send.http_status response) +:+ " "
                    +:+ Send.statusText response)
             else Send.response_json response
         end.
Proof.
  intros Hnd. split; [|split; reflexivity].
  unfold request_headers, Js.spread. cbn [Js.own_props].
  rewrite JsFacts.get_assign_all, (JsFacts.get_rev_NoDup k h Hnd).
  destruct (Js.get k h); [reflexivity|]. simpl.
  now destruct (String.eqb k "Content-Type").
Qed.

Lemma webhook_headers_override_the_default_witness :
  List.NoDup (js_keys Lab.token_headers)
  /\ Js.get "Content-Type" (request_headers (JObj Lab.token_headers))
     = Some (JStr "text/plain")
  /\ Js.get "Content-Type" (request_headers (JObj Lab.token_headers))
     = match Js.get "Content-Type" Lab.token_headers with
       | Some v => Some v
       | None =>
           if String.eqb "Content-Type" "Content-Type"
           then Some (JStr "application/json") else None
       end
  /\ request_headers (Js.or JNull (JObj []))
     = [("Content-Type", JStr "application/json")]
  /\ forall fetch url template data,
       Send.sendWebhook fetch url (JObj Lab.token_headers) template data
       = match fetch url (request_headers (JObj Lab.token_headers))
                 (Send.webhook_body (Send.webhook_payload template data)) with
         | inl e => inl e
         | inr response =>
             if negb (Send.ok response) then
               inl ("Erreur lors de l'envoi du webhook: "
                    +:+ pretty (Send.http_status response) +:+ " "
                    +:+ Send.statusText response)
             else Send.response_json response
         end.
Proof.
  assert (Hnd : List.NoDup (js_keys Lab.token_headers)).
  { constructor; [intros [E|[]]; discriminate E|].
    constructor; [intros []|]. constructor. }
  split; [exact Hnd|]. split; [reflexivity|].
  exact (webhook_headers_override_the_default Lab.token_headers "Content-Type"
           Hnd).
Defined.

(** ** C1: AccessDenied and NotFound, on the routes of a resource *)

Lemma is_group_admin_true (r : GroupRole.t) :
  is_group_admin r = true <-> r = GroupRole.ADMIN.
Proof. unfold is_group_admin. apply bool_decide_eq_true. Qed.

Lemma admin_row_iff (d : DB) (userId groupId : Id) :
  bool_decide
    (is_Some
       (Prisma.groupUser_findFirst
          (fun m => String.eqb (gu_userId m) userId
                    && String.eqb (gu_groupId m) groupId
                    && is_group_admin (gu_role m)) d)) = true
  <-> holds_admin_membership d userId groupId.
Proof.
  unfold Prisma.groupUser_findFirst, holds_admin_membership.
  rewrite find_is_Some. split.
  - intros (m & Hin & Hm). apply andb_prop in Hm as [Hm Hr].
    apply andb_prop in Hm as [Hu Hg].
    apply String.eqb_eq in Hu, Hg. apply is_group_admin_true in Hr.
    exists m. auto.
  - intros (m & Hin & Hu & Hg & Hr). exists m. split; [exact Hin|].
    rewrite Hu, Hg, Hr, !String.eqb_refl. reflexivity.
Qed.

Lemma may_edit_config_false (d : DB) (id : Id) (su : SessionUser) :
  su_role su <> UserRole.SUPER_ADMIN ->
  (forall c, Prisma.notificationConfig_findUnique id d = Some c ->
             ~ holds_admin_membership d (su_id su) (nc_groupId c)) ->
  may_edit_config d id su = false.
Proof.
  intros Hns Hno. unfold may_edit_config.
  destruct (is_super_admin (su_role su)) eqn:Hs;
    [apply is_super_admin_true in Hs; contradiction|].
  cbn [orb]. destruct (Prisma.notificationConfig_findUnique id d) as [c|];
    [|reflexivity].
  destruct (bool_decide _) eqn:E; [|reflexivity].
  apply admin_row_iff in E. now destruct (Hno c eq_refl).
Qed.

Lemma may_administer_false (d : DB) (groupId userId : Id) :
  ~ stored_super_admin d userId ->
  ~ holds_admin_membership d userId groupId ->
  may_administer d groupId userId = false.
Proof.
  intros Hns Hno. unfold may_administer.
  destruct (role_is_super_admin _) eqn:Hs;
    [apply role_is_super_admin_true in Hs; contradiction|].
  cbn [orb]. destruct (bool_decide _) eqn:E; [|reflexivity].
  unfold GroupMembers.same_member in E. apply admin_row_iff in E.
  contradiction.
Qed.

Lemma bind_Ok_inv {A B} (m : M A) (k : A -> M B) (w w' : World) (r : B) :
  bind m k w = (Ok r, w') ->
  exists a w1, m w = (Ok a, w1) /\ k a w1 = (Ok r, w').
Proof.
  unfold bind. destruct (m w) as [[a|e] w1]; [eauto | discriminate].
Qed.

Section ConfigRoutes.

Variable is_uuid is_email is_url : string -> bool.

Lemma notification_PUT_status (su : SessionUser) (id : Id)
    (req : NotificationById.NotificationBody) (w : World) :
  exists resp w',
    NotificationById.PUT is_uuid is_email is_url (Some su) id req w
    = (Ok resp, w')
    /\ (may_edit_config (store w) id su = false -> status resp = 403 /\ w' = w)
    /\ (status resp = 404 ->
        Prisma.notificationConfig_findUnique id (store w) = None).
Proof.
  unfold NotificationById.PUT, try_catch.
  rewrite (bind_ok _ _ _ _ _ (checkGroupAdminAccess_run w id su)).
  destruct (may_edit_config (store w) id su) eqn:Hmay; cbn [negb];
    [|eexists _, _; split; [reflexivity|]; split;
      [intros _; split; reflexivity | discriminate]].
  destruct (NotificationById.notificationSchema is_uuid is_email is_url req);
    [|eexists _, _; split; [reflexivity|]; split; discriminate].
  unfold bind at 1, query at 1.
  destruct (Prisma.notificationConfig_findUnique_include id (store w))
    as [cfg|] eqn:Hcfg.
  - match goal with
    | |- context [match ?m w with _ => _ end] =>
        destruct (m w) as [[r|e] w'] eqn:Hm
    end.
    + eexists _, _. split; [reflexivity|]. split; [discriminate|].
      apply bind_Ok_inv in Hm as (? & w1 & _ & Hm).
      apply bind_Ok_inv in Hm as (? & w2 & _ & Hm).
      apply bind_Ok_inv in Hm as (updated & w3 & _ & Hm).
      injection Hm as <- _. discriminate.
    + eexists _, _. split; [reflexivity|]. split; discriminate.
  - eexists _, _. split; [reflexivity|]. split; [discriminate|].
    intros _. unfold Prisma.notificationConfig_findUnique_include in Hcfg.
    now destruct (Prisma.notificationConfig_findUnique id (store w)).
Qed.

End ConfigRoutes.

Lemma notification_DELETE_status (su : SessionUser) (id : Id) (w : World) :
  exists resp w',
    NotificationById.DELETE (Some su) id w = (Ok resp, w')
    /\ (may_edit_config (store w) id su = false -> status resp = 403 /\ w' = w)
    /\ status resp <> 404.
Proof.
  rewrite config_DELETE_run.
  destruct (may_edit_config (store w) id su); cbn [negb];
    [|eexists _, _; split; [reflexivity|]; split;
      [intros _; split; reflexivity | discriminate]].
  destruct (write (Prisma.notificationConfig_delete id) w) as [[c|e] w'];
    eexists _, _; (split; [reflexivity|]); split; discriminate.
Qed.

Lemma group_PUT_status (su : SessionUser) (id : Id)
    (req : GroupById.UpdateGroupBody) (w : World) :
  exists resp w',
    GroupById.PUT (Some su) id req w = (Ok resp, w')
    /\ (may_administer (store w) id (su_id su) = false ->
        status resp = 403 /\ w' = w)
    /\ status resp <> 404.
Proof.
  rewrite group_PUT_run.
  destruct (may_administer (store w) id (su_id su)); cbn [negb];
    [|eexists _, _; split; [reflexivity|]; split;
      [intros _; split; reflexivity | discriminate]].
  destruct (GroupById.updateGroupSchema req);
    [|eexists _, _; split; [reflexivity|]; split; discriminate].
  destruct (write _ w) as [[g|e] w'];
    eexists _, _; (split; [reflexivity|]); split; discriminate.
Qed.

Lemma group_DELETE_status (su : SessionUser) (id : Id) (w : World) :
  exists resp w',
    GroupById.DELETE (Some su) id w = (Ok resp, w')
    /\ (is_super_admin (su_role su) = false -> status resp = 403 /\ w' = w)
    /\ (status resp = 404 -> Prisma.group_findUnique id (store w) = None)
    /\ (Prisma.group_findUnique id (store w) = None ->
        is_super_admin (su_role su) = true -> status resp = 404 /\ w' = w).
Proof.
  rewrite group_DELETE_run.
  destruct (is_super_admin (su_role su)); cbn [negb];
    [|eexists _, _; split; [reflexivity|]; split;
      [intros _; split; reflexivity|]; split; discriminate].
  destruct (Prisma.group_findUnique id (store w)) as [g|];
    [|eexists _, _; split; [reflexivity|]; split; [discriminate|]; split;
      [reflexivity | intros _ _; split; reflexivity]].
  destruct (Nat.ltb 0 _);
    [eexists _, _; split; [reflexivity|]; split; [discriminate|]; split;
       discriminate|].
  destruct (write (Prisma.group_delete id) w) as [[g'|e] w'];
    eexists _, _; (split; [reflexivity|]); (split; [discriminate|]); split;
      discriminate.
Qed.

(** C1, as the code has it. For an authenticated actor, on the routes of
    one notification configuration, of one group and of the probes of a
    server: an existing resource whose route asks for rights the actor lacks
    is answered 403, and the write routes then write nothing; 404 is answered
    only when the resource does not exist; a resource that does not exist is
    answered 403 to an actor who is not SUPER_ADMIN (and, for a group, holds
    no membership that names it). To a SUPER_ADMIN, GET of a missing
    configuration or group and DELETE of a missing group answer 404, and GET
    of the probes of a missing server answers 200. The rights are: to view,
    for GET; SUPER_ADMIN or an ADMIN membership in the group of the
    configuration, for its PUT and DELETE; SUPER_ADMIN or an ADMIN membership
    in the group, for its PUT; SUPER_ADMIN, for its DELETE. SUPER_ADMIN is the
    role of the session, and for GET and PUT of a group the stored role. *)
Theorem access_denied_when_unauthorized_or_missing
    (is_uuid is_email is_url : string -> bool)
    (w : World) (su : SessionUser) (id : Id) :
  (exists resp,
     NotificationById.GET (Some su) id w = (Ok resp, w)
     /\ (forall c,
           Prisma.notificationConfig_findUnique id (store w) = Some c ->
           ~ can_view_config (store w) su c -> status resp = 403)
     /\ (status resp = 404 ->
         Prisma.notificationConfig_findUnique id (store w) = None)
     /\ (Prisma.notificationConfig_findUnique id (store w) = None ->
         status resp = if is_super_admin (su_role su) then 404 else 403))
  /\ (forall req,
      exists resp w',
        NotificationById.PUT is_uuid is_email is_url (Some su) id req w
        = (Ok resp, w')
        /\ (forall c,
              Prisma.notificationConfig_findUnique id (store w) = Some c ->
              ~ can_edit_config (store w) su c -> status resp = 403 /\ w' = w)
        /\ (status resp = 404 ->
            Prisma.notificationConfig_findUnique id (store w) = None)
        /\ (Prisma.notificationConfig_findUnique id (store w) = None ->
            su_role su <> UserRole.SUPER_ADMIN ->
            status resp = 403 /\ w' = w))
  /\ (exists resp w',
        NotificationById.DELETE (Some su) id w = (Ok resp, w')
        /\ (forall c,
              Prisma.notificationConfig_findUnique id (store w) = Some c ->
              ~ can_edit_config (store w) su c -> status resp = 403 /\ w' = w)
        /\ status resp <> 404
        /\ (Prisma.notificationConfig_findUnique id (store w) = None ->
            su_role su <> UserRole.SUPER_ADMIN ->
            status resp = 403 /\ w' = w))
  /\ (exists resp,
        GroupById.GET (Some su) id w = (Ok resp, w)
        /\ (forall g,
              Prisma.group_findUnique id (store w) = Some g ->
              ~ stored_super_admin (store w) (su_id su) ->
              ~ holds_membership (store w) (su_id su) [id] ->
              status resp = 403)
        /\ (status resp = 404 -> Prisma.group_findUnique id (store w) = None)
        /\ (Prisma.group_findUnique id (store w) = None ->
            (stored_super_admin (store w) (su_id su) -> status resp = 404)
            /\ (~ stored_super_admin (store w) (su_id su) ->
                ~ holds_membership (store w) (su_id su) [id] ->
                status resp = 403)))
  /\ (forall req,
      exists resp w',
        GroupById.PUT (Some su) id req w = (Ok resp, w')
        /\ (~ stored_super_admin (store w) (su_id su) ->
            ~ holds_admin_membership (store w) (su_id su) id ->
            status resp = 403 /\ w' = w)
        /\ status resp <> 404)
  /\ (exists resp w',
        GroupById.DELETE (Some su) id w = (Ok resp, w')
        /\ (su_role su <> UserRole.SUPER_ADMIN -> status resp = 403 /\ w' = w)
        /\ (status resp = 404 -> Prisma.group_findUnique id (store w) = None)
        /\ (Prisma.group_findUnique id (store w) = None ->
            su_role su = UserRole.SUPER_ADMIN -> status resp = 404 /\ w' = w))
  /\ (exists resp,
        Probes.GET (Some su) id w = (Ok resp, w)
        /\ (forall s,
              Prisma.server_findUnique id (store w) = Some s ->
              ~ can_view_server (store w) su s -> status resp = 403)
        /\ status resp <> 404
        /\ (Prisma.server_findUnique id (store w) = None ->
            status resp = if is_super_admin (su_role su) then 200 else 403)).
Proof.
  assert (Hedit : forall c,
            Prisma.notificationConfig_findUnique id (store w) = Some c ->
            ~ can_edit_config (store w) su c ->
            may_edit_config (store w) id su = false).
  { intros c Hc Hno. apply may_edit_config_false.
    - intros E. apply Hno. now left.
    - intros c' Hc' Hm. rewrite Hc in Hc'. injection Hc' as <-.
      apply Hno. now right. }
  assert (Hmissing :
            Prisma.notificationConfig_findUnique id (store w) = None ->
            su_role su <> UserRole.SUPER_ADMIN ->
            may_edit_config (store w) id su = false).
  { intros Hnone Hns. apply may_edit_config_false; [exact Hns|].
    intros c Hc. congruence. }
  assert (Hrole : forall r, r <> UserRole.SUPER_ADMIN <-> is_super_admin r = false).
  { intros r. rewrite <- is_super_admin_true. now destruct (is_super_admin r). }
  split; [|split; [|split; [|split; [|split; [|split]]]]].
  - destruct (notification_GET_status w su id) as (resp & Hrun & Hst).
    exists resp. split; [exact Hrun|]. rewrite Hst. clear Hrun Hst.
    destruct (Prisma.notificationConfig_findUnique id (store w)) as [c|].
    + split; [|split; [|discriminate]].
      * intros c' [= <-] Hno.
        destruct (is_super_admin (su_role su)) eqn:Hs.
        { exfalso. apply Hno. left. now apply is_super_admin_true. }
        simpl. destruct (bool_decide _) eqn:Hm; [|reflexivity].
        exfalso. apply Hno. right. now apply member_row_iff.
      * destruct (_ || _); discriminate.
    + split; [discriminate|]. split; reflexivity.
  - intros req.
    destruct (notification_PUT_status is_uuid is_email is_url su id req w)
      as (resp & w' & Hrun & Hdenied & H404).
    exists resp, w'. split; [exact Hrun|]. split; [|split; [exact H404|]].
    + intros c Hc Hno. apply Hdenied. now apply (Hedit c).
    + intros Hnone Hns. apply Hdenied. now apply Hmissing.
  - destruct (notification_DELETE_status su id w)
      as (resp & w' & Hrun & Hdenied & H404).
    exists resp, w'. split; [exact Hrun|]. split; [|split; [exact H404|]].
    + intros c Hc Hno. apply Hdenied. now apply (Hedit c).
    + intros Hnone Hns. apply Hdenied. now apply Hmissing.
  - destruct (group_GET_status w su id) as (resp & Hrun & Hst).
    exists resp. split; [exact Hrun|]. rewrite Hst. clear Hrun Hst.
    destruct (role_is_super_admin _) eqn:Hs; simpl.
    + split; [|split].
      * intros g _ Hno. exfalso. apply Hno.
        now apply role_is_super_admin_true.
      * destruct (Prisma.group_findUnique id (store w));
          [discriminate | reflexivity].
      * intros ->. split; [reflexivity|].
        intros Hno. exfalso. apply Hno. now apply role_is_super_admin_true.
    + assert (Hns : ~ stored_super_admin (store w) (su_id su)).
      { intros Hsa. apply role_is_super_admin_true in Hsa. congruence. }
      destruct (bool_decide _) eqn:Hm.
      * apply member_row_iff' in Hm. split; [|split].
        -- intros g _ _ Hno. contradiction.
        -- destruct (Prisma.group_findUnique id (store w));
             [discriminate | reflexivity].
        -- intros _. split; [intros Hsa; contradiction|].
           intros _ Hno. contradiction.
      * split; [reflexivity|]. split; [discriminate|].
        intros _. split; [intros Hsa; contradiction | reflexivity].
  - intros req.
    destruct (group_PUT_status su id req w)
      as (resp & w' & Hrun & Hdenied & H404).
    exists resp, w'. split; [exact Hrun|]. split; [|exact H404].
    intros Hns Hno. apply Hdenied. now apply may_administer_false.
  - destruct (group_DELETE_status su id w)
      as (resp & w' & Hrun & Hdenied & H404 & Hnone).
    exists resp, w'. split; [exact Hrun|]. split; [|split; [exact H404|]].
    + intros Hns. apply Hdenied. now apply Hrole.
    + intros Hg Hs. apply Hnone; [exact Hg|]. now apply is_super_admin_true.
  - destruct (probes_GET_status w su id) as (resp & Hrun & Hst).
    exists resp. split; [exact Hrun|]. rewrite Hst. clear Hrun Hst.
    destruct (is_super_admin (su_role su)) eqn:Hs.
    + split; [|split; [discriminate | reflexivity]].
      intros s _ Hno. exfalso. apply Hno. left. now apply is_super_admin_true.
    + destruct (Prisma.server_findUnique id (store w)) as [s|].
      * split; [|split; [|discriminate]].
        -- intros s' [= <-] Hno. destruct (Nat.ltb _ _) eqn:Hm; [|reflexivity].
           exfalso. apply Hno. right. now apply member_count_iff.
        -- destruct (Nat.ltb _ _); discriminate.
      * split; [discriminate|]. split; [discriminate | reflexivity].
Qed.
